(** * Synthetic surface meshes from a biventricular statistical shape model

    A shallow embedding of [generate_surface_meshes.py]: the sampler
    ([sample]), the linear reconstruction ([samples @ components + mean]),
    the mesh builder ([pointcloud2surface]) and the orchestration
    ([generate_synthetic_mesh]), followed by the properties of each.

    Conventions of the embedding.
    - numpy's float64 entries are idealised as real numbers ([R]); the
      array operations keep numpy's shapes and broadcasting rules.
    - The one place where the program turns a floating-point value into
      an integer, [math.floor(math.log(num_samples, 10))], is modelled
      with IEEE-754 binary64 arithmetic ([PrimFloat]).
    - A VTK point array has a scalar type; a coordinate written into an
      array of floats is rounded to the nearest binary32 value
      ([round_float32]), one written into an array of doubles is kept.
    - Python exceptions are values of [exn]; a computation runs in the
      monad [py], which threads the [world] (file system, random stream,
      object heap, console and written files) and keeps the effects done
      before an exception was raised. *)

From Stdlib Require Import Reals Lra Ascii String DecimalString.
From Stdlib Require PrimFloat SpecFloat FloatOps DecimalNat.
From stdpp Require Import gmap strings list.

Local Open Scope Z_scope.

(** ** Python values, exceptions, results *)

Inductive exn : Type :=
| ValueError          (* numpy shape errors, math domain errors *)
| IndexError          (* numpy index out of bounds *)
| TypeError
| ZeroDivisionError
| OverflowError
| OSError             (* os.mkdir and h5py.File failures *)
| AttributeError.     (* method call on a reference that holds no object *)

Inductive result (A : Type) : Type :=
| Ok (a : A)
| Raise (e : exn).
Arguments Ok {A} a.
Arguments Raise {A} e.

Definition bind_result {A B} (r : result A) (k : A -> result B) : result B :=
  match r with
  | Ok a => k a
  | Raise e => Raise e
  end.

(** What [generate_synthetic_mesh] hands back: [False], or the [None] of
    a function body that falls off its end. *)
Inductive pyval : Type :=
| PyBool (b : bool)
| PyNone.

(** Python truthiness, [bool(v)]. *)
Definition truthy (v : pyval) : bool :=
  match v with
  | PyBool b => b
  | PyNone => false
  end.

(** The four messages printed by [generate_synthetic_mesh], by content. *)
Inductive report : Type :=
| PathNotFound (input_path : string)
| InvalidSampleCount (num_samples : Z)
| InvalidComponentCount (num_components : Z)
| InvalidBoundary (boundary : R).

(** ** numpy arrays *)

Abbreviation vector := (list R).

(** A 2-D array: numpy keeps the column count even when there is no row. *)
Record matrix : Type := Matrix { ncols : nat; rows : list vector }.

Definition nrows (m : matrix) : nat := length (rows m).
Definition mshape (m : matrix) : nat * nat := (nrows m, ncols m).
Definition entry (m : matrix) (i j : nat) : R := nth j (nth i (rows m) []) 0%R.

(** Every row has [ncols] entries. *)
Definition matrix_wf (m : matrix) : Prop :=
  Forall (fun r => length r = ncols m) (rows m).

Definition tabulate {A} (n : nat) (f : nat -> A) : list A := map f (seq 0 n).

(** An array of any rank, for the [pointcloud] argument:
    [shape] and the entries in row-major order. *)
Record ndarray : Type := NdArray { shape : list nat; data : list R }.

Definition ndarray_wf (a : ndarray) : Prop :=
  length (data a) = foldr Nat.mul 1%nat (shape a).

Definition ndim (a : ndarray) : nat := length (shape a).

(** [a[i]] for a non-negative integer [i]: the [i]-th slice along axis 0. *)
Definition ndarray_getitem (a : ndarray) (i : nat) : result ndarray :=
  match shape a with
  | [] => Raise IndexError
  | n :: rest =>
      if (i <? n)%nat
      then let sz := foldr Nat.mul 1%nat rest in
           Ok (NdArray rest (take sz (drop (i * sz) (data a))))
      else Raise IndexError
  end.

(** A 0-d array passed where VTK expects a C double. *)
Definition as_double (a : ndarray) : result R :=
  match shape a, data a with
  | [], [x] => Ok x
  | _, _ => Raise TypeError
  end.

(** [np.reshape(a, (-1, 3))] *)
Definition np_reshape_rows3 (a : ndarray) : result ndarray :=
  let size := length (data a) in
  if (size mod 3 =? 0)%nat
  then Ok (NdArray [(size / 3)%nat; 3%nat] (data a))
  else Raise ValueError.

(** [m[i]] on a 2-D array, for [i] in [range]. *)
Definition matrix_getitem (m : matrix) (i : nat) : result ndarray :=
  match rows m !! i with
  | Some r => Ok (NdArray [ncols m] r)
  | None => Raise IndexError
  end.

(** [np.clip(x, lo, hi)] is [minimum(maximum(x, lo), hi)]. *)
Definition clip (x lo hi : R) : R := Rmin (Rmax x lo) hi.

Definition np_clip (m : matrix) (lo hi : R) : matrix :=
  Matrix (ncols m) (map (map (fun x => clip x lo hi)) (rows m)).

(** [np.sqrt] on a vector. numpy yields nan on a negative entry; the
    model is meant for the non-negative variances of a PCA model. *)
Definition np_sqrt (v : vector) : vector := map sqrt v.

(** Broadcasting of one trailing dimension against another. *)
Definition broadcast_dim (a b : nat) : option nat :=
  if (a =? b)%nat then Some a
  else if (a =? 1)%nat then Some b
  else if (b =? 1)%nat then Some a
  else None.

(** Index into a dimension of size [d] that is broadcast when [d = 1]. *)
Definition bidx (d j : nat) : nat := if (d =? 1)%nat then 0%nat else j.

(** [m op v] for a 2-D [m] and a 1-D [v], with numpy broadcasting. *)
Definition broadcast_rows (op : R -> R -> R) (m : matrix) (v : vector)
  : result matrix :=
  match broadcast_dim (ncols m) (length v) with
  | None => Raise ValueError
  | Some w =>
      Ok (Matrix w
            (map (fun r => tabulate w (fun j =>
                    op (nth (bidx (ncols m) j) r 0%R)
                       (nth (bidx (length v) j) v 0%R)))
                 (rows m)))
  end.

Definition dot (a b : vector) : R :=
  foldr Rplus 0%R (zip_with Rmult a b).

Definition column (m : matrix) (j : nat) : vector :=
  map (fun r => nth j r 0%R) (rows m).

(** [a @ b] on 2-D arrays. *)
Definition matmul (a b : matrix) : result matrix :=
  if (ncols a =? nrows b)%nat
  then Ok (Matrix (ncols b)
             (map (fun r => tabulate (ncols b) (fun j => dot r (column b j)))
                  (rows a)))
  else Raise ValueError.

(** [m[:k]] and [v[:k]] for [k >= 0]. *)
Definition matrix_take (k : nat) (m : matrix) : matrix :=
  Matrix (ncols m) (take k (rows m)).

Definition zeros (n k : nat) : matrix := Matrix k (replicate n (replicate k 0%R)).

(** ** The world the program runs in *)

(** What [SSM.h5] holds: [components] (C x D), [mean] (D),
    [explained_variance] (C). *)
Record pca_model : Type := PcaModel {
  components : matrix;
  mean : vector;
  explained_variance : vector
}.

Definition point : Type := R * R * R.

(** The scalar type of a VTK point array. A legacy [.vtk] file declares it
    ([POINTS n float] or [POINTS n double]) and the reader builds the array
    of that type; every coordinate written into the array afterwards is
    converted to it. The model covers the two floating-point types. *)
Inductive vtk_scalar : Type :=
| VTK_FLOAT
| VTK_DOUBLE.

(** The integer nearest to [x], ties to the even one. *)
Definition round_half_even (x : R) : Z :=
  let f := Int_part x in
  let d := (x - IZR f)%R in
  if Rlt_dec d (1 / 2) then f
  else if Rlt_dec (1 / 2) d then f + 1
  else if Z.even f then f else f + 1.

(** The exponent of the last place of the binary32 values around [x]:
    24 significant bits, 23 of them below the leading one, and no exponent
    below -149 (subnormal numbers). *)
Definition float32_exponent (x : R) : Z :=
  Z.max (Int_part (ln (Rabs x) / ln 2) - 23) (-149).

(** The C conversion of a double to a float: the nearest binary32 value,
    ties to even. Beyond the largest float the conversion gives an
    infinity, which the real numbers do not have: like the doubles
    themselves, the model covers finite values. *)
Definition round_float32 (x : R) : R :=
  if Req_dec_T x 0 then 0%R
  else let e := float32_exponent x in
       (IZR (round_half_even (x * powerRZ 2 (- e))) * powerRZ 2 e)%R.

(** What a point array of scalar type [t] holds once it was given [x]. *)
Definition store (t : vtk_scalar) (x : R) : R :=
  match t with
  | VTK_FLOAT => round_float32 x
  | VTK_DOUBLE => x
  end.

Definition store_point (t : vtk_scalar) (p : point) : point :=
  let '(x, y, z) := p in (store t x, store t y, store t z).

(** A VTK unstructured grid: the scalar type of its point array, the
    ordered vertex positions and the cells, each a cell type with the
    vertex ids it connects. *)
Record vtkUnstructuredGrid : Type := Grid {
  point_type : vtk_scalar;
  points : list point;
  cells : list (nat * list nat)
}.

Definition empty_grid : vtkUnstructuredGrid := Grid VTK_FLOAT [] [].

(** Python object references to grids. *)
Definition loc := nat.

(** One call of the VTK writer: directory, file name, the grid object it
    was given and the contents of that object at the time of writing. *)
Record write_event : Type := WriteEvent {
  w_dir : string;
  w_name : string;
  w_obj : loc;
  w_grid : vtkUnstructuredGrid
}.

Record world : Type := World {
  fs : gset string;                         (* paths that exist *)
  mkdir_ok : string -> bool;                (* would the OS create this directory *)
  h5_files : gmap string pca_model;         (* <dir>/SSM.h5, by directory *)
  vtk_files : gmap string vtkUnstructuredGrid;  (* <dir>/mean_shape.vtk *)
  rng : nat -> R;                           (* upcoming draws of the global generator *)
  c_log : PrimFloat.float -> PrimFloat.float;   (* the C library's log *)
  heap : gmap loc vtkUnstructuredGrid;      (* live grid objects *)
  stdout : list report;                     (* printed messages, oldest first *)
  written : list write_event                (* writer calls, oldest first *)
}.

Definition set_fs (f : gset string) (w : world) : world :=
  World f (mkdir_ok w) (h5_files w) (vtk_files w) (rng w) (c_log w)
        (heap w) (stdout w) (written w).
Definition set_rng (r : nat -> R) (w : world) : world :=
  World (fs w) (mkdir_ok w) (h5_files w) (vtk_files w) r (c_log w)
        (heap w) (stdout w) (written w).
Definition set_heap (h : gmap loc vtkUnstructuredGrid) (w : world) : world :=
  World (fs w) (mkdir_ok w) (h5_files w) (vtk_files w) (rng w) (c_log w)
        h (stdout w) (written w).
Definition set_stdout (o : list report) (w : world) : world :=
  World (fs w) (mkdir_ok w) (h5_files w) (vtk_files w) (rng w) (c_log w)
        (heap w) o (written w).
Definition set_written (l : list write_event) (w : world) : world :=
  World (fs w) (mkdir_ok w) (h5_files w) (vtk_files w) (rng w) (c_log w)
        (heap w) (stdout w) l.

(** ** The monad of Python computations *)

Definition py (A : Type) : Type := world -> result A * world.

Definition ret {A} (a : A) : py A := fun w => (Ok a, w).
Definition raise {A} (e : exn) : py A := fun w => (Raise e, w).
Definition bind {A B} (c : py A) (k : A -> py B) : py B :=
  fun w => match c w with
           | (Ok a, w') => k a w'
           | (Raise e, w') => (Raise e, w')
           end.
Definition lift {A} (r : result A) : py A := fun w => (r, w).

Declare Scope py_scope.
Delimit Scope py_scope with py.
Notation "x <- c ;; k" := (bind c (fun x => k))
  (at level 100, c at next level, right associativity) : py_scope.
Notation "c ;;; k" := (bind c (fun _ => k))
  (at level 100, right associativity) : py_scope.

(** [for x in xs: body(x)] *)
Fixpoint for_each {A} (xs : list A) (body : A -> py unit) : py unit :=
  match xs with
  | [] => ret tt
  | x :: rest => bind (body x) (fun _ => for_each rest body)
  end.

#[global] Instance Req_decision (x y : R) : Decision (x = y) := Req_dec_T x y.
#[global] Instance Rlt_decision (x y : R) : Decision (x < y)%R := Rlt_dec x y.
#[global] Instance Rle_decision (x y : R) : Decision (x <= y)%R := Rle_dec x y.

(** *** Operating system, console, files *)

Definition os_path_exists (p : string) : py bool :=
  fun w => (Ok (bool_decide (p ∈ fs w)), w).

Definition os_mkdir (p : string) : py unit :=
  fun w => if bool_decide (p ∈ fs w) then (Raise OSError, w)
           else if mkdir_ok w p then (Ok tt, set_fs ({[p]} ∪ fs w) w)
           else (Raise OSError, w).

Definition print (r : report) : py unit :=
  fun w => (Ok tt, set_stdout (stdout w ++ [r]) w).

(** *** numpy's global generator *)

(** [np.random.normal(0, 1, (n, k))]: the next [n * k] draws, row by row. *)
Definition np_random_normal (n k : Z) : py matrix :=
  fun w =>
    if (n <? 0) || (k <? 0) then (Raise ValueError, w)
    else let n' := Z.to_nat n in
         let k' := Z.to_nat k in
         (Ok (Matrix k' (tabulate n' (fun i =>
                           tabulate k' (fun j => rng w (i * k' + j)%nat)))),
          set_rng (fun t => rng w (n' * k' + t)%nat) w).

(** *** VTK objects *)

(** [mesh.GetPoints().GetNumberOfPoints()] *)
Definition GetNumberOfPoints (l : loc) : py nat :=
  fun w => match heap w !! l with
           | Some g => (Ok (length (points g)), w)
           | None => (Raise AttributeError, w)
           end.

(** [points.SetPoint(i, x, y, z)] on the point container of grid [l]:
    the three doubles are converted to the scalar type of the point array
    and stored at index [i]; the program only calls it with [i] below the
    number of points. *)
Definition SetPoint (l : loc) (i : nat) (x y z : R) : py unit :=
  fun w => match heap w !! l with
           | Some g =>
               let t := point_type g in
               (Ok tt,
                set_heap (<[l := Grid t
                                   (<[i := (store t x, store t y, store t z)]>
                                      (points g))
                                   (cells g)]>
                            (heap w)) w)
           | None => (Raise AttributeError, w)
           end.

(** *** Floating point and strings *)

(** An [int] converted to a C double (round to nearest, ties to even). *)
Definition float_of_Z (z : Z) : PrimFloat.float :=
  FloatOps.SF2Prim (SpecFloat.binary_normalize FloatOps.prec FloatOps.emax z 0 false).

(** [math.log(x, base)] on two ints that fit a double: CPython computes
    the C library's [log] of each and divides the two doubles. *)
Definition math_log (c_log : PrimFloat.float -> PrimFloat.float) (x base : Z)
  : result PrimFloat.float :=
  if (x <=? 0) || (base <=? 0) then Raise ValueError
  else let num := c_log (float_of_Z x) in
       let den := c_log (float_of_Z base) in
       if PrimFloat.eqb den PrimFloat.zero then Raise ZeroDivisionError
       else Ok (PrimFloat.div num den).

(** [math.floor] of a float, as an [int]. *)
Definition math_floor (f : PrimFloat.float) : result Z :=
  match FloatOps.Prim2SF f with
  | SpecFloat.S754_zero _ => Ok 0
  | SpecFloat.S754_infinity _ => Raise OverflowError
  | SpecFloat.S754_nan => Raise ValueError
  | SpecFloat.S754_finite s m e =>
      let v := if s then Z.neg m else Z.pos m in
      Ok (if 0 <=? e then v * 2 ^ e else v / 2 ^ (- e))
  end.

(** [str(i)] for a non-negative [int]. *)
Definition str (i : nat) : string := NilEmpty.string_of_uint (Nat.to_uint i).

(** [k] characters ['0'] in front of [s]. *)
Fixpoint pad_zeros (k : nat) (s : string) : string :=
  match k with
  | O => s
  | S k' => String "0"%char (pad_zeros k' s)
  end.

(** [s.zfill(width)] for a string without sign. *)
Definition zfill (s : string) (width : Z) : string :=
  let n := Z.of_nat (String.length s) in
  if width <=? n then s
  else pad_zeros (Z.to_nat (width - n)) s.

(** ** The program *)

Local Open Scope py_scope.

Definition load_h5py (input_path : string) : py (matrix * vector * vector) :=
  fun w => match h5_files w !! input_path with
           | Some f => (Ok (components f, mean f, explained_variance f), w)
           | None => (Raise OSError, w)
           end.

(** The reader builds a new grid object, with the point array and the
    cells that the file describes; a file it cannot read leaves the grid
    empty. The model gives such a grid an empty point array, where VTK
    gives it none. *)
Definition load_mean_vtk (input_path : string) : py loc :=
  fun w => let l := fresh (dom (heap w)) in
           (Ok l,
            set_heap (<[l := default empty_grid (vtk_files w !! input_path)]>
                        (heap w)) w).

Definition sample (num_samples num_components : Z)
    (explained_variance : vector) (boundary : R) : py matrix :=
  samples <- np_random_normal num_samples num_components ;;
  let samples :=
    if bool_decide (boundary ≠ (-1)%R)
    then np_clip samples (- boundary) boundary
    else samples in
  samples <- lift (broadcast_rows Rmult samples (np_sqrt explained_variance)) ;;
  ret samples.

(** The body of the loop of [pointcloud2surface]:
    [pt = pointcloud[pt_idx]; points.SetPoint(pt_idx, pt[0], pt[1], pt[2])]. *)
Definition set_point_from (pointcloud : ndarray) (points : loc) (pt_idx : nat)
  : py unit :=
  pt <- lift (ndarray_getitem pointcloud pt_idx) ;;
  x <- lift (bind_result (ndarray_getitem pt 0) as_double) ;;
  y <- lift (bind_result (ndarray_getitem pt 1) as_double) ;;
  z <- lift (bind_result (ndarray_getitem pt 2) as_double) ;;
  SetPoint points pt_idx x y z.

(** [mesh.GetPoints()] hands out the point container of the grid, which
    lives and dies with it: the model names it by the grid's reference. *)
Definition pointcloud2surface (pointcloud : ndarray) (mesh : loc) : py loc :=
  pointcloud <- (if negb (ndim pointcloud =? 2)%nat
                 then lift (np_reshape_rows3 pointcloud)
                 else ret pointcloud) ;;
  let points := mesh in
  n <- GetNumberOfPoints points ;;
  for_each (seq 0 n) (set_point_from pointcloud points) ;;;
  ret mesh.

(** [samples @ components + mean], the transformation of the samples to
    the original space in [generate_synthetic_mesh]. *)
Definition reconstruct (samples components : matrix) (mean : vector)
  : result matrix :=
  bind_result (matmul samples components)
              (fun product => broadcast_rows Rplus product mean).

(** The writer serialises the grid object it is given, as it is at that
    moment, to [Path(output_path) / name]. *)
Definition write_vtk_file (unstructured_grid : loc) (dir name : string) : py unit :=
  fun w => match heap w !! unstructured_grid with
           | Some g =>
               (Ok tt,
                set_written (written w ++ [WriteEvent dir name unstructured_grid g]) w)
           | None => (Raise AttributeError, w)
           end.

(** [math.floor(math.log(num_samples, 10)) + 1] *)
Definition order_of (c_log : PrimFloat.float -> PrimFloat.float)
    (num_samples : Z) : result Z :=
  bind_result (math_log c_log num_samples 10) (fun lg =>
  bind_result (math_floor lg) (fun fl => Ok (fl + 1))).

Definition padding_order (num_samples : Z) : py Z :=
  fun w => (order_of (c_log w) num_samples, w).

(** [f"synthetic{str(i).zfill(order)}.vtk"] *)
Definition file_name (i : nat) (order : Z) : string :=
  String.append "synthetic" (String.append (zfill (str i) order) ".vtk").

Definition boundary_ok (boundary : R) : bool :=
  bool_decide ((-1)%R = boundary)
  || (bool_decide (0 < boundary)%R && bool_decide (boundary <= 5)%R).

(** One turn of the loop of [generate_synthetic_mesh], for sample [i]. *)
Definition write_sample (output_path : string) (num_samples : Z)
    (synthetic_pointclouds : matrix) (mean_vtk : loc) (i : nat) : py unit :=
  order <- padding_order num_samples ;;
  pointcloud <- lift (matrix_getitem synthetic_pointclouds i) ;;
  synthetic_surface <- pointcloud2surface pointcloud mean_vtk ;;
  write_vtk_file synthetic_surface output_path (file_name i order).

(** [generate_synthetic_mesh] once its arguments have been checked:
    load, sample, reconstruct, then build and write one mesh per sample. *)
Definition synthesize (input_path output_path : string)
    (num_samples num_components : Z) (boundary : R) : py pyval :=
  loaded <- load_h5py input_path ;;
  let '(components, mean, explained_variance) := loaded in
  mean_vtk <- load_mean_vtk input_path ;;
  let components := matrix_take (Z.to_nat num_components) components in
  let explained_variance := take (Z.to_nat num_components) explained_variance in
  samples <- sample num_samples num_components explained_variance boundary ;;
  synthetic_pointclouds <- lift (reconstruct samples components mean) ;;
  for_each (seq 0 (Z.to_nat num_samples))
           (write_sample output_path num_samples synthetic_pointclouds mean_vtk) ;;;
  ret PyNone.

Definition generate_synthetic_mesh (input_path output_path : string)
    (num_samples num_components : Z) (boundary : R) : py pyval :=
  input_exists <- os_path_exists input_path ;;
  if negb input_exists then
    print (PathNotFound input_path) ;;; ret (PyBool false)
  else
  output_exists <- os_path_exists output_path ;;
  (if negb output_exists then os_mkdir output_path else ret tt) ;;;
  if num_samples <=? 0 then
    print (InvalidSampleCount num_samples) ;;; ret (PyBool false)
  else
  if (num_components >=? 95) || (num_components <=? 0) then
    print (InvalidComponentCount num_components) ;;; ret (PyBool false)
  else
  if negb (boundary_ok boundary) then
    print (InvalidBoundary boundary) ;;; ret (PyBool false)
  else
  synthesize input_path output_path num_samples num_components boundary.

Local Close Scope py_scope.

(** ** Notions used in the statements *)

(** The draw that [np.random.normal] puts at row [i], column [j] of an
    array with [k] columns. *)
Definition draw (w : world) (k i j : nat) : R := rng w (i * k + j)%nat.

(** What [sample] does to a raw draw before scaling. *)
Definition saturate (boundary x : R) : R :=
  if bool_decide (boundary ≠ (-1)%R) then clip x (- boundary) boundary else x.

(** [f 0 + f 1 + ... + f (n - 1)] *)
Definition sum_upto (n : nat) (f : nat -> R) : R :=
  foldr Rplus 0%R (map f (seq 0 n)).

(** The three coordinates the loop of [pointcloud2surface] reads for
    vertex [pt_idx]: [pt = pointcloud[pt_idx]], then [pt[0], pt[1], pt[2]]. *)
Definition row_point (pointcloud : ndarray) (pt_idx : nat) : result point :=
  bind_result (ndarray_getitem pointcloud pt_idx) (fun pt =>
  bind_result (bind_result (ndarray_getitem pt 0) as_double) (fun x =>
  bind_result (bind_result (ndarray_getitem pt 1) as_double) (fun y =>
  bind_result (bind_result (ndarray_getitem pt 2) as_double) (fun z =>
  Ok (x, y, z))))).

(** The pointcloud as the mesh builder sees it: reshaped to rows of three
    unless it is already 2-D. *)
Definition as_rows (pointcloud : ndarray) : result ndarray :=
  if negb (ndim pointcloud =? 2)%nat
  then np_reshape_rows3 pointcloud
  else Ok pointcloud.

(** Row [i] of a row-major array with [c] columns, first three entries. *)
Definition vertex_of (c : nat) (d : list R) (i : nat) : point :=
  (nth (i * c) d 0%R, nth (i * c + 1) d 0%R, nth (i * c + 2) d 0%R).

(** A grid whose point container was overwritten at the indices [idxs],
    in that order, with the vertices [f], each converted to the scalar
    type of the container. *)
Definition overwrite (f : nat -> point) (idxs : list nat)
    (g : vtkUnstructuredGrid) : vtkUnstructuredGrid :=
  Grid (point_type g)
       (foldl (fun pts i => <[i := store_point (point_type g) (f i)]> pts)
              (points g) idxs)
       (cells g).

(** The grid [g] with every vertex [i] overwritten by [f i], converted to
    the scalar type of its point array. *)
Definition with_vertices (g : vtkUnstructuredGrid) (f : nat -> point)
  : vtkUnstructuredGrid :=
  Grid (point_type g)
       (tabulate (length (points g))
                 (fun i => store_point (point_type g) (f i)))
       (cells g).

(** The file system once [generate_synthetic_mesh] is past its
    [os.mkdir]: the output directory is there. *)
Definition after_mkdir (output_path : string) (w : world) : world :=
  if bool_decide (output_path ∈ fs w) then w
  else set_fs ({[output_path]} ∪ fs w) w.

(** [os.mkdir] is not called, or the OS carries it out. *)
Definition mkdir_passes (output_path : string) (w : world) : Prop :=
  output_path ∈ fs w \/ mkdir_ok w output_path = true.

(** The world after one more printed message. *)
Definition reported (r : report) (w : world) : world :=
  set_stdout (stdout w ++ [r]) w.

(** The grid [g1] is the template [g] with every vertex overwritten by
    the row of [pc] of the same index, as [pointcloud2surface] reads it
    and as the point array of [g] stores it. *)
Definition built_from (pc : ndarray) (g g1 : vtkUnstructuredGrid) : Prop :=
  cells g1 = cells g
  /\ length (points g1) = length (points g)
  /\ point_type g1 = point_type g
  /\ exists pc', as_rows pc = Ok pc'
       /\ forall j, (j < length (points g))%nat ->
            exists p, row_point pc' j = Ok p
                      /\ points g1 !! j = Some (store_point (point_type g) p).

(** The write event of sample [i] in a run with [num_samples] samples:
    the file of that sample in [output_path], written from object [l]
    holding the mesh built from row [i] of the pointclouds. *)
Definition sample_event (output_path : string) (num_samples : Z)
    (pointclouds : matrix) (l : loc) (template : vtkUnstructuredGrid)
    (c_log : PrimFloat.float -> PrimFloat.float) (i : nat) (e : write_event)
  : Prop :=
  w_dir e = output_path
  /\ w_obj e = l
  /\ (exists order, order_of c_log num_samples = Ok order
                   /\ w_name e = file_name i order)
  /\ exists pc, matrix_getitem pointclouds i = Ok pc
              /\ built_from pc template (w_grid e).

(** The contents of the template object after the write events [events]:
    what the last event wrote, or the template itself when there is none. *)
Definition final_grid (g : vtkUnstructuredGrid) (events : list write_event)
  : vtkUnstructuredGrid :=
  default g (w_grid <$> last events).

(** The mesh of sample [i]: the template's cells, and as vertices the
    consecutive triples of row [i] of the pointclouds, as the template's
    point array stores them. *)
Definition sample_mesh (pointclouds : matrix) (template : vtkUnstructuredGrid)
    (i : nat) : vtkUnstructuredGrid :=
  with_vertices template (vertex_of 3 (nth i (rows pointclouds) [])).

(** The write event of sample [i] when everything fits. *)
Definition mesh_event (output_path : string) (order : Z) (l : loc)
    (pointclouds : matrix) (template : vtkUnstructuredGrid) (i : nat)
  : write_event :=
  WriteEvent output_path (file_name i order) l
             (sample_mesh pointclouds template i).

(** ** Worlds and data for the examples *)

(** A world with nothing in it: no path, no file, no object; every draw
    of the generator is 0. *)
Definition quiet_world : world :=
  World ∅ (fun _ => true) ∅ ∅ (fun _ => 0%R) (fun x => x) ∅ [] [].

(** [quiet_world] with a generator whose draws go up in steps of four:
    -6, -2, 2, 6, ... *)
Definition ramp_world : world :=
  World ∅ (fun _ => true) ∅ ∅ (fun t => (4 * INR t - 6)%R) (fun x => x) ∅ [] [].

(** A grid of one vertex at the origin, with one vertex cell; its point
    array holds doubles. *)
Definition one_vertex_grid : vtkUnstructuredGrid :=
  Grid VTK_DOUBLE [(0, 0, 0)%R] [(1%nat, [0%nat])].

(** The same grid as a file with [POINTS 1 float] gives it. *)
Definition one_vertex_float_grid : vtkUnstructuredGrid :=
  Grid VTK_FLOAT [(0, 0, 0)%R] [(1%nat, [0%nat])].

(** A world whose only object is the grid [g], at reference 0. *)
Definition world_with_grid (g : vtkUnstructuredGrid) : world :=
  World ∅ (fun _ => true) ∅ ∅ (fun _ => 0%R) (fun x => x) {[0%nat := g]} [] [].

(** The model of the specification's worked example: two components over
    two vertices. *)
Definition demo_model : pca_model :=
  PcaModel (Matrix 6 [[1; 0; 0; 0; 0; 0]; [0; 1; 0; 0; 0; 0]]%R)
           [0; 0; 0; 1; 1; 1]%R
           [4; 1]%R.

(** A template of two vertices joined by one line cell; its point array
    holds doubles. *)
Definition two_vertex_grid : vtkUnstructuredGrid :=
  Grid VTK_DOUBLE [(0, 0, 0)%R; (1, 1, 1)%R] [(3%nat, [0%nat; 1%nat])].

(** binary64 values: [m * 2^e]. *)
Definition b64 (m : positive) (e : Z) : PrimFloat.float :=
  FloatOps.SF2Prim (SpecFloat.S754_finite false m e).

(** The doubles nearest to ln 10 and ln 1000, which are what the C
    library's [log] returns for 10.0 and 1000.0
    (0x1.26bb1bbb55516p+1 and 0x1.ba18a998fffa0p+2). *)
Definition ln_10 : PrimFloat.float := b64 0x126bb1bbb55516 (-51).
Definition ln_1000 : PrimFloat.float := b64 0x1ba18a998fffa0 (-50).

(** A [log] known at 1, 10 and 1000 only. *)
Definition table_log (x : PrimFloat.float) : PrimFloat.float :=
  if PrimFloat.eqb x (float_of_Z 1) then PrimFloat.zero
  else if PrimFloat.eqb x (float_of_Z 10) then ln_10
  else if PrimFloat.eqb x (float_of_Z 1000) then ln_1000
  else PrimFloat.nan.

(** A world with the input directory ["in"] holding [demo_model] and
    [two_vertex_grid], and no output directory yet. *)
Definition demo_world : world :=
  World {["in"%string]} (fun _ => true)
        {["in"%string := demo_model]} {["in"%string := two_vertex_grid]}
        (fun _ => 0%R) table_log ∅ [] [].

(** ** Further notions and data *)

(** [demo_world] on a file system that refuses to make directories. *)
Definition locked_world : world :=
  World {["in"%string]} (fun _ => false)
        {["in"%string := demo_model]} {["in"%string := two_vertex_grid]}
        (fun _ => 0%R) table_log ∅ [] [].

(** [int(s)] for a non-empty string of decimal digits. *)
Definition int_of_digits (s : string) : option nat :=
  option_map Nat.of_uint (NilEmpty.uint_of_string s).

(** [int(name[9:-4])]: the number between ["synthetic"] and [".vtk"]. *)
Definition sample_index (name : string) : option nat :=
  int_of_digits (String.substring 9 (String.length name - 13) name).

(** [k] more columns of zeros to the right of [m]. *)
Definition pad_columns (k : nat) (m : matrix) : matrix :=
  Matrix (ncols m + k) (map (fun r => r ++ replicate k 0%R) (rows m)).

(** *** The example script

    [example.py] imports the module as [gsm] and calls one of its
    attributes with three keyword arguments. *)

(** What the top level of [generate_surface_meshes.py] binds: the six
    imports and the six functions (and the attributes every module has). *)
Inductive gsm_member : Type :=
| Gsm_import (name : string)
| Gsm_module_attribute (name : string)
| Gsm_load_h5py
| Gsm_load_mean_vtk
| Gsm_sample
| Gsm_pointcloud2surface
| Gsm_write_vtk_file
| Gsm_generate_synthetic_mesh.

(** [gsm.<name>] *)
Definition gsm_getattr (name : string) : result gsm_member :=
  if bool_decide (name ∈ ["np"; "h5py"; "os"; "Path"; "math"; "vtk"]%string)
  then Ok (Gsm_import name)
  else if bool_decide (name ∈ ["__name__"; "__doc__"; "__package__";
                               "__loader__"; "__spec__"; "__file__";
                               "__cached__"; "__builtins__"]%string)
  then Ok (Gsm_module_attribute name)
  else if String.eqb name "load_h5py" then Ok Gsm_load_h5py
  else if String.eqb name "load_mean_vtk" then Ok Gsm_load_mean_vtk
  else if String.eqb name "sample" then Ok Gsm_sample
  else if String.eqb name "pointcloud2surface" then Ok Gsm_pointcloud2surface
  else if String.eqb name "write_vtk_file" then Ok Gsm_write_vtk_file
  else if String.eqb name "generate_synthetic_mesh"
  then Ok Gsm_generate_synthetic_mesh
  else Raise AttributeError.

(** [callee(input_path=..., output_path=..., num_samples=...)]: only
    [generate_synthetic_mesh] takes these keywords; its other parameters
    take their defaults, 94 components and no boundary. *)
Definition gsm_call_example (callee : gsm_member)
    (input_path output_path : string) (num_samples : Z) : py pyval :=
  match callee with
  | Gsm_generate_synthetic_mesh =>
      generate_synthetic_mesh input_path output_path num_samples 94 (-1)
  | _ => raise TypeError
  end.

Definition example_py : py pyval :=
  let input_path := "/Users/ABC/Documents/BivMeshes"%string in
  let output_path := "/Users/ABC/Documents/BivMeshes/"%string in
  let num_samples := 10 in
  bind (lift (gsm_getattr "generate_surface_mesh")) (fun callee =>
  gsm_call_example callee input_path output_path num_samples).

(** * Properties *)

(** ** Lists and arrays *)

Lemma nth_map_lt {A B} (f : A -> B) (l : list A) (i : nat) (d : B) (d' : A) :
  (i < length l)%nat -> nth i (map f l) d = f (nth i l d').
Proof.
  intros Hi. rewrite (nth_indep _ d (f d')) by (rewrite length_map; lia).
  apply map_nth.
Qed.

Lemma map_replicate {A B} (f : A -> B) (n : nat) (x : A) :
  map f (replicate n x) = replicate n (f x).
Proof. induction n as [| n IH]; simpl; [reflexivity | now rewrite IH]. Qed.

Lemma nth_tabulate {A} (n i : nat) (f : nat -> A) (d : A) :
  (i < n)%nat -> nth i (tabulate n f) d = f i.
Proof.
  intros Hi. unfold tabulate.
  rewrite (nth_indep _ d (f 0%nat)) by (rewrite length_map, length_seq; lia).
  rewrite map_nth, seq_nth by lia. reflexivity.
Qed.

Lemma lookup_tabulate {A} (n j : nat) (f : nat -> A) :
  (j < n)%nat -> tabulate n f !! j = Some (f j).
Proof.
  intros Hj. unfold tabulate.
  rewrite list_lookup_fmap, lookup_seq_lt by lia. reflexivity.
Qed.

Lemma length_tabulate {A} (n : nat) (f : nat -> A) : length (tabulate n f) = n.
Proof. unfold tabulate. now rewrite length_map, length_seq. Qed.

Lemma tabulate_nth (v : vector) : tabulate (length v) (fun j => nth j v 0%R) = v.
Proof.
  apply nth_ext with (d := 0%R) (d' := 0%R).
  - apply length_tabulate.
  - intros i Hi. rewrite length_tabulate in Hi.
    now rewrite nth_tabulate by exact Hi.
Qed.

Lemma tabulate_ext {A} (n : nat) (f g : nat -> A) :
  (forall i, (i < n)%nat -> f i = g i) -> tabulate n f = tabulate n g.
Proof.
  intros H. unfold tabulate. apply map_ext_in.
  intros i Hi. apply in_seq in Hi. apply H. lia.
Qed.

Lemma bidx_lt (d j : nat) : (j < d)%nat -> bidx d j = j.
Proof.
  intros Hj. unfold bidx. destruct (Nat.eqb_spec d 1); [lia | reflexivity].
Qed.

Lemma broadcast_dim_same (k : nat) : broadcast_dim k k = Some k.
Proof. unfold broadcast_dim. now rewrite Nat.eqb_refl. Qed.

Lemma nth_np_sqrt (v : vector) (j : nat) :
  nth j (np_sqrt v) 0%R = sqrt (nth j v 0%R).
Proof. unfold np_sqrt. rewrite <- sqrt_0 at 1. apply map_nth. Qed.

(** Entries of [m op v] when the widths agree. *)
Lemma broadcast_rows_same (op : R -> R -> R) (m : matrix) (v : vector) :
  length v = ncols m ->
  exists m', broadcast_rows op m v = Ok m'
    /\ mshape m' = mshape m
    /\ matrix_wf m'
    /\ forall i j, (i < nrows m)%nat -> (j < ncols m)%nat ->
         entry m' i j = op (entry m i j) (nth j v 0%R).
Proof.
  intros Hv. unfold broadcast_rows. rewrite Hv, broadcast_dim_same.
  eexists. split; [reflexivity |]. split; [| split].
  - unfold mshape, nrows. simpl. now rewrite length_map.
  - unfold matrix_wf. simpl. apply List.Forall_forall. intros r Hr.
    apply in_map_iff in Hr. destruct Hr as [r0 [<- _]]. apply length_tabulate.
  - intros i j Hi Hj. unfold entry, nrows in *. simpl.
    rewrite (nth_map_lt _ _ _ _ []), nth_tabulate by lia.
    now rewrite bidx_lt by lia.
Qed.

Lemma clip_bounds (x lo hi : R) : (lo <= hi)%R -> (lo <= clip x lo hi <= hi)%R.
Proof.
  intros H. unfold clip, Rmin, Rmax.
  destruct (Rle_dec x lo); destruct (Rle_dec _ hi); lra.
Qed.

Lemma dot_zeros (k : nat) (v : vector) : dot (replicate k 0%R) v = 0%R.
Proof.
  revert v. induction k as [| k IH]; intros v; [reflexivity |].
  destruct v as [| x v]; [reflexivity |].
  unfold dot in *. simpl. rewrite IH. lra.
Qed.

Lemma sum_upto_head (n : nat) (f : nat -> R) :
  sum_upto (S n) f = (f 0%nat + sum_upto n (fun k => f (S k)))%R.
Proof.
  unfold sum_upto. simpl. now rewrite <- seq_shift, map_map.
Qed.

Lemma sum_upto_zero (n : nat) (f : nat -> R) :
  (forall k, (k < n)%nat -> f k = 0%R) -> sum_upto n f = 0%R.
Proof.
  revert f. induction n as [| n IH]; intros f Hf; [reflexivity |].
  rewrite sum_upto_head, (Hf 0%nat) by lia.
  rewrite IH by (intros k Hk; apply Hf; lia). lra.
Qed.

Lemma sum_upto_plus (n : nat) (f g : nat -> R) :
  sum_upto n (fun k => f k + g k)%R = (sum_upto n f + sum_upto n g)%R.
Proof.
  revert f g. induction n as [| n IH]; intros f g.
  - unfold sum_upto. simpl. lra.
  - rewrite !sum_upto_head, IH. lra.
Qed.

Lemma sum_upto_ext (n : nat) (f g : nat -> R) :
  (forall k, (k < n)%nat -> f k = g k) -> sum_upto n f = sum_upto n g.
Proof.
  intros H. unfold sum_upto. f_equal. apply map_ext_in.
  intros k Hk. apply in_seq in Hk. apply H. lia.
Qed.

(** The dot product against a vector of [n] entries is the sum of the [n]
    products, an entry missing on the left counting as zero. *)
Lemma dot_sum_upto (a b : vector) :
  dot a b = sum_upto (length b) (fun k => nth k a 0 * nth k b 0)%R.
Proof.
  revert a. induction b as [| y b IH]; intros a.
  - destruct a; reflexivity.
  - destruct a as [| x a].
    + rewrite sum_upto_zero; [reflexivity |].
      intros k _. destruct k; simpl; lra.
    + cbn [length]. rewrite sum_upto_head. unfold dot in *. simpl.
      now rewrite IH.
Qed.

(** ** The sampler *)

Lemma np_random_normal_ok (n k : Z) (w : world) :
  0 <= n -> 0 <= k ->
  exists m, np_random_normal n k w
            = (Ok m, set_rng (fun t => rng w (Z.to_nat n * Z.to_nat k + t)%nat) w)
    /\ mshape m = (Z.to_nat n, Z.to_nat k)
    /\ matrix_wf m
    /\ forall i j, (i < Z.to_nat n)%nat -> (j < Z.to_nat k)%nat ->
         entry m i j = draw w (Z.to_nat k) i j.
Proof.
  intros Hn Hk. unfold np_random_normal.
  destruct (Z.ltb_spec n 0); [lia |]. destruct (Z.ltb_spec k 0); [lia |]. simpl.
  eexists. split; [reflexivity |]. split; [| split].
  - unfold mshape, nrows. simpl. now rewrite length_tabulate.
  - unfold matrix_wf. simpl. apply List.Forall_forall. intros r Hr.
    unfold tabulate in Hr at 1. apply in_map_iff in Hr.
    destruct Hr as [i [<- _]]. apply length_tabulate.
  - intros i j Hi Hj. unfold entry. simpl.
    now rewrite nth_tabulate, nth_tabulate by lia.
Qed.

Lemma wf_row_length (m : matrix) (i : nat) :
  matrix_wf m -> (i < nrows m)%nat -> length (nth i (rows m) []) = ncols m.
Proof.
  intros Hwf Hi. unfold matrix_wf in Hwf.
  rewrite List.Forall_forall in Hwf. apply Hwf. now apply nth_In.
Qed.

Lemma entry_np_clip (m : matrix) (lo hi : R) (i j : nat) :
  matrix_wf m -> (i < nrows m)%nat -> (j < ncols m)%nat ->
  entry (np_clip m lo hi) i j = clip (entry m i j) lo hi.
Proof.
  intros Hwf Hi Hj. pose proof (wf_row_length m i Hwf Hi) as Hlen.
  unfold entry, np_clip, nrows in *. simpl.
  rewrite (nth_map_lt _ _ _ _ []) by lia.
  now rewrite (nth_map_lt _ _ _ _ 0%R) by lia.
Qed.

Lemma np_clip_shape (m : matrix) (lo hi : R) :
  mshape (np_clip m lo hi) = mshape m /\ (matrix_wf m -> matrix_wf (np_clip m lo hi)).
Proof.
  split.
  - unfold mshape, nrows, np_clip. simpl. now rewrite length_map.
  - unfold matrix_wf, np_clip. simpl. intros H.
    apply List.Forall_forall. intros r Hr. apply in_map_iff in Hr.
    destruct Hr as [r0 [<- Hr0]]. rewrite length_map.
    rewrite List.Forall_forall in H. now apply H.
Qed.

Lemma mshape_inv (m : matrix) (n k : nat) :
  mshape m = (n, k) -> nrows m = n /\ ncols m = k.
Proof. unfold mshape. intros H. now inversion H. Qed.

(** [sample] on a variance vector as long as the number of components:
    it succeeds, consumes [num_samples * num_components] draws, and entry
    [(i, j)] is the saturated draw times [sqrt(explained_variance[j])]. *)
Lemma sample_entries (num_samples num_components : Z) (ev : vector) (b : R)
    (w : world) :
  0 <= num_samples -> 0 <= num_components ->
  length ev = Z.to_nat num_components ->
  exists m,
    sample num_samples num_components ev b w
    = (Ok m, set_rng (fun t => rng w (Z.to_nat num_samples
                                      * Z.to_nat num_components + t)%nat) w)
    /\ mshape m = (Z.to_nat num_samples, Z.to_nat num_components)
    /\ matrix_wf m
    /\ forall i j, (i < Z.to_nat num_samples)%nat ->
                   (j < Z.to_nat num_components)%nat ->
         entry m i j
         = (saturate b (draw w (Z.to_nat num_components) i j)
            * sqrt (nth j ev 0))%R.
Proof.
  intros Hn Hk Hlen.
  destruct (np_random_normal_ok num_samples num_components w Hn Hk)
    as [m0 [E0 [Hs0 [Hwf0 He0]]]].
  destruct (mshape_inv _ _ _ Hs0) as [Hr0 Hc0].
  set (m1 := if bool_decide (b ≠ (-1)%R) then np_clip m0 (- b) b else m0).
  assert (Hs1 : mshape m1 = mshape m0).
  { subst m1. case_bool_decide; [apply np_clip_shape | reflexivity]. }
  assert (Hwf1 : matrix_wf m1).
  { subst m1. case_bool_decide; [now apply np_clip_shape | assumption]. }
  assert (He1 : forall i j, (i < Z.to_nat num_samples)%nat ->
                            (j < Z.to_nat num_components)%nat ->
            entry m1 i j = saturate b (draw w (Z.to_nat num_components) i j)).
  { intros i j Hi Hj. subst m1. unfold saturate. case_bool_decide.
    - rewrite entry_np_clip by (auto; lia). now rewrite He0.
    - now apply He0. }
  rewrite Hs0 in Hs1. destruct (mshape_inv _ _ _ Hs1) as [Hr1 Hc1].
  destruct (broadcast_rows_same Rmult m1 (np_sqrt ev)) as [m [E [Hs [Hwf He]]]].
  { unfold np_sqrt. rewrite length_map. lia. }
  exists m. split; [| split; [| split]].
  - unfold sample, bind. rewrite E0. fold m1. unfold lift. now rewrite E.
  - now rewrite Hs.
  - exact Hwf.
  - intros i j Hi Hj. rewrite He by lia. rewrite He1 by lia.
    now rewrite nth_np_sqrt.
Qed.

(** C1. With a boundary [b] in (0, 5] and a non-negative variance vector of
    length [num_components], [sample] returns, for every state of the random
    generator, a matrix whose entry in column [j] is the draw clipped to
    [-b, b] and then scaled by [sqrt(explained_variance[j])]; hence it lies
    between [-b * sqrt(explained_variance[j])] and
    [b * sqrt(explained_variance[j])]. *)
Theorem sample_within_boundary (num_samples num_components : Z) (ev : vector)
    (b : R) (w : world) :
  0 < num_samples ->
  0 < num_components < 95 ->
  length ev = Z.to_nat num_components ->
  Forall (fun v => 0 <= v)%R ev ->
  (0 < b <= 5)%R ->
  exists m w',
    sample num_samples num_components ev b w = (Ok m, w')
    /\ mshape m = (Z.to_nat num_samples, Z.to_nat num_components)
    /\ forall i j, (i < Z.to_nat num_samples)%nat ->
                   (j < Z.to_nat num_components)%nat ->
         entry m i j
         = (clip (draw w (Z.to_nat num_components) i j) (- b) b
            * sqrt (nth j ev 0))%R
         /\ (- b * sqrt (nth j ev 0) <= entry m i j <= b * sqrt (nth j ev 0))%R.
Proof.
  intros Hn Hk Hlen Hev Hb.
  destruct (sample_entries num_samples num_components ev b w)
    as [m [E [Hs [_ He]]]]; [lia | lia | exact Hlen |].
  exists m. eexists. split; [exact E |]. split; [exact Hs |].
  intros i j Hi Hj.
  assert (Hent : entry m i j
                 = (clip (draw w (Z.to_nat num_components) i j) (- b) b
                    * sqrt (nth j ev 0))%R).
  { rewrite He by assumption. unfold saturate.
    case_bool_decide as Hne; [reflexivity | lra]. }
  split; [exact Hent |]. rewrite Hent.
  pose proof (clip_bounds (draw w (Z.to_nat num_components) i j) (- b) b) as Hc.
  pose proof (sqrt_pos (nth j ev 0%R)) as Hsq.
  split; nra.
Qed.

Lemma sample_within_boundary_witness :
  exists m w',
    sample 2 2 [4; 1]%R 3%R quiet_world = (Ok m, w')
    /\ mshape m = (2%nat, 2%nat)
    /\ forall i j, (i < 2)%nat -> (j < 2)%nat ->
         entry m i j
         = (clip (draw quiet_world 2 i j) (- 3) 3 * sqrt (nth j [4; 1] 0))%R
         /\ (- 3 * sqrt (nth j [4; 1] 0) <= entry m i j
             <= 3 * sqrt (nth j [4; 1] 0))%R.
Proof.
  apply (sample_within_boundary 2 2 [4; 1]%R 3%R quiet_world).
  - lia.
  - lia.
  - reflexivity.
  - repeat constructor; lra.
  - lra.
Defined.

(** C6, as stated, fails: with two components and a variance vector of
    three entries the product of the (1, 2) samples with the (3,) vector
    cannot be broadcast and [sample] raises; with one component and two
    variances it returns a (1, 2) matrix instead of a (1, 1) one. *)
Lemma sample_longer_variance_counterexample :
  (0 < 1 /\ 0 < 2 < 95
   /\ (Z.to_nat 2 <= length [1; 1; 1]%R)%nat
   /\ Forall (fun v => 0 <= v)%R [1; 1; 1]%R
   /\ boundary_ok (-1) = true
   /\ fst (sample 1 2 [1; 1; 1]%R (-1)%R quiet_world) = Raise ValueError)
  /\ (exists m w', sample 1 1 [1; 4]%R (-1)%R quiet_world = (Ok m, w')
                   /\ mshape m = (1%nat, 2%nat)).
Proof.
  split.
  - split; [lia |]. split; [lia |]. split; [simpl; lia |].
    split; [repeat constructor; lra |]. split.
    + unfold boundary_ok. now rewrite bool_decide_eq_true_2.
    + unfold sample, bind, np_random_normal. simpl.
      case_bool_decide; reflexivity.
  - unfold sample, bind, np_random_normal. simpl.
    case_bool_decide; simpl; eexists; eexists; (split; [reflexivity |]);
      reflexivity.
Qed.

(** C6, amended. For a valid sample count, component count and boundary,
    and a non-negative variance vector of length exactly [num_components],
    [sample] succeeds and returns a [num_samples] x [num_components] matrix
    whose entry [(i, j)] is the draw (clipped to the boundary when there is
    one) scaled by [sqrt(explained_variance[j])]. *)
Theorem sample_exact_length (num_samples num_components : Z) (ev : vector)
    (b : R) (w : world) :
  0 < num_samples ->
  0 < num_components < 95 ->
  boundary_ok b = true ->
  length ev = Z.to_nat num_components ->
  Forall (fun v => 0 <= v)%R ev ->
  exists m w',
    sample num_samples num_components ev b w = (Ok m, w')
    /\ mshape m = (Z.to_nat num_samples, Z.to_nat num_components)
    /\ matrix_wf m
    /\ forall i j, (i < Z.to_nat num_samples)%nat ->
                   (j < Z.to_nat num_components)%nat ->
         entry m i j
         = (saturate b (draw w (Z.to_nat num_components) i j)
            * sqrt (nth j ev 0))%R.
Proof.
  intros Hn Hk _ Hlen _.
  destruct (sample_entries num_samples num_components ev b w)
    as [m [E H]]; [lia | lia | exact Hlen |].
  exists m. eexists. split; [exact E | exact H].
Qed.

Lemma sample_exact_length_witness :
  exists m w',
    sample 1 2 [4; 1]%R (-1)%R quiet_world = (Ok m, w')
    /\ mshape m = (1%nat, 2%nat)
    /\ matrix_wf m
    /\ forall i j, (i < 1)%nat -> (j < 2)%nat ->
         entry m i j
         = (saturate (-1) (draw quiet_world 2 i j) * sqrt (nth j [4; 1] 0))%R.
Proof.
  apply (sample_exact_length 1 2 [4; 1]%R (-1)%R quiet_world).
  - lia.
  - lia.
  - unfold boundary_ok. now rewrite bool_decide_eq_true_2.
  - reflexivity.
  - repeat constructor; lra.
Defined.

(** ** The reconstruction *)

Lemma matmul_entries (s c : matrix) :
  ncols s = nrows c ->
  exists p, matmul s c = Ok p
    /\ mshape p = (nrows s, ncols c)
    /\ forall i j, (i < nrows s)%nat -> (j < ncols c)%nat ->
         entry p i j = dot (nth i (rows s) []) (column c j).
Proof.
  intros H. unfold matmul. rewrite H, Nat.eqb_refl.
  eexists. split; [reflexivity |]. split.
  - unfold mshape, nrows. simpl. now rewrite length_map.
  - intros i j Hi Hj. unfold entry, nrows in *. simpl.
    rewrite (nth_map_lt _ _ _ _ []) by lia. now rewrite nth_tabulate by lia.
Qed.

(** On all-zero samples every reconstructed row is [mean]. *)
Lemma reconstruct_zeros (components : matrix) (mean : vector) (n : nat) :
  length mean = ncols components ->
  reconstruct (zeros n (nrows components)) components mean
  = Ok (Matrix (ncols components) (replicate n mean)).
Proof.
  intros Hmean. unfold reconstruct, matmul, zeros. simpl.
  rewrite Nat.eqb_refl. simpl. unfold broadcast_rows. simpl.
  rewrite Hmean, broadcast_dim_same. f_equal. f_equal.
  rewrite !map_replicate. f_equal.
  etransitivity; [| apply (tabulate_nth mean)]. rewrite Hmean.
  apply tabulate_ext. intros j Hj.
  rewrite bidx_lt, nth_tabulate by lia. rewrite dot_zeros. lra.
Qed.

(** Entry [(i, j)] of the reconstruction: row [i] of the samples times
    column [j] of the components, plus [mean[j]]. *)
Lemma reconstruct_entries (samples components : matrix) (mean : vector) :
  length mean = ncols components ->
  ncols samples = nrows components ->
  exists p, reconstruct samples components mean = Ok p
    /\ mshape p = (nrows samples, ncols components)
    /\ forall i j, (i < nrows samples)%nat -> (j < ncols components)%nat ->
         entry p i j
         = (dot (nth i (rows samples) []) (column components j)
            + nth j mean 0)%R.
Proof.
  intros Hmean Hs.
  destruct (matmul_entries samples components Hs) as [p0 [E0 [Hs0 He0]]].
  destruct (mshape_inv _ _ _ Hs0) as [Hr0 Hc0].
  destruct (broadcast_rows_same Rplus p0 mean) as [p [E [Hsp [_ He]]]];
    [lia |].
  exists p. split; [| split].
  - unfold reconstruct. rewrite E0. exact E.
  - now rewrite Hsp.
  - intros i j Hi Hj. rewrite He by lia. now rewrite He0 by lia.
Qed.

(** Entry [(i, j)] of the reconstruction, written out: the sum over the
    K components of [samples[i, k] * components[k, j]], plus [mean[j]]. *)
Lemma reconstruct_entries_sum (samples components : matrix) (mean : vector) :
  length mean = ncols components ->
  ncols samples = nrows components ->
  exists p, reconstruct samples components mean = Ok p
    /\ mshape p = (nrows samples, ncols components)
    /\ forall i j, (i < nrows samples)%nat -> (j < ncols components)%nat ->
         entry p i j
         = (sum_upto (nrows components)
              (fun k => entry samples i k * entry components k j)
            + nth j mean 0)%R.
Proof.
  intros Hmean Hs.
  destruct (reconstruct_entries samples components mean Hmean Hs)
    as [p [E [Hsp He]]].
  exists p. split; [exact E |]. split; [exact Hsp |].
  intros i j Hi Hj. rewrite He by assumption. f_equal.
  rewrite dot_sum_upto. unfold column. rewrite length_map. fold (nrows components).
  apply sum_upto_ext. intros k Hk. unfold entry.
  now rewrite (nth_map_lt _ _ _ _ []) by exact Hk.
Qed.

(** C3. [samples @ components + mean] is the linear map it is written as.
    For [components] of shape K x D and [mean] of length D: on the all-zero
    [n] x K samples every row of the result is [mean]; on every [samples]
    with K columns the result is defined, has one row of D entries per
    sample, and its entry [(i, j)] is
    [samples[i, 0] * components[0, j] + ... + samples[i, K-1] * components[K-1, j]
     + mean[j]];
    hence it is additive in the samples: the rows reconstructed from
    [a + b] are those from [a] plus those from [b], the mean counted
    once. *)
Theorem reconstruct_linear (components : matrix) (mean : vector) :
  length mean = ncols components ->
  (forall n, reconstruct (zeros n (nrows components)) components mean
             = Ok (Matrix (ncols components) (replicate n mean)))
  /\ (forall samples, ncols samples = nrows components ->
        exists p, reconstruct samples components mean = Ok p
          /\ mshape p = (nrows samples, ncols components)
          /\ forall i j, (i < nrows samples)%nat -> (j < ncols components)%nat ->
               entry p i j
               = (sum_upto (nrows components)
                    (fun k => entry samples i k * entry components k j)
                  + nth j mean 0)%R)
  /\ (forall a b c pa pb pc,
        ncols a = nrows components -> ncols b = nrows components ->
        ncols c = nrows components ->
        nrows a = nrows c -> nrows b = nrows c ->
        (forall i k, (i < nrows c)%nat -> (k < nrows components)%nat ->
           entry c i k = (entry a i k + entry b i k)%R) ->
        reconstruct a components mean = Ok pa ->
        reconstruct b components mean = Ok pb ->
        reconstruct c components mean = Ok pc ->
        forall i j, (i < nrows c)%nat -> (j < ncols components)%nat ->
          entry pc i j = (entry pa i j + entry pb i j - nth j mean 0)%R).
Proof.
  intros Hmean. split; [| split].
  - intros n. now apply reconstruct_zeros.
  - intros samples Hs. now apply reconstruct_entries_sum.
  - intros a b c pa pb pc Ha Hb Hc Hra Hrb Hsum Epa Epb Epc i j Hi Hj.
    destruct (reconstruct_entries_sum a components mean Hmean Ha)
      as [pa' [Ea [_ Hea]]].
    destruct (reconstruct_entries_sum b components mean Hmean Hb)
      as [pb' [Eb [_ Heb]]].
    destruct (reconstruct_entries_sum c components mean Hmean Hc)
      as [pc' [Ec [_ Hec]]].
    rewrite Epa in Ea. rewrite Epb in Eb. rewrite Epc in Ec.
    injection Ea as <-. injection Eb as <-. injection Ec as <-.
    rewrite Hea, Heb, Hec by lia.
    rewrite (sum_upto_ext _ _ (fun k => entry a i k * entry components k j
                                        + entry b i k * entry components k j)%R).
    2: { intros k Hk. rewrite Hsum by assumption. lra. }
    rewrite sum_upto_plus. lra.
Qed.

Lemma reconstruct_linear_witness :
  exists p,
    reconstruct (Matrix 2 [[1; 1]; [2; -3]]%R)
      (Matrix 6 [[1; 0; 0; 0; 0; 0]; [0; 1; 0; 0; 0; 0]]%R)
      [0; 0; 0; 1; 1; 1]%R = Ok p
    /\ p = Matrix 6 [[1; 1; 0; 1; 1; 1]; [2; -3; 0; 1; 1; 1]]%R
    /\ mshape p = (2%nat, 6%nat)
    /\ entry p 0 0 = 1%R /\ entry p 0 1 = 1%R /\ entry p 0 2 = 0%R
    /\ entry p 0 3 = 1%R
    /\ entry p 1 0 = 2%R /\ entry p 1 1 = (-3)%R /\ entry p 1 5 = 1%R.
Proof.
  destruct (reconstruct_linear
              (Matrix 6 [[1; 0; 0; 0; 0; 0]; [0; 1; 0; 0; 0; 0]]%R)
              [0; 0; 0; 1; 1; 1]%R eq_refl) as [_ [Hlin _]].
  destruct (Hlin (Matrix 2 [[1; 1]; [2; -3]]%R) eq_refl) as [p [E [Hs He]]].
  exists p. split; [exact E |]. split.
  { assert (Hrun : reconstruct (Matrix 2 [[1; 1]; [2; -3]]%R)
                     (Matrix 6 [[1; 0; 0; 0; 0; 0]; [0; 1; 0; 0; 0; 0]]%R)
                     [0; 0; 0; 1; 1; 1]%R
                   = Ok (Matrix 6 [[1; 1; 0; 1; 1; 1]; [2; -3; 0; 1; 1; 1]]%R)).
    { unfold reconstruct, matmul, broadcast_rows, tabulate, dot. simpl.
      do 3 f_equal; [| f_equal]; repeat (f_equal; try lra). }
    rewrite E in Hrun. now injection Hrun. }
  split; [exact Hs |].
  repeat match goal with |- _ /\ _ => split end;
    rewrite He by (unfold nrows; simpl; lia);
    unfold sum_upto, entry; simpl; lra.
Defined.

(** The worked example of the specification: the sample [[1, 1]] moves
    vertex 0 by one along x and y and leaves vertex 1 where it is. *)
Example reconstruct_demo :
  reconstruct (Matrix 2 [[1; 1]]%R) (components demo_model) (mean demo_model)
  = Ok (Matrix 6 [[1; 1; 0; 1; 1; 1]]%R).
Proof.
  unfold reconstruct, matmul, broadcast_rows, tabulate, dot. simpl.
  do 3 f_equal. repeat (f_equal; try lra).
Qed.

(** ** Storage in a point array *)

Lemma ln_2_pos : (0 < ln 2)%R.
Proof. rewrite <- ln_1. apply ln_increasing; lra. Qed.

Lemma ln_powerRZ_2 (e : Z) : ln (powerRZ 2 e) = (IZR e * ln 2)%R.
Proof. rewrite powerRZ_Rpower by lra. apply ln_Rpower. Qed.

Lemma Int_part_between (x : R) (f : Z) :
  (IZR f <= x < IZR f + 1)%R -> Int_part x = f.
Proof. intros H. symmetry. apply Int_part_spec. lra. Qed.

(** Between [2^e] and [2^(e+1)] the floats are [2^(e-23)] apart. *)
Lemma float32_exponent_binade (x : R) (e : Z) :
  (powerRZ 2 e <= Rabs x < powerRZ 2 (e + 1))%R ->
  float32_exponent x = Z.max (e - 23) (-149).
Proof.
  intros [Hlo Hhi]. unfold float32_exponent. f_equal. f_equal.
  pose proof ln_2_pos as H2.
  assert (Hp : (0 < powerRZ 2 e)%R) by (apply powerRZ_lt; lra).
  apply Int_part_between. split.
  - apply Rmult_le_reg_r with (r := ln 2); [exact H2 |].
    unfold Rdiv. rewrite Rmult_assoc, Rinv_l, Rmult_1_r by lra.
    rewrite <- ln_powerRZ_2.
    destruct Hlo as [Hlt | Heq];
      [left; apply ln_increasing; lra | right; now rewrite Heq].
  - apply Rmult_lt_reg_r with (r := ln 2); [exact H2 |].
    unfold Rdiv. rewrite Rmult_assoc, Rinv_l, Rmult_1_r by lra.
    rewrite <- plus_IZR, <- ln_powerRZ_2.
    apply ln_increasing; lra.
Qed.

Lemma round_half_even_tie (x : R) (f : Z) :
  x = (IZR f + 1 / 2)%R ->
  round_half_even x = if Z.even f then f else f + 1.
Proof.
  intros Hx. unfold round_half_even.
  rewrite (Int_part_between x f) by lra. cbv zeta.
  destruct (Rlt_dec _ _); [lra |]. destruct (Rlt_dec _ _); [lra |]. reflexivity.
Qed.

Lemma round_half_even_exact (f : Z) : round_half_even (IZR f) = f.
Proof.
  unfold round_half_even. rewrite (Int_part_between (IZR f) f) by lra.
  cbv zeta. destruct (Rlt_dec _ _); [reflexivity | lra].
Qed.

(** 1 is a float. *)
Example round_float32_one : round_float32 1 = 1%R.
Proof.
  unfold round_float32. destruct (Req_dec_T _ _); [lra |].
  rewrite (float32_exponent_binade _ 0).
  2: { rewrite Rabs_pos_eq by lra. simpl. lra. }
  change (Z.max (0 - 23) (-149)) with (-23). cbv zeta.
  replace (1 * powerRZ 2 (- -23))%R with (IZR 8388608) by (simpl; lra).
  rewrite round_half_even_exact. simpl. lra.
Qed.

(** [2^24 + 1] is the first integer that is not a float: it lies halfway
    between the floats [2^24] and [2^24 + 2], and the tie goes to the even
    significand, which is that of [2^24]. *)
Lemma round_float32_16777217 : round_float32 16777217 = 16777216%R.
Proof.
  unfold round_float32. destruct (Req_dec_T _ _); [lra |].
  rewrite (float32_exponent_binade _ 24).
  2: { rewrite Rabs_pos_eq by lra. simpl. lra. }
  change (Z.max (24 - 23) (-149)) with 1. cbv zeta.
  rewrite (round_half_even_tie _ 8388608) by (simpl; lra).
  simpl. lra.
Qed.

(** The next tie, at [2^24 + 3], goes up. *)
Example round_float32_16777219 : round_float32 16777219 = 16777220%R.
Proof.
  unfold round_float32. destruct (Req_dec_T _ _); [lra |].
  rewrite (float32_exponent_binade _ 24).
  2: { rewrite Rabs_pos_eq by lra. simpl. lra. }
  change (Z.max (24 - 23) (-149)) with 1. cbv zeta.
  rewrite (round_half_even_tie _ 8388609) by (simpl; lra).
  simpl. rewrite plus_IZR. lra.
Qed.

Lemma store_point_double (p : point) : store_point VTK_DOUBLE p = p.
Proof. now destruct p as [[x y] z]. Qed.

(** ** The mesh builder *)

Lemma take1_drop (l : list R) (k : nat) :
  (k < length l)%nat -> take 1 (drop k l) = [nth k l 0%R].
Proof.
  revert k. induction l as [| x l IH]; intros k Hk; simpl in Hk; [lia |].
  destruct k as [| k]; simpl.
  - now rewrite take_0.
  - apply IH. lia.
Qed.

Lemma nth_take_drop (l : list R) (off c k : nat) :
  (k < c)%nat -> nth k (take c (drop off l)) 0%R = nth (off + k) l 0%R.
Proof.
  intros Hk. rewrite !nth_lookup.
  rewrite lookup_take_lt, lookup_drop by lia. reflexivity.
Qed.

Lemma length_take_drop (l : list R) (off c : nat) :
  (off + c <= length l)%nat -> length (take c (drop off l)) = c.
Proof. intros H. rewrite length_take, length_drop. lia. Qed.

(** Coordinate [k] of a row of [c] entries. *)
Lemma coordinate_ok (row : list R) (c k : nat) :
  length row = c -> (k < c)%nat ->
  bind_result (ndarray_getitem (NdArray [c] row) k) as_double
  = Ok (nth k row 0%R).
Proof.
  intros Hlen Hk. unfold ndarray_getitem. simpl.
  destruct (Nat.ltb_spec k c); [| lia]. simpl.
  rewrite Nat.mul_1_r, take1_drop by lia. reflexivity.
Qed.

Lemma coordinate_out (row : list R) (c k : nat) :
  (c <= k)%nat ->
  bind_result (ndarray_getitem (NdArray [c] row) k) as_double
  = Raise IndexError.
Proof.
  intros Hk. unfold ndarray_getitem. simpl.
  destruct (Nat.ltb_spec k c); [lia | reflexivity].
Qed.

(** On a well-formed 2-D array with at least three columns the loop body
    reads row [i]. *)
Lemma row_point_ok (r c i : nat) (d : list R) :
  length d = (r * c)%nat -> (i < r)%nat -> (3 <= c)%nat ->
  row_point (NdArray [r; c] d) i = Ok (vertex_of c d i).
Proof.
  intros Hlen Hi Hc. unfold row_point, ndarray_getitem at 1. simpl.
  destruct (Nat.ltb_spec i r); [| lia]. simpl. rewrite Nat.mul_1_r.
  assert (Hrow : length (take c (drop (i * c) d)) = c).
  { apply length_take_drop. nia. }
  rewrite !coordinate_ok by (auto; lia). simpl.
  rewrite !nth_take_drop by lia. unfold vertex_of.
  now rewrite Nat.add_0_r.
Qed.

(** Past the last row, or with fewer than three columns, reading a vertex
    raises [IndexError]. *)
Lemma row_point_out (r c i : nat) (d : list R) :
  length d = (r * c)%nat -> (r <= i)%nat \/ (c < 3)%nat ->
  row_point (NdArray [r; c] d) i = Raise IndexError.
Proof.
  intros Hlen Hout. unfold row_point, ndarray_getitem at 1. simpl.
  destruct (Nat.ltb_spec i r) as [Hi | Hi]; [| reflexivity].
  destruct Hout as [Hr | Hc]; [lia |]. simpl. rewrite Nat.mul_1_r.
  assert (Hrow : length (take c (drop (i * c) d)) = c).
  { apply length_take_drop. nia. }
  destruct (Nat.ltb_spec 0 c); [| now rewrite coordinate_out by lia].
  rewrite (coordinate_ok _ c 0) by (auto; lia). simpl.
  destruct (Nat.ltb_spec 1 c); [| now rewrite coordinate_out by lia].
  rewrite (coordinate_ok _ c 1) by (auto; lia). simpl.
  now rewrite coordinate_out by lia.
Qed.

Lemma set_heap_id (w : world) : set_heap (heap w) w = w.
Proof. now destruct w. Qed.

Lemma overwrite_nil (f : nat -> point) (g : vtkUnstructuredGrid) :
  overwrite f [] g = g.
Proof. now destruct g. Qed.

Lemma overwrite_cons (f : nat -> point) (i : nat) (idxs : list nat)
    (g : vtkUnstructuredGrid) :
  overwrite f (i :: idxs) g
  = overwrite f idxs
      (Grid (point_type g)
            (<[i := store_point (point_type g) (f i)]> (points g)) (cells g)).
Proof. reflexivity. Qed.

Lemma overwrite_app (f : nat -> point) (a b : list nat)
    (g : vtkUnstructuredGrid) :
  overwrite f (a ++ b) g = overwrite f b (overwrite f a g).
Proof. unfold overwrite. simpl. now rewrite foldl_app. Qed.

(** The loop body, in terms of the vertex it reads. *)
Lemma set_point_from_eq (pc : ndarray) (l : loc) (i : nat) (w : world) :
  set_point_from pc l i w
  = match row_point pc i with
    | Ok (x, y, z) => SetPoint l i x y z w
    | Raise e => (Raise e, w)
    end.
Proof.
  unfold set_point_from, row_point, bind, lift.
  destruct (ndarray_getitem pc i) as [pt | e]; simpl; [| reflexivity].
  destruct (bind_result (ndarray_getitem pt 0) as_double); simpl;
    [| reflexivity].
  destruct (bind_result (ndarray_getitem pt 1) as_double); simpl;
    [| reflexivity].
  destruct (bind_result (ndarray_getitem pt 2) as_double); simpl; reflexivity.
Qed.

Lemma for_each_app {A} (a b : list A) (body : A -> py unit) (w : world) :
  for_each (a ++ b) body w = bind (for_each a body) (fun _ => for_each b body) w.
Proof.
  revert w. induction a as [| x a IH]; intros w; simpl.
  - reflexivity.
  - unfold bind in *. destruct (body x w) as [[[] | e] w1]; [| reflexivity].
    apply IH.
Qed.

(** A loop all of whose reads succeed overwrites the visited vertices of
    the one grid object, in place. *)
Lemma loop_ok (pc : ndarray) (l : loc) (f : nat -> point) (idxs : list nat) :
  (forall i, In i idxs -> row_point pc i = Ok (f i)) ->
  forall (w : world) (g : vtkUnstructuredGrid),
    heap w !! l = Some g ->
    for_each idxs (set_point_from pc l) w
    = (Ok tt, set_heap (<[l := overwrite f idxs g]> (heap w)) w).
Proof.
  induction idxs as [| i idxs IH]; intros Hall w g Hg.
  - simpl. unfold ret. rewrite overwrite_nil, insert_id by exact Hg.
    now rewrite set_heap_id.
  - simpl. unfold bind. rewrite set_point_from_eq, (Hall i) by now left.
    destruct (f i) as [[x y] z] eqn:Hf. unfold SetPoint. rewrite Hg.
    cbv zeta.
    rewrite (IH (fun j Hj => Hall j (or_intror Hj)) _
               (Grid (point_type g)
                     (<[i := store_point (point_type g) (x, y, z)]> (points g))
                     (cells g)))
      by (simpl; apply lookup_insert_eq).
    simpl. rewrite insert_insert_eq, overwrite_cons, Hf. reflexivity.
Qed.

(** A loop whose reads succeed up to index [i], where the read raises:
    the exception leaves the loop, the vertices before [i] stay
    overwritten. *)
Lemma loop_raise (pc : ndarray) (l : loc) (f : nat -> point)
    (pre post : list nat) (i : nat) (e : exn) :
  (forall j, In j pre -> row_point pc j = Ok (f j)) ->
  row_point pc i = Raise e ->
  forall (w : world) (g : vtkUnstructuredGrid),
    heap w !! l = Some g ->
    for_each (pre ++ i :: post) (set_point_from pc l) w
    = (Raise e, set_heap (<[l := overwrite f pre g]> (heap w)) w).
Proof.
  intros Hpre Hi w g Hg. rewrite for_each_app. unfold bind.
  rewrite (loop_ok pc l f pre Hpre w g Hg). simpl. unfold bind.
  now rewrite set_point_from_eq, Hi.
Qed.

Lemma foldl_insert_seq {A} (f : nat -> A) (n : nat) (l : list A) :
  (n <= length l)%nat ->
  foldl (fun pts i => <[i := f i]> pts) l (seq 0 n)
  = map f (seq 0 n) ++ drop n l.
Proof.
  induction n as [| n IH]; intros Hn.
  - simpl. now rewrite drop_0.
  - rewrite seq_S, foldl_app, map_app. simpl. rewrite IH by lia.
    destruct (lookup_lt_is_Some_2 l n) as [x Hx]; [lia |].
    rewrite (drop_S l x n Hx).
    rewrite insert_app_r_alt by (rewrite length_map, length_seq; lia).
    rewrite length_map, length_seq, Nat.sub_diag. simpl.
    now rewrite <- app_assoc.
Qed.

Lemma overwrite_all (f : nat -> point) (g : vtkUnstructuredGrid) :
  overwrite f (seq 0 (length (points g))) g = with_vertices g f.
Proof.
  unfold overwrite, with_vertices, tabulate.
  rewrite (foldl_insert_seq (fun i => store_point (point_type g) (f i))) by lia.
  now rewrite drop_all, app_nil_r.
Qed.

Lemma pointcloud2surface_unfold (pc : ndarray) (l : loc) (w : world) :
  pointcloud2surface pc l w
  = match as_rows pc with
    | Raise e => (Raise e, w)
    | Ok pc' =>
        match heap w !! l with
        | None => (Raise AttributeError, w)
        | Some g =>
            match for_each (seq 0 (length (points g))) (set_point_from pc' l) w with
            | (Ok _, w') => (Ok l, w')
            | (Raise e, w') => (Raise e, w')
            end
        end
    end.
Proof.
  unfold pointcloud2surface, as_rows, bind, GetNumberOfPoints, lift, ret.
  destruct (negb (ndim pc =? 2)%nat).
  - destruct (np_reshape_rows3 pc); [| reflexivity].
    destruct (heap w !! l); reflexivity.
  - destruct (heap w !! l); reflexivity.
Qed.

(** What [as_rows] yields on a pointcloud of [V] vertices. *)
Lemma as_rows_vertices (pc : ndarray) (V : nat) :
  ndarray_wf pc ->
  shape pc = [V; 3%nat] \/ (ndim pc <> 2%nat /\ length (data pc) = (3 * V)%nat) ->
  as_rows pc = Ok (NdArray [V; 3%nat] (data pc))
  /\ length (data pc) = (V * 3)%nat.
Proof.
  intros Hwf [Hs | [Hd Hlen]]; unfold as_rows.
  - unfold ndim. rewrite Hs. simpl. unfold ndarray_wf in Hwf.
    rewrite Hs in Hwf. simpl in Hwf. split; [| lia].
    destruct pc as [sh d]. simpl in *. now subst sh.
  - destruct (Nat.eqb_spec (ndim pc) 2); [contradiction |]. simpl.
    unfold np_reshape_rows3. rewrite Hlen, (Nat.mul_comm 3 V).
    rewrite Nat.Div0.mod_mul, Nat.div_mul by lia. simpl. split; reflexivity.
Qed.

(** With at least as many rows as the grid has vertices, the builder
    overwrites every vertex of the grid object it was given and hands that
    same object back. *)
Lemma pointcloud2surface_ok (pc : ndarray) (l : loc) (w : world)
    (g : vtkUnstructuredGrid) (r c : nat) (d : list R) :
  as_rows pc = Ok (NdArray [r; c] d) ->
  length d = (r * c)%nat -> (3 <= c)%nat ->
  heap w !! l = Some g ->
  (length (points g) <= r)%nat ->
  pointcloud2surface pc l w
  = (Ok l, set_heap (<[l := with_vertices g (vertex_of c d)]> (heap w)) w).
Proof.
  intros Hrows Hlen Hc Hg HV.
  rewrite pointcloud2surface_unfold, Hrows, Hg.
  rewrite (loop_ok _ l (vertex_of c d) _) with (g := g); [| | exact Hg].
  - now rewrite overwrite_all.
  - intros i Hi. apply in_seq in Hi. apply row_point_ok; [exact Hlen | lia | lia].
Qed.

(** With fewer rows than the grid has vertices, the read of the first
    missing row raises [IndexError]; the vertices before it have already
    been overwritten. *)
Lemma pointcloud2surface_short (pc : ndarray) (l : loc) (w : world)
    (g : vtkUnstructuredGrid) (r c : nat) (d : list R) :
  as_rows pc = Ok (NdArray [r; c] d) ->
  length d = (r * c)%nat -> (3 <= c)%nat ->
  heap w !! l = Some g ->
  (r < length (points g))%nat ->
  pointcloud2surface pc l w
  = (Raise IndexError,
     set_heap (<[l := overwrite (vertex_of c d) (seq 0 r) g]> (heap w)) w).
Proof.
  intros Hrows Hlen Hc Hg HV.
  rewrite pointcloud2surface_unfold, Hrows, Hg.
  replace (length (points g)) with (r + S (length (points g) - r - 1))%nat by lia.
  rewrite seq_app. simpl.
  rewrite (loop_raise _ l (vertex_of c d) (seq 0 r) _ r IndexError)
    with (g := g); [reflexivity | | | exact Hg].
  - intros i Hi. apply in_seq in Hi. apply row_point_ok; [exact Hlen | lia | lia].
  - apply row_point_out; [exact Hlen | left; lia].
Qed.

(** C2, as stated, fails: the vertices go into the point array of the
    template, which has the scalar type its file declared. On a template
    of one vertex read from a file with [POINTS 1 float], the pointcloud
    [[2^24 + 1, 2^24 + 1, 2^24 + 1]] leaves vertex 0 at
    [(2^24, 2^24, 2^24)], which is not [pointcloud[0]]. *)
Lemma pointcloud2surface_float_counterexample :
  length (points one_vertex_float_grid) = 1%nat
  /\ ndarray_wf (NdArray [1%nat; 3%nat] [16777217; 16777217; 16777217]%R)
  /\ exists w' g',
       pointcloud2surface
         (NdArray [1%nat; 3%nat] [16777217; 16777217; 16777217]%R) 0%nat
         (world_with_grid one_vertex_float_grid) = (Ok 0%nat, w')
       /\ heap w' !! 0%nat = Some g'
       /\ cells g' = cells one_vertex_float_grid
       /\ points g' !! 0%nat = Some (16777216, 16777216, 16777216)%R
       /\ points g' !! 0%nat
          <> Some (vertex_of 3 [16777217; 16777217; 16777217]%R 0).
Proof.
  split; [reflexivity |]. split; [reflexivity |].
  eexists. eexists. split; [| split; [| split; [| split]]].
  - apply (pointcloud2surface_ok _ _ _ one_vertex_float_grid 1 3
             [16777217; 16777217; 16777217]%R);
      try reflexivity; simpl; lia.
  - simpl. apply lookup_insert_eq.
  - reflexivity.
  - simpl. now rewrite round_float32_16777217.
  - simpl. rewrite round_float32_16777217. intros H.
    injection H as H _ _. lra.
Qed.

(** C2, amended. For a pointcloud that reshapes to [V] rows of three and a
    template grid of [V >= 1] vertices, the grid returned by
    [pointcloud2surface] is the template object itself, with the
    template's cells unchanged and with vertex [i], for every [i < V] in
    template order, at [pointcloud[i]] converted to the scalar type of the
    template's point array: at exactly [pointcloud[i]] when the array holds
    doubles, at the floats nearest to its coordinates when it holds
    floats. *)
Theorem pointcloud2surface_vertices (pc : ndarray) (l : loc) (w : world)
    (g : vtkUnstructuredGrid) (V : nat) :
  heap w !! l = Some g ->
  length (points g) = V ->
  (0 < V)%nat ->
  ndarray_wf pc ->
  shape pc = [V; 3%nat] \/ (ndim pc <> 2%nat /\ length (data pc) = (3 * V)%nat) ->
  exists (l' : loc) (w' : world) (g' : vtkUnstructuredGrid),
    pointcloud2surface pc l w = (Ok l', w')
    /\ l' = l
    /\ heap w' !! l' = Some g'
    /\ length (points g') = V
    /\ (forall i, (i < V)%nat ->
          points g' !! i
          = Some (store_point (point_type g) (vertex_of 3 (data pc) i)))
    /\ (point_type g = VTK_DOUBLE ->
        forall i, (i < V)%nat ->
          points g' !! i = Some (vertex_of 3 (data pc) i))
    /\ (point_type g = VTK_FLOAT ->
        forall i, (i < V)%nat ->
          points g' !! i
          = Some (round_float32 (nth (i * 3) (data pc) 0%R),
                  round_float32 (nth (i * 3 + 1) (data pc) 0%R),
                  round_float32 (nth (i * 3 + 2) (data pc) 0%R)))
    /\ cells g' = cells g.
Proof.
  intros Hg HV Hpos Hwf Hshape.
  destruct (as_rows_vertices pc V Hwf Hshape) as [Hrows Hlen].
  assert (Hpts : forall i, (i < V)%nat ->
            points (with_vertices g (vertex_of 3 (data pc))) !! i
            = Some (store_point (point_type g) (vertex_of 3 (data pc) i))).
  { intros i Hi. unfold with_vertices. cbn [points]. rewrite HV.
    now rewrite lookup_tabulate by exact Hi. }
  exists l, (set_heap (<[l := with_vertices g (vertex_of 3 (data pc))]> (heap w)) w),
    (with_vertices g (vertex_of 3 (data pc))).
  split; [apply (pointcloud2surface_ok pc l w g V 3 (data pc)); auto; lia |].
  split; [reflexivity |].
  split; [cbn [set_heap heap]; apply lookup_insert_eq |].
  split; [unfold with_vertices; cbn [points]; rewrite length_tabulate;
          exact HV |].
  split; [exact Hpts |].
  split; [| split; [| reflexivity]].
  - intros Ht i Hi. rewrite (Hpts i Hi), Ht. now rewrite store_point_double.
  - intros Ht i Hi. etransitivity; [exact (Hpts i Hi) |]. now rewrite Ht.
Qed.

Lemma pointcloud2surface_vertices_witness :
  exists (l' : loc) (w' : world) (g' : vtkUnstructuredGrid),
    pointcloud2surface (NdArray [3%nat] [1; 2; 3]%R) 0%nat
      (world_with_grid one_vertex_grid) = (Ok l', w')
    /\ heap w' !! l' = Some g'
    /\ length (points g') = 1%nat
    /\ points g' !! 0%nat = Some (1, 2, 3)%R
    /\ cells g' = cells one_vertex_grid.
Proof.
  destruct (pointcloud2surface_vertices (NdArray [3%nat] [1; 2; 3]%R) 0%nat
              (world_with_grid one_vertex_grid) one_vertex_grid 1)
    as [l' [w' [g' [Hrun [_ [Hg' [Hlen [_ [Hexact [_ Hcells]]]]]]]]]].
  - reflexivity.
  - reflexivity.
  - lia.
  - reflexivity.
  - right. split; [unfold ndim; simpl; lia | reflexivity].
  - exists l', w', g'. split; [exact Hrun |]. split; [exact Hg' |].
    split; [exact Hlen |]. split; [| exact Hcells].
    apply (Hexact eq_refl 0%nat). lia.
Defined.

Lemma as_rows_length (pc : ndarray) (r c : nat) (d : list R) :
  ndarray_wf pc -> as_rows pc = Ok (NdArray [r; c] d) ->
  length d = (r * c)%nat.
Proof.
  unfold as_rows, ndarray_wf, np_reshape_rows3. intros Hwf H.
  destruct (negb (ndim pc =? 2)%nat).
  - destruct (Nat.eqb_spec (length (data pc) mod 3) 0) as [Hm | Hm];
      [| discriminate].
    injection H as Hr Hcol Hd. subst r c d.
    pose proof (Nat.div_mod_eq (length (data pc)) 3) as Hdm.
    rewrite Hm, Nat.add_0_r in Hdm. rewrite Nat.mul_comm. exact Hdm.
  - inversion H; subst. simpl in Hwf. lia.
Qed.

(** C5, as stated, fails: a flat pointcloud of six reals reshapes to two
    vertices; on a template of one vertex the builder returns normally,
    having used the first row only. *)
Lemma pointcloud2surface_surplus_counterexample :
  length (points one_vertex_grid) = 1%nat
  /\ as_rows (NdArray [6%nat] [1; 2; 3; 4; 5; 6]%R)
     = Ok (NdArray [2%nat; 3%nat] [1; 2; 3; 4; 5; 6]%R)
  /\ exists w',
       pointcloud2surface (NdArray [6%nat] [1; 2; 3; 4; 5; 6]%R) 0%nat
         (world_with_grid one_vertex_grid) = (Ok 0%nat, w')
       /\ heap w' !! 0%nat
          = Some (Grid VTK_DOUBLE [(1, 2, 3)%R] [(1%nat, [0%nat])]).
Proof.
  split; [reflexivity |]. split; [reflexivity |].
  eexists. split.
  - apply (pointcloud2surface_ok _ _ _ one_vertex_grid 2 3 [1; 2; 3; 4; 5; 6]%R);
      try reflexivity; simpl; lia.
  - simpl. rewrite lookup_insert_eq. reflexivity.
Qed.

(** C5, amended. On a template grid of [V] vertices: a pointcloud that is
    not 2-D and whose length is not divisible by 3 makes
    [pointcloud2surface] raise the reshape's [ValueError], the grid
    untouched; a pointcloud of fewer than [V] rows of three makes it raise
    [IndexError] at the first missing row, the vertices before that row
    already overwritten; a pointcloud of more than [V] rows is accepted and
    its first [V] rows are used. *)
Theorem pointcloud2surface_shape_errors (pc : ndarray) (l : loc) (w : world)
    (g : vtkUnstructuredGrid) :
  heap w !! l = Some g ->
  ndarray_wf pc ->
  (ndim pc <> 2%nat -> (length (data pc) mod 3 <> 0)%nat ->
     pointcloud2surface pc l w = (Raise ValueError, w))
  /\ (forall r d, as_rows pc = Ok (NdArray [r; 3%nat] d) ->
        (r < length (points g))%nat ->
        pointcloud2surface pc l w
        = (Raise IndexError,
           set_heap (<[l := overwrite (vertex_of 3 d) (seq 0 r) g]> (heap w)) w))
  /\ (forall r d, as_rows pc = Ok (NdArray [r; 3%nat] d) ->
        (length (points g) < r)%nat ->
        pointcloud2surface pc l w
        = (Ok l,
           set_heap (<[l := with_vertices g (vertex_of 3 d)]> (heap w)) w)).
Proof.
  intros Hg Hwf. split; [| split].
  - intros Hd Hm. rewrite pointcloud2surface_unfold. unfold as_rows.
    destruct (Nat.eqb_spec (ndim pc) 2); [contradiction |]. simpl.
    unfold np_reshape_rows3.
    destruct (Nat.eqb_spec (length (data pc) mod 3) 0); [contradiction |].
    reflexivity.
  - intros r d Hrows Hr.
    apply (pointcloud2surface_short pc l w g r 3 d); auto.
    now apply (as_rows_length pc).
  - intros r d Hrows Hr.
    apply (pointcloud2surface_ok pc l w g r 3 d); auto; [| lia].
    now apply (as_rows_length pc).
Qed.

Lemma pointcloud2surface_shape_errors_witness :
  (ndim (NdArray [4%nat] [1; 2; 3; 4]%R) <> 2%nat ->
   (length (data (NdArray [4%nat] [1; 2; 3; 4]%R)) mod 3 <> 0)%nat ->
     pointcloud2surface (NdArray [4%nat] [1; 2; 3; 4]%R) 0%nat
       (world_with_grid one_vertex_grid)
     = (Raise ValueError, world_with_grid one_vertex_grid))
  /\ (forall r d,
        as_rows (NdArray [4%nat] [1; 2; 3; 4]%R) = Ok (NdArray [r; 3%nat] d) ->
        (r < length (points one_vertex_grid))%nat ->
        pointcloud2surface (NdArray [4%nat] [1; 2; 3; 4]%R) 0%nat
          (world_with_grid one_vertex_grid)
        = (Raise IndexError,
           set_heap (<[0%nat := overwrite (vertex_of 3 d) (seq 0 r)
                                  one_vertex_grid]>
                       (heap (world_with_grid one_vertex_grid)))
                    (world_with_grid one_vertex_grid)))
  /\ (forall r d,
        as_rows (NdArray [4%nat] [1; 2; 3; 4]%R) = Ok (NdArray [r; 3%nat] d) ->
        (length (points one_vertex_grid) < r)%nat ->
        pointcloud2surface (NdArray [4%nat] [1; 2; 3; 4]%R) 0%nat
          (world_with_grid one_vertex_grid)
        = (Ok 0%nat,
           set_heap (<[0%nat := with_vertices one_vertex_grid (vertex_of 3 d)]>
                       (heap (world_with_grid one_vertex_grid)))
                    (world_with_grid one_vertex_grid))).
Proof.
  apply (pointcloud2surface_shape_errors (NdArray [4%nat] [1; 2; 3; 4]%R) 0%nat
           (world_with_grid one_vertex_grid) one_vertex_grid).
  - reflexivity.
  - reflexivity.
Defined.

(** ** The orchestration: argument checks *)

Lemma boundary_ok_spec (b : R) :
  boundary_ok b = true <-> (b = -1 \/ 0 < b <= 5)%R.
Proof.
  unfold boundary_ok. rewrite orb_true_iff, andb_true_iff.
  rewrite !bool_decide_eq_true. intuition lra.
Qed.

Lemma boundary_ok_false (b : R) :
  boundary_ok b = false <-> ~ (b = -1 \/ 0 < b <= 5)%R.
Proof.
  rewrite <- boundary_ok_spec. destruct (boundary_ok b); split; intros H;
    try reflexivity; try discriminate; try (intros H'; discriminate).
  exfalso. now apply H.
Qed.

(** A missing input path is reported; nothing else happens. *)
Lemma generate_no_input (input_path output_path : string)
    (num_samples num_components : Z) (boundary : R) (w : world) :
  input_path ∉ fs w ->
  generate_synthetic_mesh input_path output_path num_samples num_components
    boundary w
  = (Ok (PyBool false), reported (PathNotFound input_path) w).
Proof.
  intros Hin. unfold generate_synthetic_mesh, bind, os_path_exists.
  rewrite bool_decide_eq_false_2 by exact Hin. reflexivity.
Qed.

(** Past the two path steps, the checks on the numbers run in the order
    sample count, component count, boundary. *)
Lemma generate_checks (input_path output_path : string)
    (num_samples num_components : Z) (boundary : R) (w : world) :
  input_path ∈ fs w ->
  mkdir_passes output_path w ->
  generate_synthetic_mesh input_path output_path num_samples num_components
    boundary w
  = let w1 := after_mkdir output_path w in
    if num_samples <=? 0 then
      (Ok (PyBool false), reported (InvalidSampleCount num_samples) w1)
    else if (num_components >=? 95) || (num_components <=? 0) then
      (Ok (PyBool false), reported (InvalidComponentCount num_components) w1)
    else if negb (boundary_ok boundary) then
      (Ok (PyBool false), reported (InvalidBoundary boundary) w1)
    else synthesize input_path output_path num_samples num_components
           boundary w1.
Proof.
  intros Hin Hout.
  unfold generate_synthetic_mesh, bind, os_path_exists, after_mkdir, os_mkdir.
  rewrite bool_decide_eq_true_2 by exact Hin. simpl.
  destruct (bool_decide (output_path ∈ fs w)) eqn:Hex; simpl.
  - destruct (num_samples <=? 0); [reflexivity |].
    destruct ((num_components >=? 95) || (num_components <=? 0));
      [reflexivity |].
    destruct (negb (boundary_ok boundary)); reflexivity.
  - destruct Hout as [Hout | Hout].
    + apply bool_decide_eq_false in Hex. contradiction.
    + rewrite Hex, Hout.
      destruct (num_samples <=? 0); [reflexivity |].
      destruct ((num_components >=? 95) || (num_components <=? 0));
        [reflexivity |].
      destruct (negb (boundary_ok boundary)); reflexivity.
Qed.

(** Arguments that pass the three checks hand the run over to
    [synthesize]. *)
Lemma generate_passes (input_path output_path : string)
    (num_samples num_components : Z) (boundary : R) (w : world) :
  input_path ∈ fs w ->
  mkdir_passes output_path w ->
  0 < num_samples -> 0 < num_components < 95 ->
  (boundary = -1 \/ 0 < boundary <= 5)%R ->
  generate_synthetic_mesh input_path output_path num_samples num_components
    boundary w
  = synthesize input_path output_path num_samples num_components boundary
      (after_mkdir output_path w).
Proof.
  intros Hin Hout Hn Hk Hb.
  rewrite (generate_checks _ _ _ _ _ _ Hin Hout). cbv zeta.
  destruct (Z.leb_spec num_samples 0); [lia |].
  destruct (Z.geb_spec num_components 95); [lia |].
  destruct (Z.leb_spec num_components 0); [lia |]. simpl.
  apply boundary_ok_spec in Hb. now rewrite Hb.
Qed.

(** An argument that fails its check ends the run with a message and
    [False]. *)
Lemma generate_fails (input_path output_path : string)
    (num_samples num_components : Z) (boundary : R) (w : world) :
  input_path ∈ fs w ->
  mkdir_passes output_path w ->
  num_samples <= 0 \/ num_components <= 0 \/ 95 <= num_components
    \/ ~ (boundary = -1 \/ 0 < boundary <= 5)%R ->
  exists r,
    generate_synthetic_mesh input_path output_path num_samples num_components
      boundary w
    = (Ok (PyBool false), reported r (after_mkdir output_path w)).
Proof.
  intros Hin Hout Hbad.
  rewrite (generate_checks _ _ _ _ _ _ Hin Hout). cbv zeta.
  destruct (Z.leb_spec num_samples 0); [eauto |].
  destruct (Z.geb_spec num_components 95); simpl; [eauto |].
  destruct (Z.leb_spec num_components 0); [eauto |].
  destruct (boundary_ok boundary) eqn:Hb; simpl; [| eauto].
  apply boundary_ok_spec in Hb. exfalso.
  destruct Hbad as [H' | [H' | [H' | H']]]; try lia. now apply H'.
Qed.

(** When [os.mkdir] is called and refused, its exception leaves
    [generate_synthetic_mesh] before any number is checked. *)
Lemma generate_mkdir_refused (input_path output_path : string)
    (num_samples num_components : Z) (boundary : R) (w : world) :
  input_path ∈ fs w -> output_path ∉ fs w -> mkdir_ok w output_path = false ->
  generate_synthetic_mesh input_path output_path num_samples num_components
    boundary w
  = (Raise OSError, w).
Proof.
  intros Hin Hout Hno.
  unfold generate_synthetic_mesh, bind, os_path_exists, os_mkdir.
  rewrite bool_decide_eq_true_2 by exact Hin. simpl.
  rewrite bool_decide_eq_false_2 by exact Hout. simpl.
  rewrite bool_decide_eq_false_2 by exact Hout. now rewrite Hno.
Qed.

Lemma fs_after_mkdir (output_path : string) (w : world) :
  output_path ∈ fs (after_mkdir output_path w).
Proof.
  unfold after_mkdir. case_bool_decide; [assumption |]. simpl.
  apply elem_of_union_l, elem_of_singleton. reflexivity.
Qed.

(** C4. Once the input path exists and the output directory is there or
    can be made, [generate_synthetic_mesh] checks its numbers in order and
    stops at the first violation by printing a message and returning
    [False], without raising: a sample count [<= 0] whatever the other
    arguments; otherwise a component count outside (0, 95), so 0 and 95,
    whatever the boundary; otherwise a boundary that is neither -1 nor in
    (0, 5]. A component count inside (0, 95), such as 94, passes its check:
    with a bad boundary the boundary is what is reported, and with a good
    one the run goes on to load the model. *)
Theorem generate_validates_in_order (input_path output_path : string)
    (num_samples num_components : Z) (boundary : R) (w : world) :
  input_path ∈ fs w ->
  mkdir_passes output_path w ->
  let run := generate_synthetic_mesh input_path output_path num_samples
               num_components boundary w in
  let w1 := after_mkdir output_path w in
  (num_samples <= 0 ->
     run = (Ok (PyBool false), reported (InvalidSampleCount num_samples) w1))
  /\ (0 < num_samples -> num_components <= 0 \/ 95 <= num_components ->
        run = (Ok (PyBool false),
               reported (InvalidComponentCount num_components) w1))
  /\ (0 < num_samples -> 0 < num_components < 95 ->
        ~ (boundary = -1 \/ 0 < boundary <= 5)%R ->
        run = (Ok (PyBool false), reported (InvalidBoundary boundary) w1))
  /\ (0 < num_samples -> 0 < num_components < 95 ->
        (boundary = -1 \/ 0 < boundary <= 5)%R ->
        run = synthesize input_path output_path num_samples num_components
                boundary w1).
Proof.
  intros Hin Hout run w1. subst run w1.
  rewrite (generate_checks _ _ _ _ _ _ Hin Hout). cbv zeta.
  split; [| split; [| split]].
  - intros Hn. destruct (Z.leb_spec num_samples 0); [reflexivity | lia].
  - intros Hn Hk. destruct (Z.leb_spec num_samples 0); [lia |].
    destruct (Z.geb_spec num_components 95); simpl; [reflexivity |].
    destruct (Z.leb_spec num_components 0); [reflexivity | lia].
  - intros Hn Hk Hb. destruct (Z.leb_spec num_samples 0); [lia |].
    destruct (Z.geb_spec num_components 95); [lia |].
    destruct (Z.leb_spec num_components 0); [lia |]. simpl.
    apply boundary_ok_false in Hb. now rewrite Hb.
  - intros Hn Hk Hb. destruct (Z.leb_spec num_samples 0); [lia |].
    destruct (Z.geb_spec num_components 95); [lia |].
    destruct (Z.leb_spec num_components 0); [lia |]. simpl.
    apply boundary_ok_spec in Hb. now rewrite Hb.
Qed.

Lemma generate_validates_in_order_witness :
  generate_synthetic_mesh "in" "out" 1 95 (-1) demo_world
  = (Ok (PyBool false),
     reported (InvalidComponentCount 95) (after_mkdir "out" demo_world)).
Proof.
  assert (Hin : "in"%string ∈ fs demo_world).
  { simpl. apply elem_of_singleton. reflexivity. }
  assert (Hout : mkdir_passes "out" demo_world) by (right; reflexivity).
  destruct (generate_validates_in_order "in" "out" 1 95 (-1) demo_world
              Hin Hout) as [_ [H _]].
  apply H; lia.
Defined.

(** C10. With the input path present and the output path absent,
    [generate_synthetic_mesh] makes the output directory before it checks
    [num_samples], [num_components] and [boundary]: a call that fails one
    of these checks returns [False] and leaves the new directory behind. *)
Theorem generate_mkdir_before_checks (input_path output_path : string)
    (num_samples num_components : Z) (boundary : R) (w : world) :
  input_path ∈ fs w ->
  output_path ∉ fs w ->
  mkdir_ok w output_path = true ->
  num_samples <= 0 \/ num_components <= 0 \/ 95 <= num_components
    \/ ~ (boundary = -1 \/ 0 < boundary <= 5)%R ->
  exists w',
    generate_synthetic_mesh input_path output_path num_samples num_components
      boundary w = (Ok (PyBool false), w')
    /\ output_path ∈ fs w'
    /\ fs w' = {[output_path]} ∪ fs w
    /\ fs w' <> fs w
    /\ written w' = written w.
Proof.
  intros Hin Hout Hmk Hbad.
  assert (Hpass : mkdir_passes output_path w) by now right.
  assert (Hfs : fs (after_mkdir output_path w) = {[output_path]} ∪ fs w).
  { unfold after_mkdir. now rewrite bool_decide_eq_false_2 by exact Hout. }
  assert (Hwr : written (after_mkdir output_path w) = written w).
  { unfold after_mkdir. now rewrite bool_decide_eq_false_2 by exact Hout. }
  assert (Hmem : output_path ∈ ({[output_path]} ∪ fs w : gset string)).
  { apply elem_of_union_l, elem_of_singleton. reflexivity. }
  assert (Hne : {[output_path]} ∪ fs w <> fs w).
  { intros Heq. apply Hout. rewrite <- Heq. exact Hmem. }
  destruct (generate_fails input_path output_path num_samples num_components
              boundary w Hin Hpass Hbad) as [r Hrun].
  rewrite Hrun. eexists. split; [reflexivity |]. simpl. rewrite Hfs.
  repeat split; assumption.
Qed.

Lemma generate_mkdir_before_checks_witness :
  exists w',
    generate_synthetic_mesh "in" "out" 0 94 (-1) demo_world
    = (Ok (PyBool false), w')
    /\ "out"%string ∈ fs w'
    /\ fs w' = {["out"%string]} ∪ fs demo_world
    /\ fs w' <> fs demo_world
    /\ written w' = written demo_world.
Proof.
  apply (generate_mkdir_before_checks "in" "out" 0 94 (-1) demo_world).
  - simpl. apply elem_of_singleton. reflexivity.
  - simpl. rewrite elem_of_singleton. discriminate.
  - reflexivity.
  - left. lia.
Defined.

(** ** The mesh builder works in place *)

(** A loop that came to its end read every vertex it visited. *)
Lemma loop_inv (pc : ndarray) (l : loc) (idxs : list nat) :
  forall (w w' : world) (g : vtkUnstructuredGrid),
    heap w !! l = Some g ->
    for_each idxs (set_point_from pc l) w = (Ok tt, w') ->
    exists f,
      (forall i, In i idxs -> row_point pc i = Ok (f i))
      /\ w' = set_heap (<[l := overwrite f idxs g]> (heap w)) w.
Proof.
  intros w w' g Hg Hrun.
  exists (fun i => match row_point pc i with
                   | Ok p => p
                   | Raise _ => (0, 0, 0)%R
                   end).
  revert w g Hg Hrun. induction idxs as [| i idxs IH]; intros w g Hg Hrun.
  - simpl in Hrun. unfold ret in Hrun. inversion Hrun; subst.
    split; [intros i [] |].
    now rewrite overwrite_nil, insert_id, set_heap_id.
  - simpl in Hrun. unfold bind in Hrun. rewrite set_point_from_eq in Hrun.
    destruct (row_point pc i) as [[[x y] z] | e] eqn:Hi; [| discriminate].
    unfold SetPoint in Hrun. rewrite Hg in Hrun. cbv zeta in Hrun.
    apply (IH _ (Grid (point_type g)
                      (<[i := store_point (point_type g) (x, y, z)]> (points g))
                      (cells g))) in Hrun;
      [| simpl; apply lookup_insert_eq].
    destruct Hrun as [Hall Hw]. split.
    + intros j [<- | Hj]; [now rewrite Hi | now apply Hall].
    + rewrite Hw. simpl. rewrite insert_insert_eq, overwrite_cons, Hi.
      reflexivity.
Qed.

(** Every call of [pointcloud2surface] that returns, returns the reference
    it was given; the world differs only in the vertices of that one grid,
    which are the rows it read. *)
Lemma pointcloud2surface_inv (pc : ndarray) (l l' : loc) (w w' : world) :
  pointcloud2surface pc l w = (Ok l', w') ->
  l' = l
  /\ exists pc' g f,
       as_rows pc = Ok pc'
       /\ heap w !! l = Some g
       /\ (forall i, (i < length (points g))%nat -> row_point pc' i = Ok (f i))
       /\ w' = set_heap (<[l := with_vertices g f]> (heap w)) w.
Proof.
  rewrite pointcloud2surface_unfold. intros H.
  destruct (as_rows pc) as [pc' | e]; [| discriminate].
  destruct (heap w !! l) as [g |] eqn:Hg; [| discriminate].
  destruct (for_each _ _ w) as [[[] | e] w1] eqn:Hloop; [| discriminate].
  inversion H; subst. split; [reflexivity |].
  destruct (loop_inv _ _ _ _ _ _ Hg Hloop) as [f [Hall Hw]].
  exists pc', g, f. split; [reflexivity |]. split; [reflexivity |]. split.
  - intros i Hi. apply Hall, in_seq. lia.
  - now rewrite Hw, overwrite_all.
Qed.

(** ** The orchestration: one template object for every sample *)

Lemma built_from_rebase (pc : ndarray) (g g1 x : vtkUnstructuredGrid) :
  cells g1 = cells g -> length (points g1) = length (points g) ->
  point_type g1 = point_type g ->
  built_from pc g1 x -> built_from pc g x.
Proof.
  unfold built_from. intros Hc Hl Ht [Hxc [Hxl [Hxt Hrows]]].
  rewrite Hc, Hl, Ht in *. auto.
Qed.

(** The grid with all its vertices overwritten by the rows [f] that the
    builder read is built from the pointcloud. *)
Lemma with_vertices_built_from (pc pc' : ndarray) (g : vtkUnstructuredGrid)
    (f : nat -> point) :
  as_rows pc = Ok pc' ->
  (forall i, (i < length (points g))%nat -> row_point pc' i = Ok (f i)) ->
  built_from pc g (with_vertices g f).
Proof.
  intros Hrows Hread. unfold built_from, with_vertices. cbn [cells points point_type].
  split; [reflexivity |]. split; [apply length_tabulate |].
  split; [reflexivity |].
  exists pc'. split; [exact Hrows |]. intros j Hj. exists (f j).
  split; [now apply Hread | now rewrite lookup_tabulate by exact Hj].
Qed.

Lemma final_grid_cons (g : vtkUnstructuredGrid) (e : write_event)
    (events : list write_event) :
  final_grid g (e :: events) = final_grid (w_grid e) events.
Proof.
  unfold final_grid. rewrite last_cons. destruct (last events); reflexivity.
Qed.

(** One turn of the loop that completes: it wrote one event, from the
    template object, and changed nothing but that object and the list of
    written files. *)
Lemma write_sample_inv (output_path : string) (num_samples : Z) (P : matrix)
    (l : loc) (i : nat) (w w1 : world) (g : vtkUnstructuredGrid) :
  heap w !! l = Some g ->
  write_sample output_path num_samples P l i w = (Ok tt, w1) ->
  exists e,
    sample_event output_path num_samples P l g (c_log w) i e
    /\ w1 = set_written (written w ++ [e])
              (set_heap (<[l := w_grid e]> (heap w)) w).
Proof.
  intros Hg Hrun. unfold write_sample, bind, padding_order, lift in Hrun.
  destruct (order_of (c_log w) num_samples) as [order | ?] eqn:Hord;
    [| discriminate].
  destruct (matrix_getitem P i) as [pc | ?] eqn:Hpc; [| discriminate].
  destruct (pointcloud2surface pc l w) as [[l' | ?] w2] eqn:Hp; [| discriminate].
  destruct (pointcloud2surface_inv _ _ _ _ _ Hp)
    as [-> [pc' [g0 [f [Hrows [Hg0 [Hread Hw2]]]]]]].
  rewrite Hg in Hg0. inversion Hg0; subst g0. clear Hg0.
  unfold write_vtk_file in Hrun. rewrite Hw2 in Hrun. simpl in Hrun.
  rewrite lookup_insert_eq in Hrun. inversion Hrun; subst w1. clear Hrun.
  exists (WriteEvent output_path (file_name i order) l (with_vertices g f)).
  split; [| reflexivity]. unfold sample_event. cbn [w_dir w_obj w_name w_grid].
  split; [reflexivity |]. split; [reflexivity |]. split; [eauto |].
  exists pc. split; [exact Hpc |].
  now apply (with_vertices_built_from pc pc').
Qed.

(** The loop that completes: one event per index, all from the one
    template object, which ends up holding what the last turn built. *)
Lemma write_loop_inv (output_path : string) (num_samples : Z) (P : matrix)
    (l : loc) (idxs : list nat) :
  forall (w w' : world) (g : vtkUnstructuredGrid),
    heap w !! l = Some g ->
    for_each idxs (write_sample output_path num_samples P l) w = (Ok tt, w') ->
    exists events,
      Forall2 (sample_event output_path num_samples P l g (c_log w)) idxs events
      /\ w' = set_written (written w ++ events)
                (set_heap (<[l := final_grid g events]> (heap w)) w).
Proof.
  induction idxs as [| i idxs IH]; intros w w' g Hg Hrun.
  - simpl in Hrun. unfold ret in Hrun. inversion Hrun; subst w'.
    exists []. split; [constructor |].
    unfold final_grid. simpl. rewrite app_nil_r, insert_id by exact Hg.
    now destruct w.
  - simpl in Hrun. unfold bind in Hrun.
    destruct (write_sample output_path num_samples P l i w)
      as [[[] | ?] w1] eqn:Hstep; [| discriminate].
    destruct (write_sample_inv _ _ _ _ _ _ _ _ Hg Hstep) as [e [He Hw1]].
    assert (Hg1 : heap w1 !! l = Some (w_grid e)).
    { rewrite Hw1. simpl. apply lookup_insert_eq. }
    destruct (IH _ _ _ Hg1 Hrun) as [events [Hev Hw']].
    exists (e :: events). split.
    + constructor; [exact He |].
      assert (Hlog : c_log w1 = c_log w) by now rewrite Hw1.
      rewrite Hlog in Hev.
      destruct He as [_ [_ [_ [pc [_ [Hc [Hl [Ht _]]]]]]]].
      eapply Forall2_impl; [exact Hev |].
      intros k e' [Hd [Ho [Hn [pc' [Hpc' Hb]]]]].
      repeat (split; [assumption |]).
      exists pc'. split; [assumption |].
      now apply (built_from_rebase pc' g (w_grid e)).
    + rewrite Hw', final_grid_cons, Hw1. unfold set_written, set_heap. simpl.
      now rewrite insert_insert_eq, <- app_assoc.
Qed.

Lemma sample_world (num_samples num_components : Z) (ev : vector) (b : R)
    (w w' : world) (r : result matrix) :
  sample num_samples num_components ev b w = (r, w') ->
  exists rng', w' = set_rng rng' w.
Proof.
  unfold sample, bind, np_random_normal, lift, ret. intros H.
  destruct ((num_samples <? 0) || (num_components <? 0)).
  - inversion H; subst. exists (rng w'). now destruct w'.
  - destruct (broadcast_rows _ _ _); inversion H; subst; eauto.
Qed.

(** A run of [synthesize] that returns: it returns [None], has allocated
    the template object and nothing else, and has written one event per
    sample from that object. *)
Lemma synthesize_inv (input_path output_path : string)
    (num_samples num_components : Z) (boundary : R) (w w' : world) (v : pyval) :
  synthesize input_path output_path num_samples num_components boundary w
  = (Ok v, w') ->
  let l := fresh (dom (heap w)) in
  let template := default empty_grid (vtk_files w !! input_path) in
  v = PyNone
  /\ exists P events rng',
       Forall2 (sample_event output_path num_samples P l template (c_log w))
               (seq 0 (Z.to_nat num_samples)) events
       /\ w' = set_written (written w ++ events)
                 (set_heap (<[l := final_grid template events]> (heap w))
                    (set_rng rng' w)).
Proof.
  intros Hrun l template.
  unfold synthesize, bind, load_h5py, load_mean_vtk, lift, ret in Hrun.
  destruct (h5_files w !! input_path) as [f |]; [| discriminate].
  fold l template in Hrun.
  set (w2 := set_heap (<[l := template]> (heap w)) w) in Hrun.
  destruct (sample _ _ _ _ w2) as [[S | ?] w3] eqn:Hs; [| discriminate].
  destruct (sample_world _ _ _ _ _ _ _ Hs) as [rng' Hw3].
  destruct (reconstruct _ _ _) as [P | ?]; [| discriminate].
  destruct (for_each _ _ w3) as [[[] | ?] w4] eqn:Hloop; [| discriminate].
  inversion Hrun; subst v w4. clear Hrun. split; [reflexivity |].
  assert (Hg : heap w3 !! l = Some template).
  { rewrite Hw3. simpl. apply lookup_insert_eq. }
  destruct (write_loop_inv _ _ _ _ _ _ _ _ Hg Hloop) as [events [Hev Hw']].
  exists P, events, rng'. split.
  - now rewrite Hw3 in Hev.
  - rewrite Hw', Hw3. unfold set_written, set_heap, set_rng, w2. simpl.
    now rewrite insert_insert_eq.
Qed.

Lemma after_mkdir_frame (output_path : string) (w : world) :
  heap (after_mkdir output_path w) = heap w
  /\ written (after_mkdir output_path w) = written w
  /\ c_log (after_mkdir output_path w) = c_log w
  /\ vtk_files (after_mkdir output_path w) = vtk_files w
  /\ h5_files (after_mkdir output_path w) = h5_files w.
Proof. unfold after_mkdir. case_bool_decide; repeat split. Qed.

(** Every run of [generate_synthetic_mesh] that returns either failed a
    check and returned [False], or passed them all and is a run of
    [synthesize]. *)
Lemma generate_inv (input_path output_path : string)
    (num_samples num_components : Z) (boundary : R) (w w' : world) (v : pyval) :
  generate_synthetic_mesh input_path output_path num_samples num_components
    boundary w = (Ok v, w') ->
  (v = PyBool false
   /\ (input_path ∉ fs w \/ num_samples <= 0 \/ num_components <= 0
       \/ 95 <= num_components \/ ~ (boundary = -1 \/ 0 < boundary <= 5)%R)
   /\ heap w' = heap w /\ written w' = written w)
  \/ (input_path ∈ fs w /\ mkdir_passes output_path w
      /\ 0 < num_samples /\ 0 < num_components < 95
      /\ (boundary = -1 \/ 0 < boundary <= 5)%R
      /\ synthesize input_path output_path num_samples num_components boundary
           (after_mkdir output_path w) = (Ok v, w')).
Proof.
  intros Hrun.
  destruct (decide (input_path ∈ fs w)) as [Hin | Hin].
  2: { rewrite generate_no_input in Hrun by exact Hin.
       inversion Hrun; subst. left.
       split; [reflexivity |]. split; [tauto |]. split; reflexivity. }
  assert (Hpass : mkdir_passes output_path w).
  { destruct (decide (output_path ∈ fs w)) as [Ho | Ho]; [now left |].
    destruct (mkdir_ok w output_path) eqn:Hok; [now right |].
    rewrite generate_mkdir_refused in Hrun by assumption. discriminate. }
  destruct (after_mkdir_frame output_path w) as [Hh [Hwr _]].
  destruct (decide (num_samples <= 0 \/ num_components <= 0
                    \/ 95 <= num_components
                    \/ ~ (boundary = -1 \/ 0 < boundary <= 5)%R))
    as [Hbad | Hgood].
  - destruct (generate_fails input_path output_path num_samples num_components
                boundary w Hin Hpass Hbad) as [r Hr].
    rewrite Hr in Hrun. inversion Hrun; subst. left.
    split; [reflexivity |]. split; [tauto |]. split; assumption.
  - assert (Hb : (boundary = -1 \/ 0 < boundary <= 5)%R).
    { destruct (boundary_ok boundary) eqn:Hb; [now apply boundary_ok_spec |].
      apply boundary_ok_false in Hb. tauto. }
    rewrite generate_passes in Hrun by (auto; lia).
    right. repeat split; auto; lia.
Qed.

(** C7. [generate_synthetic_mesh] tells failure from success by its return
    value. A check that fails (the input path, then, once the output
    directory is there, the sample count, the component count, the
    boundary) makes it return [False] without raising. Every run that
    returns at all returns either [False], a check having failed, or [None],
    all checks having passed and the meshes having been written; and [None]
    is not [False]. *)
Theorem generate_returns_flag (input_path output_path : string)
    (num_samples num_components : Z) (boundary : R) (w : world) :
  let run := generate_synthetic_mesh input_path output_path num_samples
               num_components boundary w in
  let bad_argument :=
    num_samples <= 0 \/ num_components <= 0 \/ 95 <= num_components
    \/ ~ (boundary = -1 \/ 0 < boundary <= 5)%R in
  (input_path ∉ fs w -> exists w', run = (Ok (PyBool false), w'))
  /\ (input_path ∈ fs w -> mkdir_passes output_path w -> bad_argument ->
        exists w', run = (Ok (PyBool false), w'))
  /\ (forall v w', run = (Ok v, w') ->
        (v = PyBool false /\ (input_path ∉ fs w \/ bad_argument))
        \/ (v = PyNone /\ input_path ∈ fs w /\ ~ bad_argument))
  /\ PyNone <> PyBool false.
Proof.
  intros run bad_argument. subst run bad_argument.
  split; [| split; [| split]].
  - intros Hin. rewrite generate_no_input by exact Hin. eauto.
  - intros Hin Hpass Hbad.
    destruct (generate_fails input_path output_path num_samples num_components
                boundary w Hin Hpass Hbad) as [r Hr].
    rewrite Hr. eauto.
  - intros v w' Hrun. apply generate_inv in Hrun.
    destruct Hrun as [[Hv [Hbad _]] | [Hin [_ [Hn [Hk [Hb Hsyn]]]]]].
    + left. split; [exact Hv |]. tauto.
    + right. apply synthesize_inv in Hsyn. destruct Hsyn as [Hv _].
      split; [exact Hv |]. split; [exact Hin |].
      intros [H | [H | [H | H]]]; try lia. now apply H.
  - discriminate.
Qed.

(** Seen as a truth value, the [None] of a successful run is as false as
    the [False] of a failed one. *)
Remark success_value_is_falsy : truthy PyNone = truthy (PyBool false).
Proof. reflexivity. Qed.


(** ** The orchestration: a run that fits *)

Lemma sample_mesh_rebase (P : matrix) (g g1 : vtkUnstructuredGrid) (i : nat) :
  cells g1 = cells g -> length (points g1) = length (points g) ->
  point_type g1 = point_type g ->
  sample_mesh P g1 i = sample_mesh P g i.
Proof. unfold sample_mesh, with_vertices. now intros -> -> ->. Qed.

Lemma sample_mesh_keeps (P : matrix) (g : vtkUnstructuredGrid) (i : nat) :
  cells (sample_mesh P g i) = cells g
  /\ length (points (sample_mesh P g i)) = length (points g)
  /\ point_type (sample_mesh P g i) = point_type g.
Proof.
  unfold sample_mesh, with_vertices. cbn [cells points point_type].
  split; [reflexivity |]. split; [apply length_tabulate | reflexivity].
Qed.

(** One turn of the loop on a pointcloud row of [3 V] reals and a template
    of [V] vertices. *)
Lemma write_sample_ok (output_path : string) (num_samples : Z) (P : matrix)
    (l : loc) (i : nat) (w : world) (g : vtkUnstructuredGrid) (order : Z) :
  heap w !! l = Some g ->
  order_of (c_log w) num_samples = Ok order ->
  matrix_wf P -> (i < nrows P)%nat ->
  ncols P = (3 * length (points g))%nat ->
  write_sample output_path num_samples P l i w
  = (Ok tt,
     set_written (written w ++ [mesh_event output_path order l P g i])
       (set_heap (<[l := sample_mesh P g i]> (heap w)) w)).
Proof.
  intros Hg Hord Hwf Hi Hcols.
  unfold write_sample, bind, padding_order, lift. rewrite Hord.
  unfold matrix_getitem.
  destruct (lookup_lt_is_Some_2 (rows P) i Hi) as [row Hrow]. rewrite Hrow.
  assert (Hnth : nth i (rows P) [] = row) by now rewrite nth_lookup, Hrow.
  assert (Hlen : length row = ncols P).
  { rewrite <- Hnth. now apply wf_row_length. }
  destruct (as_rows_vertices (NdArray [ncols P] row) (length (points g)))
    as [Hrows Hlen3].
  { unfold ndarray_wf. simpl. lia. }
  { right. split; [unfold ndim; simpl; lia | simpl; lia]. }
  simpl in Hrows, Hlen3.
  rewrite (pointcloud2surface_ok _ l w g (length (points g)) 3 row)
    by (auto; lia).
  unfold write_vtk_file. simpl. rewrite lookup_insert_eq.
  unfold mesh_event, sample_mesh. now rewrite Hnth.
Qed.

Lemma write_loop_ok (output_path : string) (num_samples : Z) (P : matrix)
    (l : loc) (order : Z) (idxs : list nat) :
  matrix_wf P ->
  (forall i, In i idxs -> (i < nrows P)%nat) ->
  forall (w : world) (g : vtkUnstructuredGrid),
    heap w !! l = Some g ->
    order_of (c_log w) num_samples = Ok order ->
    ncols P = (3 * length (points g))%nat ->
    for_each idxs (write_sample output_path num_samples P l) w
    = (Ok tt,
       let events := map (mesh_event output_path order l P g) idxs in
       set_written (written w ++ events)
         (set_heap (<[l := final_grid g events]> (heap w)) w)).
Proof.
  intros Hwf. induction idxs as [| i idxs IH]; intros Hall w g Hg Hord Hcols.
  - simpl. unfold ret, final_grid. simpl.
    rewrite app_nil_r, insert_id by exact Hg. now destruct w.
  - simpl. unfold bind.
    rewrite (write_sample_ok _ _ _ _ _ _ g order) by (auto; apply Hall; now left).
    destruct (sample_mesh_keeps P g i) as [Hc1 [Hl1 Ht1]].
    rewrite (IH (fun j Hj => Hall j (or_intror Hj)) _ (sample_mesh P g i));
      [| simpl; apply lookup_insert_eq | exact Hord | now rewrite Hl1].
    cbv zeta. rewrite final_grid_cons. simpl.
    assert (Hev : map (mesh_event output_path order l P (sample_mesh P g i)) idxs
                  = map (mesh_event output_path order l P g) idxs).
    { apply map_ext. intros j. unfold mesh_event.
      now rewrite (sample_mesh_rebase P g (sample_mesh P g i) j). }
    rewrite Hev. unfold set_written, set_heap. simpl.
    now rewrite insert_insert_eq, <- app_assoc.
Qed.

Lemma broadcast_rows_wf (op : R -> R -> R) (m m' : matrix) (v : vector) :
  broadcast_rows op m v = Ok m' -> matrix_wf m'.
Proof.
  unfold broadcast_rows. destruct (broadcast_dim _ _) as [k |]; [| discriminate].
  intros H. inversion H; subst. unfold matrix_wf. simpl.
  apply List.Forall_forall. intros r Hr. apply in_map_iff in Hr.
  destruct Hr as [r0 [<- _]]. apply length_tabulate.
Qed.

Lemma reconstruct_wf (s c p : matrix) (m : vector) :
  reconstruct s c m = Ok p -> matrix_wf p.
Proof.
  unfold reconstruct. destruct (matmul s c); simpl; [| discriminate].
  apply broadcast_rows_wf.
Qed.

(** A run on arguments that pass the checks, a model whose shapes agree
    with each other and with the template ([num_components] at most the
    number C of components, [mean] of length D, D three times the number of
    template vertices) and a [math.log] that yields a finite value: it
    returns [None], having written, from the one template object, one file
    per sample in index order. *)
Theorem generate_success (input_path output_path : string)
    (num_samples num_components : Z) (boundary : R) (w : world)
    (f : pca_model) (order : Z) :
  let l := fresh (dom (heap w)) in
  let template := default empty_grid (vtk_files w !! input_path) in
  input_path ∈ fs w ->
  mkdir_passes output_path w ->
  0 < num_samples ->
  0 < num_components < 95 ->
  (boundary = -1 \/ 0 < boundary <= 5)%R ->
  h5_files w !! input_path = Some f ->
  (Z.to_nat num_components <= nrows (components f))%nat ->
  (Z.to_nat num_components <= length (explained_variance f))%nat ->
  length (mean f) = ncols (components f) ->
  ncols (components f) = (3 * length (points template))%nat ->
  order_of (c_log w) num_samples = Ok order ->
  exists samples pointclouds rng',
    reconstruct samples
      (matrix_take (Z.to_nat num_components) (components f)) (mean f)
    = Ok pointclouds
    /\ mshape pointclouds = (Z.to_nat num_samples, ncols (components f))
    /\ generate_synthetic_mesh input_path output_path num_samples
         num_components boundary w
       = (Ok PyNone,
          let events := map (mesh_event output_path order l pointclouds template)
                            (seq 0 (Z.to_nat num_samples)) in
          set_written (written w ++ events)
            (set_heap (<[l := final_grid template events]> (heap w))
               (set_rng rng' (after_mkdir output_path w)))).
Proof.
  intros l template Hin Hpass Hn Hk Hb Hf HkC Hkev Hmean HD Hord.
  rewrite generate_passes by assumption.
  destruct (after_mkdir_frame output_path w) as [Hh [Hwr [Hlog [Hvtk Hh5]]]].
  set (w1 := after_mkdir output_path w) in *.
  unfold synthesize, bind, load_h5py, load_mean_vtk, lift, ret.
  rewrite Hh5, Hf, Hh, Hvtk. fold l template.
  set (w2 := set_heap (<[l := template]> (heap w)) w1).
  set (K := Z.to_nat num_components) in *.
  destruct (sample_entries num_samples num_components
              (take K (explained_variance f)) boundary w2)
    as [S [Es [Hs _]]]; [lia | lia | rewrite length_take; lia |].
  rewrite Es. destruct (mshape_inv _ _ _ Hs) as [HrS HcS].
  destruct (reconstruct_entries S (matrix_take K (components f)) (mean f))
    as [P [EP [HsP _]]]; [exact Hmean | |].
  { unfold matrix_take, nrows. simpl. rewrite length_take. fold K.
    unfold nrows in HkC. lia. }
  rewrite EP. simpl in HsP. rewrite HrS in HsP.
  destruct (mshape_inv _ _ _ HsP) as [HrP HcP].
  exists S, P. eexists. split; [exact EP |]. split; [exact HsP |].
  rewrite (write_loop_ok output_path num_samples P l order _
             (reconstruct_wf _ _ _ _ EP)) with (g := template).
  - cbv zeta. unfold set_written, set_heap, set_rng, w2. simpl.
    rewrite insert_insert_eq, Hwr. reflexivity.
  - intros i Hi. apply in_seq in Hi. lia.
  - simpl. apply lookup_insert_eq.
  - simpl. now rewrite Hlog.
  - now rewrite HcP.
Qed.

(** The worked example runs to its end: one sample, two components. *)
Lemma demo_run_succeeds :
  exists w' e,
    generate_synthetic_mesh "in" "out" 1 2 (-1) demo_world = (Ok PyNone, w')
    /\ written w' = [e]
    /\ w_name e = "synthetic0.vtk"%string
    /\ w_dir e = "out"%string
    /\ cells (w_grid e) = cells two_vertex_grid
    /\ heap w' !! w_obj e = Some (w_grid e)
    /\ "out"%string ∈ fs w'.
Proof.
  destruct (generate_success "in" "out" 1 2 (-1) demo_world demo_model 1)
    as [S [P [rng' [_ [_ Hrun]]]]].
  - simpl. apply elem_of_singleton. reflexivity.
  - right. reflexivity.
  - lia.
  - lia.
  - left. reflexivity.
  - reflexivity.
  - vm_compute. lia.
  - vm_compute. lia.
  - reflexivity.
  - reflexivity.
  - vm_compute. reflexivity.
  - eexists. eexists. split; [exact Hrun |]. cbv zeta. simpl.
    split; [reflexivity |]. split; [reflexivity |]. split; [reflexivity |].
    split; [reflexivity |]. split; [apply lookup_insert_eq |].
    apply elem_of_union_l, elem_of_singleton. reflexivity.
Qed.

Lemma generate_returns_flag_witness :
  exists w',
    generate_synthetic_mesh "in" "out" 1 2 (-1) demo_world = (Ok PyNone, w')
    /\ "in"%string ∈ fs demo_world
    /\ PyNone <> PyBool false.
Proof.
  destruct demo_run_succeeds as [w' [e [Hrun _]]].
  destruct (generate_returns_flag "in" "out" 1 2 (-1) demo_world)
    as [_ [_ [Hret Hne]]].
  exists w'. split; [exact Hrun |].
  destruct (Hret PyNone w' Hrun) as [[Hv _] | [_ [Hin _]]];
    [discriminate | split; assumption].
Defined.


(** ** The orchestration: file names *)

Example order_of_one : order_of table_log 1 = Ok 1.
Proof. vm_compute. reflexivity. Qed.

Example order_of_ten : order_of table_log 10 = Ok 2.
Proof. vm_compute. reflexivity. Qed.

Example file_names_of_ten :
  map (fun i => file_name i 2) (seq 0 10)
  = ["synthetic00.vtk"; "synthetic01.vtk"; "synthetic02.vtk"; "synthetic03.vtk";
     "synthetic04.vtk"; "synthetic05.vtk"; "synthetic06.vtk"; "synthetic07.vtk";
     "synthetic08.vtk"; "synthetic09.vtk"]%string.
Proof. vm_compute. reflexivity. Qed.

(** With the C library's values of [log] at 1000.0 and 10.0, the quotient
    [math.log(1000, 10)] is the double just below 3. *)
Lemma order_of_thousand (c_log : PrimFloat.float -> PrimFloat.float) :
  c_log (float_of_Z 1000) = ln_1000 ->
  c_log (float_of_Z 10) = ln_10 ->
  order_of c_log 1000 = Ok 3.
Proof.
  intros H1000 H10. unfold order_of, math_log.
  change ((1000 <=? 0) || (10 <=? 0)) with false. cbv iota.
  rewrite H1000, H10. vm_compute. reflexivity.
Qed.

(** C8 at [num_samples = 1000]. On a world where the run fits and the C
    library's [log] has its usual values at 1000.0 and 10.0, the run
    completes and writes 1000 files whose index is padded to three digits,
    the first being [synthetic000.vtk], although 1000 has four digits
    ([10^3 <= 1000 < 10^4], so [floor(log10(1000)) + 1 = 4]). *)
Theorem thousand_samples_three_digits (input_path output_path : string)
    (num_components : Z) (boundary : R) (w : world) (f : pca_model) :
  c_log w (float_of_Z 1000) = ln_1000 ->
  c_log w (float_of_Z 10) = ln_10 ->
  input_path ∈ fs w ->
  mkdir_passes output_path w ->
  0 < num_components < 95 ->
  (boundary = -1 \/ 0 < boundary <= 5)%R ->
  h5_files w !! input_path = Some f ->
  (Z.to_nat num_components <= nrows (components f))%nat ->
  (Z.to_nat num_components <= length (explained_variance f))%nat ->
  length (mean f) = ncols (components f) ->
  ncols (components f)
  = (3 * length (points (default empty_grid (vtk_files w !! input_path))))%nat ->
  exists w' events,
    generate_synthetic_mesh input_path output_path 1000 num_components
      boundary w = (Ok PyNone, w')
    /\ written w' = written w ++ events
    /\ length events = 1000%nat
    /\ (forall i e, events !! i = Some e -> w_name e = file_name i 3)
    /\ file_name 0 3 = "synthetic000.vtk"%string
    /\ file_name 999 3 = "synthetic999.vtk"%string
    /\ 10 ^ 3 <= 1000 < 10 ^ 4.
Proof.
  intros H1000 H10 Hin Hpass Hk Hb Hf HkC Hkev Hmean HD.
  destruct (generate_success input_path output_path 1000 num_components
              boundary w f 3) as [S [P [rng' [_ [_ Hrun]]]]]; auto; try lia.
  { now apply order_of_thousand. }
  eexists. eexists. split; [exact Hrun |]. cbv zeta.
  split; [reflexivity |]. split; [now rewrite length_map, length_seq |].
  split; [| split; [vm_compute; reflexivity |
                    split; [vm_compute; reflexivity | lia]]].
  intros i e He. apply list_lookup_fmap_Some in He.
  destruct He as [j [-> Hj]]. apply lookup_seq in Hj. destruct Hj as [-> _].
  reflexivity.
Qed.

Lemma thousand_samples_three_digits_witness :
  exists w' events,
    generate_synthetic_mesh "in" "out" 1000 2 (-1) demo_world = (Ok PyNone, w')
    /\ written w' = written demo_world ++ events
    /\ length events = 1000%nat
    /\ (forall i e, events !! i = Some e -> w_name e = file_name i 3)
    /\ file_name 0 3 = "synthetic000.vtk"%string
    /\ file_name 999 3 = "synthetic999.vtk"%string
    /\ 10 ^ 3 <= 1000 < 10 ^ 4.
Proof.
  apply (thousand_samples_three_digits "in" "out" 2 (-1) demo_world demo_model).
  - vm_compute. reflexivity.
  - vm_compute. reflexivity.
  - simpl. apply elem_of_singleton. reflexivity.
  - right. reflexivity.
  - lia.
  - left. reflexivity.
  - reflexivity.
  - vm_compute. lia.
  - vm_compute. lia.
  - reflexivity.
  - reflexivity.
Defined.

(** * Further properties *)

(** ** The sampler: counts, draws, saturation, broadcasting *)

Lemma sample_unfold (num_samples num_components : Z) (ev : vector) (b : R)
    (w : world) :
  0 <= num_samples -> 0 <= num_components ->
  exists m0,
    mshape m0 = (Z.to_nat num_samples, Z.to_nat num_components)
    /\ matrix_wf m0
    /\ (forall i j, (i < Z.to_nat num_samples)%nat ->
                    (j < Z.to_nat num_components)%nat ->
          entry m0 i j = saturate b (draw w (Z.to_nat num_components) i j))
    /\ sample num_samples num_components ev b w
       = (broadcast_rows Rmult m0 (np_sqrt ev),
          set_rng (fun t => rng w (Z.to_nat num_samples
                                   * Z.to_nat num_components + t)%nat) w).
Proof.
  intros Hn Hk.
  destruct (np_random_normal_ok num_samples num_components w Hn Hk)
    as [m0 [E0 [Hs0 [Hwf0 He0]]]].
  destruct (mshape_inv _ _ _ Hs0) as [Hr0 Hc0].
  exists (if bool_decide (b ≠ (-1)%R) then np_clip m0 (- b) b else m0).
  split; [| split; [| split]].
  - case_bool_decide; [| exact Hs0]. now rewrite (proj1 (np_clip_shape _ _ _)).
  - case_bool_decide; [now apply np_clip_shape | exact Hwf0].
  - intros i j Hi Hj. unfold saturate. case_bool_decide.
    + rewrite entry_np_clip by (auto; lia). now rewrite He0.
    + now apply He0.
  - unfold sample, bind. rewrite E0. unfold lift, ret.
    now destruct (broadcast_rows _ _ _).
Qed.

(** X1. A negative count makes [sample] raise [ValueError] before any draw
    is taken; a count of zero samples yields the empty matrix of
    [num_components] columns, again without taking a draw. *)
Theorem sample_degenerate_counts (num_samples num_components : Z) (ev : vector)
    (b : R) (w : world) :
  (num_samples < 0 \/ num_components < 0 ->
     sample num_samples num_components ev b w = (Raise ValueError, w))
  /\ (num_samples = 0 -> 0 <= num_components ->
      length ev = Z.to_nat num_components ->
        exists w',
          sample num_samples num_components ev b w
          = (Ok (Matrix (Z.to_nat num_components) []), w')
          /\ forall t, rng w' t = rng w t).
Proof.
  split.
  - intros Hneg. unfold sample, bind, np_random_normal.
    assert (Ht : (num_samples <? 0) || (num_components <? 0) = true).
    { apply orb_true_iff. destruct Hneg; [left | right]; now apply Z.ltb_lt. }
    now rewrite Ht.
  - intros -> Hk Hlen. unfold sample, bind, np_random_normal.
    destruct (Z.ltb_spec num_components 0); [lia |]. simpl.
    assert (Hb : forall m, ncols m = Z.to_nat num_components -> rows m = [] ->
              broadcast_rows Rmult m (np_sqrt ev)
              = Ok (Matrix (Z.to_nat num_components) [])).
    { intros m Hc Hr. unfold broadcast_rows, np_sqrt.
      rewrite length_map, Hlen, Hc, broadcast_dim_same, Hr. reflexivity. }
    unfold lift, ret.
    case_bool_decide; rewrite Hb by reflexivity; eexists;
      (split; [reflexivity | intros t; reflexivity]).
Qed.

Lemma sample_degenerate_counts_witness :
  sample (-1) 2 [4; 1]%R 3%R quiet_world = (Raise ValueError, quiet_world)
  /\ exists w', sample 0 2 [4; 1]%R 3%R quiet_world = (Ok (Matrix 2 []), w')
                /\ forall t, rng w' t = rng quiet_world t.
Proof.
  destruct (sample_degenerate_counts (-1) 2 [4; 1]%R 3%R quiet_world)
    as [Hneg _].
  destruct (sample_degenerate_counts 0 2 [4; 1]%R 3%R quiet_world)
    as [_ Hzero].
  split; [apply Hneg; left; lia | apply Hzero; [reflexivity | lia | reflexivity]].
Defined.

(** X2. [sample] takes its draws from the global generator in sequence:
    on non-negative variances, a call for [n1 x k1] values leaves the
    generator [n1 * k1] draws further, and the call after it is built from
    the draws that follow. *)
Theorem sample_draws_in_sequence (n1 k1 n2 k2 : Z) (ev1 ev2 : vector)
    (b1 b2 : R) (w : world) :
  0 <= n1 -> 0 <= k1 -> length ev1 = Z.to_nat k1 ->
  Forall (fun v => 0 <= v)%R ev1 ->
  0 <= n2 -> 0 <= k2 -> length ev2 = Z.to_nat k2 ->
  Forall (fun v => 0 <= v)%R ev2 ->
  exists m1 w1 m2 w2,
    sample n1 k1 ev1 b1 w = (Ok m1, w1)
    /\ sample n2 k2 ev2 b2 w1 = (Ok m2, w2)
    /\ (forall i j, (i < Z.to_nat n1)%nat -> (j < Z.to_nat k1)%nat ->
          entry m1 i j
          = (saturate b1 (rng w (i * Z.to_nat k1 + j)%nat)
             * sqrt (nth j ev1 0))%R)
    /\ (forall i j, (i < Z.to_nat n2)%nat -> (j < Z.to_nat k2)%nat ->
          entry m2 i j
          = (saturate b2 (rng w (Z.to_nat n1 * Z.to_nat k1
                                 + (i * Z.to_nat k2 + j))%nat)
             * sqrt (nth j ev2 0))%R)
    /\ (forall t, rng w2 t
                  = rng w (Z.to_nat n1 * Z.to_nat k1
                           + (Z.to_nat n2 * Z.to_nat k2 + t))%nat).
Proof.
  intros Hn1 Hk1 Hl1 _ Hn2 Hk2 Hl2 _.
  destruct (sample_entries n1 k1 ev1 b1 w Hn1 Hk1 Hl1) as [m1 [E1 [_ [_ He1]]]].
  set (w1 := set_rng (fun t => rng w (Z.to_nat n1 * Z.to_nat k1 + t)%nat) w)
    in *.
  destruct (sample_entries n2 k2 ev2 b2 w1 Hn2 Hk2 Hl2) as [m2 [E2 [_ [_ He2]]]].
  exists m1, w1, m2. eexists.
  split; [exact E1 |]. split; [exact E2 |]. split; [exact He1 |].
  split; [exact He2 | intros t; reflexivity].
Qed.

Lemma sample_draws_in_sequence_witness :
  exists m1 w1 m2 w2,
    sample 2 2 [4; 1]%R 3%R ramp_world = (Ok m1, w1)
    /\ sample 1 1 [9]%R (-1)%R w1 = (Ok m2, w2)
    /\ (forall i j, (i < 2)%nat -> (j < 2)%nat ->
          entry m1 i j
          = (saturate 3 (rng ramp_world (i * 2 + j)%nat)
             * sqrt (nth j [4; 1] 0))%R)
    /\ (forall i j, (i < 1)%nat -> (j < 1)%nat ->
          entry m2 i j
          = (saturate (-1) (rng ramp_world (2 * 2 + (i * 1 + j))%nat)
             * sqrt (nth j [9] 0))%R)
    /\ (forall t, rng w2 t = rng ramp_world (2 * 2 + (1 * 1 + t))%nat).
Proof.
  apply (sample_draws_in_sequence 2 2 1 1 [4; 1]%R [9]%R 3%R (-1)%R ramp_world).
  - lia.
  - lia.
  - reflexivity.
  - repeat constructor; lra.
  - lia.
  - lia.
  - reflexivity.
  - repeat constructor; lra.
Defined.

Lemma clip_cases (x b : R) :
  (0 <= b)%R ->
  ((b < x)%R -> clip x (- b) b = b)
  /\ ((x < - b)%R -> clip x (- b) b = (- b)%R)
  /\ ((- b <= x <= b)%R -> clip x (- b) b = x).
Proof.
  intros Hb. unfold clip, Rmin, Rmax.
  repeat split; intros Hx;
    destruct (Rle_dec x (- b)); destruct (Rle_dec _ b); lra.
Qed.

(** X3. Clipping saturates, it does not redraw: with a boundary [b > 0] and
    non-negative variances, an entry whose draw lies beyond [b] is exactly
    [b * sqrt(var_j)], one whose draw lies below [-b] is exactly
    [-b * sqrt(var_j)], and one whose draw lies within [-b, b] is the draw
    times [sqrt(var_j)], as it would be without a boundary. *)
Theorem sample_saturates (num_samples num_components : Z) (ev : vector)
    (b : R) (w : world) :
  0 <= num_samples -> 0 <= num_components ->
  length ev = Z.to_nat num_components ->
  Forall (fun v => 0 <= v)%R ev ->
  (0 < b)%R ->
  exists m w',
    sample num_samples num_components ev b w = (Ok m, w')
    /\ forall i j, (i < Z.to_nat num_samples)%nat ->
                   (j < Z.to_nat num_components)%nat ->
         let x := draw w (Z.to_nat num_components) i j in
         ((b < x)%R -> entry m i j = (b * sqrt (nth j ev 0))%R)
         /\ ((x < - b)%R -> entry m i j = (- b * sqrt (nth j ev 0))%R)
         /\ ((- b <= x <= b)%R ->
               entry m i j = (x * sqrt (nth j ev 0))%R
               /\ entry m i j
                  = (saturate (-1) x * sqrt (nth j ev 0))%R).
Proof.
  intros Hn Hk Hlen _ Hb.
  destruct (sample_entries num_samples num_components ev b w Hn Hk Hlen)
    as [m [E [_ [_ He]]]].
  exists m. eexists. split; [exact E |]. intros i j Hi Hj x.
  rewrite (He i j Hi Hj). fold x. unfold saturate.
  rewrite bool_decide_eq_true_2 by lra.
  rewrite (bool_decide_eq_false_2 ((-1)%R ≠ (-1)%R)) by (intros H; now apply H).
  destruct (clip_cases x b) as [Hhi [Hlo Hmid]]; [lra |].
  split; [| split].
  - intros Hx. now rewrite Hhi.
  - intros Hx. now rewrite Hlo.
  - intros Hx. now rewrite Hmid.
Qed.

Lemma sample_saturates_witness :
  exists m w',
    sample 2 2 [4; 1]%R 3%R ramp_world = (Ok m, w')
    /\ draw ramp_world 2 0 0 = (-6)%R /\ entry m 0 0 = (- 3 * sqrt 4)%R
    /\ draw ramp_world 2 0 1 = (-2)%R /\ entry m 0 1 = (- 2 * sqrt 1)%R
    /\ draw ramp_world 2 1 0 = 2%R /\ entry m 1 0 = (2 * sqrt 4)%R
    /\ draw ramp_world 2 1 1 = 6%R /\ entry m 1 1 = (3 * sqrt 1)%R.
Proof.
  destruct (sample_saturates 2 2 [4; 1]%R 3%R ramp_world)
    as [m [w' [E He]]].
  - lia.
  - lia.
  - reflexivity.
  - repeat constructor; lra.
  - lra.
  - assert (H00 : draw ramp_world 2 0 0 = (-6)%R)
      by (unfold draw, ramp_world; simpl; lra).
    assert (H01 : draw ramp_world 2 0 1 = (-2)%R)
      by (unfold draw, ramp_world; simpl; lra).
    assert (H10 : draw ramp_world 2 1 0 = 2%R)
      by (unfold draw, ramp_world; simpl; lra).
    assert (H11 : draw ramp_world 2 1 1 = 6%R)
      by (unfold draw, ramp_world; simpl; lra).
    exists m, w'. split; [exact E |].
    split; [exact H00 |]. split.
    { destruct (He 0%nat 0%nat) as [_ [Hlo _]]; [lia | lia |].
      apply Hlo. change (draw ramp_world 2 0 0 < - 3)%R. rewrite H00. lra. }
    split; [exact H01 |]. split.
    { destruct (He 0%nat 1%nat) as [_ [_ Hmid]]; [lia | lia |].
      destruct Hmid as [Hin _].
      - change (- 3 <= draw ramp_world 2 0 1 <= 3)%R. rewrite H01. lra.
      - etransitivity; [exact Hin |].
        change (draw ramp_world 2 0 1 * sqrt 1 = - 2 * sqrt 1)%R.
        now rewrite H01. }
    split; [exact H10 |]. split.
    { destruct (He 1%nat 0%nat) as [_ [_ Hmid]]; [lia | lia |].
      destruct Hmid as [Hin _].
      - change (- 3 <= draw ramp_world 2 1 0 <= 3)%R. rewrite H10. lra.
      - etransitivity; [exact Hin |].
        change (draw ramp_world 2 1 0 * sqrt 4 = 2 * sqrt 4)%R.
        now rewrite H10. }
    split; [exact H11 |].
    destruct (He 1%nat 1%nat) as [Hhi _]; [lia | lia |].
    apply Hhi. change (3 < draw ramp_world 2 1 1)%R. rewrite H11. lra.
Defined.

(** X4. [sample] does not check its boundary. On non-negative variances, a
    boundary [b <= 0] other than the sentinel -1 turns the clip interval
    inside out, and every entry of column [j] is [b * sqrt(var_j)],
    whatever was drawn. *)
Theorem sample_inverted_boundary (num_samples num_components : Z) (ev : vector)
    (b : R) (w : world) :
  0 <= num_samples -> 0 <= num_components ->
  length ev = Z.to_nat num_components ->
  Forall (fun v => 0 <= v)%R ev ->
  (b <= 0)%R -> b <> (-1)%R ->
  exists m w',
    sample num_samples num_components ev b w = (Ok m, w')
    /\ forall i j, (i < Z.to_nat num_samples)%nat ->
                   (j < Z.to_nat num_components)%nat ->
         entry m i j = (b * sqrt (nth j ev 0))%R.
Proof.
  intros Hn Hk Hlen _ Hb Hne.
  destruct (sample_entries num_samples num_components ev b w Hn Hk Hlen)
    as [m [E [_ [_ He]]]].
  exists m. eexists. split; [exact E |]. intros i j Hi Hj.
  rewrite (He i j Hi Hj). unfold saturate.
  rewrite bool_decide_eq_true_2 by exact Hne. f_equal.
  unfold clip, Rmin, Rmax.
  destruct (Rle_dec _ (- b)); destruct (Rle_dec _ b); lra.
Qed.

Lemma sample_inverted_boundary_witness :
  exists m w',
    sample 2 2 [4; 1]%R (-2)%R ramp_world = (Ok m, w')
    /\ forall i j, (i < 2)%nat -> (j < 2)%nat ->
         entry m i j = (-2 * sqrt (nth j [4; 1] 0))%R.
Proof.
  apply (sample_inverted_boundary 2 2 [4; 1]%R (-2)%R ramp_world);
    [lia | lia | reflexivity | repeat constructor; lra | lra | lra].
Defined.

(** X5. A variance vector whose length is neither the number of components
    nor 1 (with more than one component) cannot be broadcast: [sample]
    raises [ValueError], but only after it has taken its
    [num_samples * num_components] draws from the generator. *)
Theorem sample_variance_mismatch (num_samples num_components : Z) (ev : vector)
    (b : R) (w : world) :
  0 <= num_samples -> 0 <= num_components ->
  length ev <> Z.to_nat num_components ->
  length ev <> 1%nat ->
  num_components <> 1 ->
  sample num_samples num_components ev b w
  = (Raise ValueError,
     set_rng (fun t => rng w (Z.to_nat num_samples
                              * Z.to_nat num_components + t)%nat) w).
Proof.
  intros Hn Hk Hlen Hl1 Hk1.
  destruct (sample_unfold num_samples num_components ev b w Hn Hk)
    as [m0 [Hs0 [_ [_ E]]]].
  destruct (mshape_inv _ _ _ Hs0) as [_ Hc0].
  rewrite E. f_equal. unfold broadcast_rows, np_sqrt.
  rewrite length_map, Hc0. unfold broadcast_dim.
  destruct (Nat.eqb_spec (Z.to_nat num_components) (length ev)); [congruence |].
  destruct (Nat.eqb_spec (Z.to_nat num_components) 1); [lia |].
  destruct (Nat.eqb_spec (length ev) 1); [contradiction | reflexivity].
Qed.

Lemma sample_variance_mismatch_witness :
  sample 1 2 [1; 1; 1]%R 3%R quiet_world
  = (Raise ValueError,
     set_rng (fun t => rng quiet_world (1 * 2 + t)%nat) quiet_world).
Proof.
  apply (sample_variance_mismatch 1 2 [1; 1; 1]%R 3%R quiet_world);
    [lia | lia | simpl; lia | simpl; lia | lia].
Defined.

Lemma broadcast_rows_scalar (op : R -> R -> R) (m : matrix) (v : R) :
  exists m', broadcast_rows op m [v] = Ok m'
    /\ mshape m' = mshape m
    /\ forall i j, (i < nrows m)%nat -> (j < ncols m)%nat ->
         entry m' i j = op (entry m i j) v.
Proof.
  unfold broadcast_rows. simpl.
  assert (Hd : broadcast_dim (ncols m) 1 = Some (ncols m)).
  { unfold broadcast_dim. destruct (Nat.eqb_spec (ncols m) 1) as [-> | Hne];
      [reflexivity |]. reflexivity. }
  rewrite Hd. eexists. split; [reflexivity |]. split.
  - unfold mshape, nrows. simpl. now rewrite length_map.
  - intros i j Hi Hj. unfold entry, nrows in *. simpl.
    rewrite (nth_map_lt _ _ _ _ []), nth_tabulate by lia.
    now rewrite bidx_lt by lia.
Qed.

(** X6. A variance vector of length 1 is broadcast over the components:
    for a variance [v >= 0], [sample] succeeds for any number of components
    and scales every column by the one [sqrt(v)]. *)
Theorem sample_single_variance (num_samples num_components : Z) (v b : R)
    (w : world) :
  0 <= num_samples -> 0 <= num_components ->
  (0 <= v)%R ->
  exists m w',
    sample num_samples num_components [v] b w = (Ok m, w')
    /\ mshape m = (Z.to_nat num_samples, Z.to_nat num_components)
    /\ forall i j, (i < Z.to_nat num_samples)%nat ->
                   (j < Z.to_nat num_components)%nat ->
         entry m i j
         = (saturate b (draw w (Z.to_nat num_components) i j) * sqrt v)%R.
Proof.
  intros Hn Hk _.
  destruct (sample_unfold num_samples num_components [v] b w Hn Hk)
    as [m0 [Hs0 [_ [He0 E]]]].
  destruct (mshape_inv _ _ _ Hs0) as [Hr0 Hc0].
  destruct (broadcast_rows_scalar Rmult m0 (sqrt v)) as [m [Em [Hs He]]].
  simpl in E. rewrite Em in E.
  exists m. eexists. split; [exact E |]. split; [now rewrite Hs |].
  intros i j Hi Hj. rewrite He by lia. now rewrite He0.
Qed.

Lemma sample_single_variance_witness :
  exists m w',
    sample 2 3 [4]%R 3%R ramp_world = (Ok m, w')
    /\ mshape m = (2%nat, 3%nat)
    /\ forall i j, (i < 2)%nat -> (j < 3)%nat ->
         entry m i j = (saturate 3 (draw ramp_world 3 i j) * sqrt 4)%R.
Proof.
  apply (sample_single_variance 2 3 4%R 3%R ramp_world); [lia | lia | lra].
Defined.

(** ** The mesh builder: what it keeps, and how calls compose *)

Lemma overwrite_keeps (f : nat -> point) (idxs : list nat)
    (g : vtkUnstructuredGrid) :
  cells (overwrite f idxs g) = cells g
  /\ length (points (overwrite f idxs g)) = length (points g).
Proof.
  split; [reflexivity |]. unfold overwrite. cbn [points].
  generalize (points g) as pts.
  induction idxs as [| i idxs IH]; intros pts; [reflexivity |].
  simpl. rewrite IH. apply length_insert.
Qed.

(** However the loop ends, it has only overwritten vertices of the one
    grid. *)
Lemma loop_any (pc : ndarray) (l : loc) (idxs : list nat) :
  forall (w w' : world) (g : vtkUnstructuredGrid) (r : result unit),
    heap w !! l = Some g ->
    for_each idxs (set_point_from pc l) w = (r, w') ->
    exists g',
      w' = set_heap (<[l := g']> (heap w)) w
      /\ cells g' = cells g
      /\ length (points g') = length (points g)
      /\ point_type g' = point_type g.
Proof.
  induction idxs as [| i idxs IH]; intros w w' g r Hg Hrun.
  - simpl in Hrun. unfold ret in Hrun. inversion Hrun; subst.
    exists g. rewrite insert_id by exact Hg. now rewrite set_heap_id.
  - simpl in Hrun. unfold bind in Hrun. rewrite set_point_from_eq in Hrun.
    destruct (row_point pc i) as [[[x y] z] | e].
    + unfold SetPoint in Hrun. rewrite Hg in Hrun. cbv zeta in Hrun.
      apply (IH _ _ (Grid (point_type g)
                          (<[i := store_point (point_type g) (x, y, z)]>
                             (points g))
                          (cells g))) in Hrun;
        [| simpl; apply lookup_insert_eq].
      destruct Hrun as [g' [Hw [Hc [Hl Ht]]]]. exists g'.
      split; [| split; [| split]].
      * rewrite Hw. simpl. now rewrite insert_insert_eq.
      * exact Hc.
      * rewrite Hl. cbn [points]. apply length_insert.
      * exact Ht.
    + inversion Hrun; subst. exists g.
      rewrite insert_id by exact Hg. now rewrite set_heap_id.
Qed.

(** However [pointcloud2surface] ends, it has changed at most the vertices
    of the grid it was given. *)
Lemma pointcloud2surface_frame (pc : ndarray) (l : loc)
    (w w' : world) (g : vtkUnstructuredGrid) (r : result loc) :
  heap w !! l = Some g ->
  pointcloud2surface pc l w = (r, w') ->
  exists g',
    w' = set_heap (<[l := g']> (heap w)) w
    /\ cells g' = cells g
    /\ length (points g') = length (points g)
    /\ point_type g' = point_type g.
Proof.
  intros Hg Hrun. rewrite pointcloud2surface_unfold, Hg in Hrun.
  assert (Hsame : exists g', w = set_heap (<[l := g']> (heap w)) w
                    /\ cells g' = cells g
                    /\ length (points g') = length (points g)
                    /\ point_type g' = point_type g).
  { exists g. rewrite insert_id by exact Hg. now rewrite set_heap_id. }
  destruct (as_rows pc) as [pc' | e]; [| inversion Hrun; subst; exact Hsame].
  destruct (for_each _ _ w) as [r0 w1] eqn:Hloop.
  destruct (loop_any _ _ _ _ _ _ _ Hg Hloop) as [g' Hg'].
  exists g'. destruct r0; inversion Hrun; subst; exact Hg'.
Qed.

(** X7. Whether [pointcloud2surface] returns or raises, the world after the
    call is the world before it with at most the vertices of the given grid
    changed: that grid keeps its cells and its number of vertices, and no
    other object, file, message or draw is touched. *)
Theorem pointcloud2surface_keeps_topology (pc : ndarray) (l : loc)
    (w w' : world) (g : vtkUnstructuredGrid) (r : result loc) :
  heap w !! l = Some g ->
  pointcloud2surface pc l w = (r, w') ->
  exists g',
    w' = set_heap (<[l := g']> (heap w)) w
    /\ cells g' = cells g
    /\ length (points g') = length (points g)
    /\ (forall l2, l2 <> l -> heap w' !! l2 = heap w !! l2).
Proof.
  intros Hg Hrun.
  destruct (pointcloud2surface_frame _ _ _ _ _ _ Hg Hrun)
    as [g' [Hw [Hc [Hl _]]]].
  exists g'. repeat (split; [assumption |]).
  intros l2 Hne. rewrite Hw. simpl. now apply lookup_insert_ne.
Qed.

Lemma pointcloud2surface_keeps_topology_witness :
  exists g',
    snd (pointcloud2surface (NdArray [4%nat] [1; 2; 3; 4]%R) 0%nat
           (world_with_grid one_vertex_grid))
    = set_heap (<[0%nat := g']> (heap (world_with_grid one_vertex_grid)))
        (world_with_grid one_vertex_grid)
    /\ cells g' = cells one_vertex_grid
    /\ length (points g') = length (points one_vertex_grid)
    /\ (forall l2, l2 <> 0%nat ->
          heap (snd (pointcloud2surface (NdArray [4%nat] [1; 2; 3; 4]%R) 0%nat
                       (world_with_grid one_vertex_grid))) !! l2
          = heap (world_with_grid one_vertex_grid) !! l2).
Proof.
  apply (pointcloud2surface_keeps_topology (NdArray [4%nat] [1; 2; 3; 4]%R)
           0%nat (world_with_grid one_vertex_grid) _ one_vertex_grid
           (fst (pointcloud2surface (NdArray [4%nat] [1; 2; 3; 4]%R) 0%nat
                   (world_with_grid one_vertex_grid)))).
  - reflexivity.
  - apply surjective_pairing.
Defined.

(** X8. The last call wins: after any call that returned, a further call on
    the same grid with a pointcloud of enough rows leaves the world exactly
    as that further call alone would have. No coordinate of an earlier
    pointcloud survives in the grid. *)
Theorem pointcloud2surface_last_wins (pc1 pc2 : ndarray) (l l1 : loc)
    (w w1 : world) (g : vtkUnstructuredGrid) (r c : nat) (d : list R) :
  heap w !! l = Some g ->
  as_rows pc2 = Ok (NdArray [r; c] d) ->
  length d = (r * c)%nat -> (3 <= c)%nat ->
  (length (points g) <= r)%nat ->
  pointcloud2surface pc1 l w = (Ok l1, w1) ->
  pointcloud2surface pc2 l w1 = pointcloud2surface pc2 l w.
Proof.
  intros Hg Hrows Hlen Hc HV Hrun1.
  destruct (pointcloud2surface_frame _ _ _ _ _ _ Hg Hrun1)
    as [g1 [Hw1 [Hc1 [Hl1 Ht1]]]].
  assert (Hg1 : heap w1 !! l = Some g1).
  { rewrite Hw1. simpl. apply lookup_insert_eq. }
  rewrite (pointcloud2surface_ok pc2 l w1 g1 r c d) by (auto; lia).
  rewrite (pointcloud2surface_ok pc2 l w g r c d) by auto.
  unfold with_vertices. rewrite Hc1, Hl1, Ht1, Hw1. simpl. unfold set_heap. simpl.
  now rewrite insert_insert_eq.
Qed.

Lemma pointcloud2surface_last_wins_witness :
  pointcloud2surface (NdArray [3%nat] [7; 8; 9]%R) 0%nat
    (snd (pointcloud2surface (NdArray [3%nat] [1; 2; 3]%R) 0%nat
            (world_with_grid one_vertex_grid)))
  = pointcloud2surface (NdArray [3%nat] [7; 8; 9]%R) 0%nat
      (world_with_grid one_vertex_grid).
Proof.
  apply (pointcloud2surface_last_wins (NdArray [3%nat] [1; 2; 3]%R)
           (NdArray [3%nat] [7; 8; 9]%R) 0%nat 0%nat
           (world_with_grid one_vertex_grid) _ one_vertex_grid
           1 3 [7; 8; 9]%R).
  - reflexivity.
  - reflexivity.
  - reflexivity.
  - lia.
  - simpl. lia.
  - rewrite (pointcloud2surface_ok _ _ _ one_vertex_grid 1 3 [1; 2; 3]%R);
      try reflexivity; simpl; lia.
Defined.

(** X9. A 2-D pointcloud is taken as it is, whatever its width. With three
    or more columns, vertex [i] gets the first three entries of row [i]
    (converted to the scalar type of the point array) and the other columns
    are ignored; with fewer than three columns and a grid that has a
    vertex, the first read raises [IndexError] and the grid is left as it
    was. *)
Theorem pointcloud2surface_row_width (r c : nat) (d : list R) (l : loc)
    (w : world) (g : vtkUnstructuredGrid) :
  heap w !! l = Some g ->
  length d = (r * c)%nat ->
  (length (points g) <= r)%nat ->
  ((3 <= c)%nat ->
     pointcloud2surface (NdArray [r; c] d) l w
     = (Ok l, set_heap (<[l := with_vertices g (vertex_of c d)]> (heap w)) w))
  /\ ((c < 3)%nat -> (0 < length (points g))%nat ->
        pointcloud2surface (NdArray [r; c] d) l w = (Raise IndexError, w)).
Proof.
  intros Hg Hlen HV. split.
  - intros Hc. apply (pointcloud2surface_ok _ l w g r c d); auto.
  - intros Hc Hpos. rewrite pointcloud2surface_unfold. unfold as_rows. simpl.
    rewrite Hg.
    destruct (length (points g)) as [| n] eqn:Hn; [lia |].
    change (seq 0 (S n)) with ([] ++ 0%nat :: seq 1 n).
    rewrite (loop_raise _ l (vertex_of c d) [] _ 0%nat IndexError) with (g := g);
      [| intros j [] | apply row_point_out; [exact Hlen | right; exact Hc]
       | exact Hg].
    rewrite overwrite_nil, insert_id by exact Hg. now rewrite set_heap_id.
Qed.

Lemma pointcloud2surface_row_width_witness :
  ((3 <= 4)%nat ->
     pointcloud2surface (NdArray [1%nat; 4%nat] [1; 2; 3; 4]%R) 0%nat
       (world_with_grid one_vertex_grid)
     = (Ok 0%nat,
        set_heap (<[0%nat := with_vertices one_vertex_grid
                               (vertex_of 4 [1; 2; 3; 4]%R)]>
                    (heap (world_with_grid one_vertex_grid)))
                 (world_with_grid one_vertex_grid)))
  /\ ((4 < 3)%nat -> (0 < length (points one_vertex_grid))%nat ->
        pointcloud2surface (NdArray [1%nat; 4%nat] [1; 2; 3; 4]%R) 0%nat
          (world_with_grid one_vertex_grid)
        = (Raise IndexError, world_with_grid one_vertex_grid)).
Proof.
  apply (pointcloud2surface_row_width 1 4 [1; 2; 3; 4]%R 0%nat
           (world_with_grid one_vertex_grid) one_vertex_grid).
  - reflexivity.
  - reflexivity.
  - simpl. lia.
Defined.

(** ** The orchestration: how a run can end *)

(** X10. A run that returns [False] has printed exactly one message and has
    done nothing else, except that it may have made the output directory:
    no model was loaded, no draw taken, no object created, no file
    written. *)
Theorem generate_false_frame (input_path output_path : string)
    (num_samples num_components : Z) (boundary : R) (w w' : world) :
  generate_synthetic_mesh input_path output_path num_samples num_components
    boundary w = (Ok (PyBool false), w') ->
  exists r,
    ((input_path ∉ fs w) /\ r = PathNotFound input_path /\ w' = reported r w)
    \/ (input_path ∈ fs w
        /\ (w' = reported r w
            \/ w' = reported r (set_fs ({[output_path]} ∪ fs w) w))).
Proof.
  intros Hrun.
  destruct (decide (input_path ∈ fs w)) as [Hin | Hin].
  2: { rewrite generate_no_input in Hrun by exact Hin.
       inversion Hrun; subst. eexists. left. eauto. }
  assert (Hpass : mkdir_passes output_path w).
  { destruct (decide (output_path ∈ fs w)) as [Ho | Ho]; [now left |].
    destruct (mkdir_ok w output_path) eqn:Hok; [now right |].
    rewrite generate_mkdir_refused in Hrun by assumption. discriminate. }
  destruct (decide (num_samples <= 0 \/ num_components <= 0
                    \/ 95 <= num_components
                    \/ ~ (boundary = -1 \/ 0 < boundary <= 5)%R))
    as [Hbad | Hgood].
  - destruct (generate_fails input_path output_path num_samples num_components
                boundary w Hin Hpass Hbad) as [r Hr].
    rewrite Hr in Hrun. inversion Hrun; subst. exists r. right.
    split; [exact Hin |]. unfold after_mkdir. case_bool_decide; auto.
  - assert (Hb : (boundary = -1 \/ 0 < boundary <= 5)%R).
    { destruct (boundary_ok boundary) eqn:Hb; [now apply boundary_ok_spec |].
      apply boundary_ok_false in Hb. tauto. }
    rewrite generate_passes in Hrun by (auto; lia).
    apply synthesize_inv in Hrun. destruct Hrun as [Hv _]. discriminate.
Qed.

Lemma generate_false_frame_witness :
  exists r,
    (("in"%string ∉ fs demo_world) /\ r = PathNotFound "in"
     /\ reported (InvalidSampleCount 0) (after_mkdir "out" demo_world)
        = reported r demo_world)
    \/ ("in"%string ∈ fs demo_world
        /\ (reported (InvalidSampleCount 0) (after_mkdir "out" demo_world)
            = reported r demo_world
            \/ reported (InvalidSampleCount 0) (after_mkdir "out" demo_world)
               = reported r (set_fs ({["out"%string]} ∪ fs demo_world)
                               demo_world))).
Proof.
  apply (generate_false_frame "in" "out" 0 94 (-1) demo_world).
  destruct (generate_fails "in" "out" 0 94 (-1) demo_world) as [r Hr].
  - simpl. apply elem_of_singleton. reflexivity.
  - right. reflexivity.
  - left. lia.
  - rewrite (generate_checks "in" "out" 0 94 (-1) demo_world);
      [reflexivity | simpl; apply elem_of_singleton; reflexivity
       | right; reflexivity].
Defined.

(** X11. When the output directory is missing and [os.mkdir] fails, its
    exception leaves [generate_synthetic_mesh] at once: nothing is printed,
    and arguments that would have failed a check are never looked at. *)
Theorem generate_stops_at_mkdir (input_path output_path : string)
    (num_samples num_components : Z) (boundary : R) (w : world) :
  input_path ∈ fs w ->
  output_path ∉ fs w ->
  mkdir_ok w output_path = false ->
  generate_synthetic_mesh input_path output_path num_samples num_components
    boundary w = (Raise OSError, w)
  /\ generate_synthetic_mesh input_path output_path 0 0 0 w = (Raise OSError, w).
Proof.
  intros Hin Hout Hno. split; now apply generate_mkdir_refused.
Qed.

Lemma generate_stops_at_mkdir_witness :
  generate_synthetic_mesh "in" "out" 10 94 (-1) locked_world
  = (Raise OSError, locked_world)
  /\ generate_synthetic_mesh "in" "out" 0 0 0 locked_world
     = (Raise OSError, locked_world).
Proof.
  apply (generate_stops_at_mkdir "in" "out" 10 94 (-1) locked_world).
  - simpl. apply elem_of_singleton. reflexivity.
  - simpl. rewrite elem_of_singleton. discriminate.
  - reflexivity.
Defined.

(** X12. With arguments that pass the checks but no readable [SSM.h5] in the
    input directory, the run raises the loader's [OSError]; by then the
    output directory has been made, and nothing else has happened. *)
Theorem generate_missing_model (input_path output_path : string)
    (num_samples num_components : Z) (boundary : R) (w : world) :
  input_path ∈ fs w ->
  mkdir_passes output_path w ->
  0 < num_samples -> 0 < num_components < 95 ->
  (boundary = -1 \/ 0 < boundary <= 5)%R ->
  h5_files w !! input_path = None ->
  generate_synthetic_mesh input_path output_path num_samples num_components
    boundary w = (Raise OSError, after_mkdir output_path w).
Proof.
  intros Hin Hpass Hn Hk Hb Hnone.
  rewrite generate_passes by assumption.
  destruct (after_mkdir_frame output_path w) as [_ [_ [_ [_ Hh5]]]].
  unfold synthesize, bind, load_h5py. now rewrite Hh5, Hnone.
Qed.

Lemma generate_missing_model_witness :
  generate_synthetic_mesh "empty" "out" 1 94 (-1)
    (set_fs {["empty"%string]} demo_world)
  = (Raise OSError, after_mkdir "out" (set_fs {["empty"%string]} demo_world)).
Proof.
  apply (generate_missing_model "empty" "out" 1 94 (-1)
           (set_fs {["empty"%string]} demo_world)).
  - simpl. apply elem_of_singleton. reflexivity.
  - right. reflexivity.
  - lia.
  - lia.
  - left. reflexivity.
  - reflexivity.
Defined.

Lemma after_mkdir_rng (output_path : string) (w : world) :
  rng (after_mkdir output_path w) = rng w.
Proof. unfold after_mkdir. now case_bool_decide. Qed.

Lemma matmul_mismatch (a b : matrix) :
  ncols a <> nrows b -> matmul a b = Raise ValueError.
Proof.
  intros H. unfold matmul. destruct (Nat.eqb_spec (ncols a) (nrows b));
    [contradiction | reflexivity].
Qed.

(** X13. Asking for more components than the model has is not caught by the
    checks: with a model of C components, 1 <= C < [num_components] < 95,
    the run creates the template object, takes its draws and then raises
    [ValueError] from the array arithmetic; no file is written. *)
Theorem generate_too_many_components (input_path output_path : string)
    (num_samples num_components : Z) (boundary : R) (w : world)
    (f : pca_model) :
  input_path ∈ fs w ->
  mkdir_passes output_path w ->
  0 < num_samples -> 0 < num_components < 95 ->
  (boundary = -1 \/ 0 < boundary <= 5)%R ->
  h5_files w !! input_path = Some f ->
  length (explained_variance f) = nrows (components f) ->
  (1 <= nrows (components f) < Z.to_nat num_components)%nat ->
  exists w',
    generate_synthetic_mesh input_path output_path num_samples num_components
      boundary w = (Raise ValueError, w')
    /\ written w' = written w
    /\ heap w' = <[fresh (dom (heap w))
                   := default empty_grid (vtk_files w !! input_path)]> (heap w)
    /\ (forall t, rng w' t
                  = rng w (Z.to_nat num_samples * Z.to_nat num_components
                           + t)%nat).
Proof.
  intros Hin Hpass Hn Hk Hb Hf Hev HC.
  rewrite generate_passes by assumption.
  destruct (after_mkdir_frame output_path w) as [Hh [Hwr [_ [Hvtk Hh5]]]].
  set (w1 := after_mkdir output_path w) in *.
  unfold synthesize, bind, load_h5py, load_mean_vtk, lift, ret.
  rewrite Hh5, Hf, Hh, Hvtk.
  set (l := fresh (dom (heap w))).
  set (template := default empty_grid (vtk_files w !! input_path)).
  set (w2 := set_heap (<[l := template]> (heap w)) w1).
  set (K := Z.to_nat num_components) in *.
  set (ev := take K (explained_variance f)).
  assert (Hlen : length ev = nrows (components f)).
  { unfold ev. rewrite length_take. lia. }
  destruct (sample_unfold num_samples num_components ev boundary w2)
    as [m0 [Hs0 [_ [_ E]]]]; [lia | lia |].
  destruct (mshape_inv _ _ _ Hs0) as [Hr0 Hc0]. fold K in Hc0.
  rewrite E.
  destruct (decide (nrows (components f) = 1%nat)) as [H1 | H1].
  - destruct ev as [| v [| ? ?]] eqn:Hevl; simpl in Hlen; try lia.
    destruct (broadcast_rows_scalar Rmult m0 (sqrt v)) as [m [Em [Hs _]]].
    simpl. rewrite Em. rewrite Hs0 in Hs.
    destruct (mshape_inv _ _ _ Hs) as [_ Hcm]. fold K in Hcm.
    unfold reconstruct. rewrite matmul_mismatch.
    + simpl. eexists. split; [reflexivity |]. simpl.
      split; [exact Hwr |]. split; [reflexivity |].
      intros t. unfold w1. now rewrite after_mkdir_rng.
    + unfold matrix_take, nrows. simpl. rewrite length_take.
      unfold nrows in *. lia.
  - assert (Hbr : broadcast_rows Rmult m0 (np_sqrt ev) = Raise ValueError).
    { unfold broadcast_rows, np_sqrt. rewrite length_map, Hc0, Hlen.
      unfold broadcast_dim.
      destruct (Nat.eqb_spec K (nrows (components f))); [lia |].
      destruct (Nat.eqb_spec K 1); [lia |].
      destruct (Nat.eqb_spec (nrows (components f)) 1);
        [contradiction | reflexivity]. }
    rewrite Hbr. eexists. split; [reflexivity |]. simpl.
    split; [exact Hwr |]. split; [reflexivity |].
    intros t. unfold w1. now rewrite after_mkdir_rng.
Qed.

Lemma generate_too_many_components_witness :
  exists w',
    generate_synthetic_mesh "in" "out" 1 94 (-1) demo_world
    = (Raise ValueError, w')
    /\ written w' = written demo_world
    /\ heap w' = <[fresh (dom (heap demo_world))
                   := default empty_grid
                        (vtk_files demo_world !! "in"%string)]>
                   (heap demo_world)
    /\ (forall t, rng w' t = rng demo_world (Z.to_nat 1 * Z.to_nat 94 + t)%nat).
Proof.
  apply (generate_too_many_components "in" "out" 1 94 (-1) demo_world
           demo_model).
  - simpl. apply elem_of_singleton. reflexivity.
  - right. reflexivity.
  - lia.
  - lia.
  - left. reflexivity.
  - reflexivity.
  - reflexivity.
  - vm_compute. lia.
Defined.

(** ** The orchestration: all files or none *)

Lemma broadcast_rows_nrows (op : R -> R -> R) (m m' : matrix) (v : vector) :
  broadcast_rows op m v = Ok m' -> nrows m' = nrows m.
Proof.
  unfold broadcast_rows. destruct (broadcast_dim _ _); [| discriminate].
  intros H. inversion H; subst. unfold nrows. simpl. apply length_map.
Qed.

Lemma reconstruct_nrows (s c p : matrix) (m : vector) :
  reconstruct s c m = Ok p -> nrows p = nrows s.
Proof.
  unfold reconstruct, matmul. destruct (ncols s =? nrows c)%nat;
    [| discriminate]. simpl. intros H.
  apply broadcast_rows_nrows in H. rewrite H. unfold nrows. simpl.
  apply length_map.
Qed.

(** One turn of the loop, in full: it depends on the sample only through
    the row it reads, and its success on nothing but the width D of the
    pointclouds and the number V of template vertices. *)
Lemma write_sample_eq (output_path : string) (num_samples : Z) (P : matrix)
    (l : loc) (i : nat) (w : world) (g : vtkUnstructuredGrid) :
  heap w !! l = Some g ->
  matrix_wf P -> (i < nrows P)%nat ->
  write_sample output_path num_samples P l i w
  = match order_of (c_log w) num_samples with
    | Raise e => (Raise e, w)
    | Ok order =>
        if (ncols P mod 3 =? 0)%nat then
          if (length (points g) <=? ncols P / 3)%nat then
            (Ok tt,
             set_written (written w ++ [mesh_event output_path order l P g i])
               (set_heap (<[l := sample_mesh P g i]> (heap w)) w))
          else
            (Raise IndexError,
             set_heap (<[l := overwrite (vertex_of 3 (nth i (rows P) []))
                                 (seq 0 (ncols P / 3)) g]> (heap w)) w)
        else (Raise ValueError, w)
    end.
Proof.
  intros Hg Hwf Hi.
  unfold write_sample, bind, padding_order, lift.
  destruct (order_of (c_log w) num_samples) as [order | e]; [| reflexivity].
  unfold matrix_getitem.
  destruct (lookup_lt_is_Some_2 (rows P) i Hi) as [row Hrow]. rewrite Hrow.
  assert (Hnth : nth i (rows P) [] = row) by now rewrite nth_lookup, Hrow.
  assert (Hlen : length row = ncols P).
  { rewrite <- Hnth. now apply wf_row_length. }
  rewrite Hnth.
  destruct (Nat.eqb_spec (ncols P mod 3) 0) as [Hm | Hm].
  - assert (Hlen3 : length row = (3 * (ncols P / 3))%nat).
    { pose proof (Nat.div_mod_eq (ncols P) 3) as Hdm.
      rewrite Hm, Nat.add_0_r in Hdm. rewrite Hlen. exact Hdm. }
    destruct (as_rows_vertices (NdArray [ncols P] row) (ncols P / 3))
      as [Hrows _].
    { unfold ndarray_wf. cbn [shape data foldr]. lia. }
    { right. split; [unfold ndim; cbn [shape length]; lia | exact Hlen3]. }
    cbn [data] in Hrows.
    destruct (Nat.leb_spec (length (points g)) (ncols P / 3)) as [HV | HV].
    + rewrite (pointcloud2surface_ok _ l w g (ncols P / 3) 3 row)
        by (auto; lia).
      unfold write_vtk_file. cbn [heap set_heap]. rewrite lookup_insert_eq.
      unfold mesh_event, sample_mesh. now rewrite Hnth.
    + now rewrite (pointcloud2surface_short _ l w g (ncols P / 3) 3 row)
        by (auto; lia).
  - rewrite pointcloud2surface_unfold. unfold as_rows, ndim, np_reshape_rows3.
    change (negb (length (shape (NdArray [ncols P] row)) =? 2)%nat) with true.
    cbn [data]. rewrite Hlen.
    destruct (Nat.eqb_spec (ncols P mod 3) 0); [contradiction | reflexivity].
Qed.

(** The loop when the pointclouds fit the template. *)
Lemma write_loop_fits (output_path : string) (num_samples : Z) (P : matrix)
    (l : loc) (order : Z) (idxs : list nat) :
  matrix_wf P ->
  (ncols P mod 3 = 0)%nat ->
  (forall i, In i idxs -> (i < nrows P)%nat) ->
  forall (w : world) (g : vtkUnstructuredGrid),
    heap w !! l = Some g ->
    order_of (c_log w) num_samples = Ok order ->
    (length (points g) <= ncols P / 3)%nat ->
    for_each idxs (write_sample output_path num_samples P l) w
    = (Ok tt,
       let events := map (mesh_event output_path order l P g) idxs in
       set_written (written w ++ events)
         (set_heap (<[l := final_grid g events]> (heap w)) w)).
Proof.
  intros Hwf Hm. induction idxs as [| i idxs IH]; intros Hall w g Hg Hord HV.
  - simpl. unfold ret, final_grid. simpl.
    rewrite app_nil_r, insert_id by exact Hg. now destruct w.
  - simpl. unfold bind.
    rewrite (write_sample_eq _ _ _ _ _ _ g) by (auto; apply Hall; now left).
    rewrite Hord, Hm. change (0 =? 0)%nat with true. cbv iota.
    destruct (Nat.leb_spec (length (points g)) (ncols P / 3)); [| lia].
    destruct (sample_mesh_keeps P g i) as [Hc1 [Hl1 Ht1]].
    rewrite (IH (fun j Hj => Hall j (or_intror Hj)) _ (sample_mesh P g i));
      [| simpl; apply lookup_insert_eq | exact Hord | rewrite Hl1; lia].
    cbv zeta. rewrite final_grid_cons. simpl.
    assert (Hev : map (mesh_event output_path order l P (sample_mesh P g i)) idxs
                  = map (mesh_event output_path order l P g) idxs).
    { apply map_ext. intros j. unfold mesh_event.
      now rewrite (sample_mesh_rebase P g (sample_mesh P g i) j). }
    rewrite Hev. unfold set_written, set_heap. simpl.
    now rewrite insert_insert_eq, <- app_assoc.
Qed.

(** The loop writes every file or none. *)
Lemma write_loop_all_or_nothing (output_path : string) (num_samples : Z)
    (P : matrix) (l : loc) (idxs : list nat) (w w' : world)
    (g : vtkUnstructuredGrid) (r : result unit) :
  matrix_wf P ->
  (forall i, In i idxs -> (i < nrows P)%nat) ->
  heap w !! l = Some g ->
  for_each idxs (write_sample output_path num_samples P l) w = (r, w') ->
  written w' = written w
  \/ (r = Ok tt
      /\ exists events, written w' = written w ++ events
                        /\ length events = length idxs).
Proof.
  intros Hwf Hall Hg Hrun.
  destruct idxs as [| i idxs].
  { simpl in Hrun. unfold ret in Hrun. inversion Hrun; subst. now left. }
  destruct (order_of (c_log w) num_samples) as [order | e] eqn:Hord.
  2: { simpl in Hrun. unfold bind in Hrun.
       rewrite (write_sample_eq _ _ _ _ _ _ g) in Hrun
         by (auto; apply Hall; now left).
       rewrite Hord in Hrun. inversion Hrun; subst. now left. }
  destruct (Nat.eqb_spec (ncols P mod 3) 0) as [Hm | Hm].
  2: { simpl in Hrun. unfold bind in Hrun.
       rewrite (write_sample_eq _ _ _ _ _ _ g) in Hrun
         by (auto; apply Hall; now left).
       rewrite Hord in Hrun.
       destruct (Nat.eqb_spec (ncols P mod 3) 0); [contradiction |].
       inversion Hrun; subst. now left. }
  destruct (Nat.leb_spec (length (points g)) (ncols P / 3)) as [HV | HV].
  - rewrite (write_loop_fits _ _ _ _ order _ Hwf Hm Hall w g Hg Hord HV)
      in Hrun.
    inversion Hrun; subst. right. split; [reflexivity |].
    exists (map (mesh_event output_path order l P g) (i :: idxs)).
    split; [reflexivity |]. apply length_map.
  - simpl in Hrun. unfold bind in Hrun.
    rewrite (write_sample_eq _ _ _ _ _ _ g) in Hrun
      by (auto; apply Hall; now left).
    rewrite Hord, Hm in Hrun. change (0 =? 0)%nat with true in Hrun.
    cbv iota in Hrun.
    destruct (Nat.leb_spec (length (points g)) (ncols P / 3)); [lia |].
    inversion Hrun; subst. now left.
Qed.

Lemma nth_take_lt (v : vector) (k j : nat) :
  (j < k)%nat -> nth j (take k v) 0%R = nth j v 0%R.
Proof. intros Hj. now rewrite !nth_lookup, lookup_take_lt by exact Hj. Qed.

Lemma entry_matrix_take (m : matrix) (k i j : nat) :
  (i < k)%nat -> entry (matrix_take k m) i j = entry m i j.
Proof.
  intros Hi. unfold entry, matrix_take. cbn [rows].
  now rewrite !nth_lookup, lookup_take_lt by exact Hi.
Qed.

(** A run on checked arguments and a model whose shapes agree gets as far
    as the loop over the samples, with the pointclouds that the draws and
    the model determine: entry [(i, j)] is the sum over the first
    [num_components] components of the saturated draw [(i, k)] times
    [sqrt(explained_variance[k])] times [components[k, j]], plus
    [mean[j]]. *)
Lemma generate_reaches_loop (input_path output_path : string)
    (num_samples num_components : Z) (boundary : R) (w : world)
    (f : pca_model) :
  let l := fresh (dom (heap w)) in
  let template := default empty_grid (vtk_files w !! input_path) in
  let K := Z.to_nat num_components in
  input_path ∈ fs w ->
  mkdir_passes output_path w ->
  0 < num_samples ->
  0 < num_components < 95 ->
  (boundary = -1 \/ 0 < boundary <= 5)%R ->
  h5_files w !! input_path = Some f ->
  (K <= nrows (components f))%nat ->
  (K <= length (explained_variance f))%nat ->
  length (mean f) = ncols (components f) ->
  exists P,
    mshape P = (Z.to_nat num_samples, ncols (components f))
    /\ matrix_wf P
    /\ (forall i j, (i < Z.to_nat num_samples)%nat ->
                    (j < ncols (components f))%nat ->
          entry P i j
          = (sum_upto K (fun k =>
               saturate boundary (draw w K i k)
               * sqrt (nth k (explained_variance f) 0)
               * entry (components f) k j)
             + nth j (mean f) 0)%R)
    /\ generate_synthetic_mesh input_path output_path num_samples
         num_components boundary w
       = match for_each (seq 0 (Z.to_nat num_samples))
                 (write_sample output_path num_samples P l)
                 (set_rng (fun t => rng w (Z.to_nat num_samples * K + t)%nat)
                    (set_heap (<[l := template]> (heap w))
                       (after_mkdir output_path w)))
         with
         | (Ok _, w4) => (Ok PyNone, w4)
         | (Raise e, w4) => (Raise e, w4)
         end.
Proof.
  intros l template K Hin Hpass Hn Hk Hb Hf HkC Hkev Hmean.
  rewrite generate_passes by assumption.
  destruct (after_mkdir_frame output_path w) as [Hh [Hwr [Hlog [Hvtk Hh5]]]].
  pose proof (after_mkdir_rng output_path w) as Hrng.
  set (w1 := after_mkdir output_path w) in *.
  unfold synthesize, bind, load_h5py, load_mean_vtk, lift, ret.
  rewrite Hh5, Hf, Hh, Hvtk. fold l template.
  set (w2 := set_heap (<[l := template]> (heap w)) w1).
  fold K.
  destruct (sample_entries num_samples num_components
              (take K (explained_variance f)) boundary w2)
    as [S [Es [Hs [_ HeS]]]]; [lia | lia | rewrite length_take; lia |].
  fold K in HeS, Hs, Es.
  rewrite Es. destruct (mshape_inv _ _ _ Hs) as [HrS HcS].
  assert (HKrows : nrows (matrix_take K (components f)) = K).
  { unfold matrix_take, nrows. cbn [rows]. rewrite length_take.
    unfold nrows in HkC. lia. }
  destruct (reconstruct_entries_sum S (matrix_take K (components f)) (mean f))
    as [P [EP [HsP HeP]]]; [exact Hmean | lia |].
  rewrite EP. cbn [matrix_take ncols] in HsP, HeP. rewrite HrS in HsP, HeP.
  exists P. split; [exact HsP |]. split; [exact (reconstruct_wf _ _ _ _ EP) |].
  split.
  - intros i j Hi Hj. rewrite (HeP i j Hi Hj), HKrows. f_equal.
    apply sum_upto_ext. intros k Hk'.
    rewrite (HeS i k Hi Hk'), nth_take_lt, entry_matrix_take by exact Hk'.
    unfold draw. change (rng w2) with (rng w1). now rewrite Hrng.
  - change (rng w2) with (rng w1). rewrite Hrng. reflexivity.
Qed.

(** X14. What decides a run on checked arguments, a readable template of
    V >= 1 vertices and a consistent model (at most C components asked for,
    non-negative variances, [mean] of length D) is the width D of the model
    against V. If [math.log] fails, or D is not a multiple of 3, or
    D / 3 < V, the run raises (the error of the logarithm, [ValueError],
    [IndexError]) at the first sample and no file is written. If D is a
    multiple of 3 and V <= D / 3, the run returns [None], has taken
    [num_samples * num_components] draws, and has written one file per
    sample in index order, the file of sample [i] holding the first V
    triples of pointcloud [i]; entry [j] of that pointcloud is the sum over
    the components [k] asked for of the saturated draw [(i, k)] times
    [sqrt(explained_variance[k])] times [components[k, j]], plus
    [mean[j]]. *)
Theorem generate_outcome (input_path output_path : string)
    (num_samples num_components : Z) (boundary : R) (w : world)
    (f : pca_model) (template : vtkUnstructuredGrid) :
  let l := fresh (dom (heap w)) in
  let K := Z.to_nat num_components in
  let D := ncols (components f) in
  let V := length (points template) in
  let run := generate_synthetic_mesh input_path output_path num_samples
               num_components boundary w in
  input_path ∈ fs w ->
  mkdir_passes output_path w ->
  0 < num_samples ->
  0 < num_components < 95 ->
  (boundary = -1 \/ 0 < boundary <= 5)%R ->
  h5_files w !! input_path = Some f ->
  vtk_files w !! input_path = Some template ->
  (0 < V)%nat ->
  (K <= nrows (components f))%nat ->
  (K <= length (explained_variance f))%nat ->
  Forall (fun v => 0 <= v)%R (explained_variance f) ->
  length (mean f) = D ->
  (forall e, order_of (c_log w) num_samples = Raise e ->
     exists w', run = (Raise e, w') /\ written w' = written w)
  /\ (forall order, order_of (c_log w) num_samples = Ok order ->
        ((D mod 3 <> 0)%nat ->
           exists w', run = (Raise ValueError, w') /\ written w' = written w)
        /\ ((D mod 3 = 0)%nat -> (D / 3 < V)%nat ->
              exists w', run = (Raise IndexError, w')
                         /\ written w' = written w)
        /\ ((D mod 3 = 0)%nat -> (V <= D / 3)%nat ->
              exists P w',
                run = (Ok PyNone, w')
                /\ mshape P = (Z.to_nat num_samples, D)
                /\ (forall i j, (i < Z.to_nat num_samples)%nat -> (j < D)%nat ->
                      entry P i j
                      = (sum_upto K (fun k =>
                           saturate boundary (draw w K i k)
                           * sqrt (nth k (explained_variance f) 0)
                           * entry (components f) k j)
                         + nth j (mean f) 0)%R)
                /\ written w'
                   = written w
                     ++ map (mesh_event output_path order l P template)
                            (seq 0 (Z.to_nat num_samples))
                /\ (forall t, rng w' t
                              = rng w (Z.to_nat num_samples * K + t)%nat))).
Proof.
  intros l K D V run Hin Hpass Hn Hk Hb Hf Hvtk HV0 HkC Hkev _ Hmean.
  destruct (generate_reaches_loop input_path output_path num_samples
              num_components boundary w f Hin Hpass Hn Hk Hb Hf HkC Hkev Hmean)
    as [P [HsP [Hwf [Hent Hrun]]]].
  rewrite Hvtk in Hrun.
  change (default empty_grid (Some template)) with template in Hrun.
  fold l K in Hrun. subst run. rewrite Hrun. clear Hrun.
  destruct (mshape_inv _ _ _ HsP) as [HrP HcP]. fold D in HcP.
  destruct (after_mkdir_frame output_path w) as [_ [Hwr [Hlog _]]].
  set (w3 := set_rng _ _).
  assert (Hg : heap w3 !! l = Some template).
  { unfold w3. simpl. apply lookup_insert_eq. }
  assert (Hlog3 : c_log w3 = c_log w) by (unfold w3; simpl; exact Hlog).
  assert (Hwr3 : written w3 = written w) by (unfold w3; simpl; exact Hwr).
  assert (Hseq : seq 0 (Z.to_nat num_samples)
                 = 0%nat :: seq 1 (Z.to_nat num_samples - 1)).
  { destruct (Z.to_nat num_samples) as [| n'] eqn:Hn'; [lia |].
    simpl. now rewrite Nat.sub_0_r. }
  assert (Hfirst : write_sample output_path num_samples P l 0 w3 = _)
    by (apply (write_sample_eq _ _ _ _ _ _ template Hg Hwf); lia).
  rewrite Hlog3, HcP in Hfirst. fold V in Hfirst.
  split.
  - intros e He. rewrite Hseq. simpl. unfold bind.
    rewrite Hfirst, He. eauto.
  - intros order Hord. rewrite Hord in Hfirst. split; [| split].
    + intros Hm. rewrite Hseq. simpl. unfold bind. rewrite Hfirst.
      destruct (Nat.eqb_spec (D mod 3) 0); [contradiction |]. eauto.
    + intros Hm HV. rewrite Hseq. simpl. unfold bind. rewrite Hfirst, Hm.
      change (0 =? 0)%nat with true. cbv iota.
      destruct (Nat.leb_spec V (D / 3)); [lia |].
      eexists. split; [reflexivity |]. exact Hwr3.
    + intros Hm HV.
      rewrite (write_loop_fits output_path num_samples P l order _ Hwf)
        with (g := template);
        [| now rewrite HcP
         | intros i Hi; apply in_seq in Hi; lia
         | exact Hg | now rewrite Hlog3 | rewrite HcP; exact HV].
      exists P. eexists. split; [reflexivity |]. cbv zeta. simpl.
      split; [exact HsP |]. split; [exact Hent |].
      split; [now rewrite Hwr | intros t; reflexivity].
Qed.

Lemma generate_outcome_witness :
  exists P w',
    generate_synthetic_mesh "in" "out" 10 2 (-1)
      (set_rng (rng ramp_world) demo_world) = (Ok PyNone, w')
    /\ mshape P = (10%nat, 6%nat)
    /\ (forall i j, (i < 10)%nat -> (j < 6)%nat ->
          entry P i j
          = (sum_upto 2 (fun k =>
               saturate (-1) (draw (set_rng (rng ramp_world) demo_world) 2 i k)
               * sqrt (nth k [4; 1] 0)
               * entry (components demo_model) k j)
             + nth j [0; 0; 0; 1; 1; 1] 0)%R)
    /\ written w'
       = map (mesh_event "out" 2 0%nat P two_vertex_grid) (seq 0 10)
    /\ (forall t, rng w' t = rng ramp_world (10 * 2 + t)%nat).
Proof.
  destruct (generate_outcome "in" "out" 10 2 (-1)
              (set_rng (rng ramp_world) demo_world) demo_model two_vertex_grid)
    as [_ Hok].
  - simpl. apply elem_of_singleton. reflexivity.
  - right. reflexivity.
  - lia.
  - lia.
  - left. reflexivity.
  - reflexivity.
  - reflexivity.
  - simpl. lia.
  - vm_compute. lia.
  - vm_compute. lia.
  - repeat constructor; lra.
  - reflexivity.
  - destruct (Hok 2) as [_ [_ Hfit]].
    + vm_compute. reflexivity.
    + apply Hfit; [reflexivity | vm_compute; lia].
Defined.

Lemma synthesize_all_or_nothing (input_path output_path : string)
    (num_samples num_components : Z) (boundary : R) (w w' : world)
    (r : result pyval) :
  0 < num_samples -> 0 <= num_components ->
  synthesize input_path output_path num_samples num_components boundary w
  = (r, w') ->
  written w' = written w
  \/ (r = Ok PyNone
      /\ exists events, written w' = written w ++ events
                        /\ length events = Z.to_nat num_samples).
Proof.
  intros Hn Hk Hrun.
  unfold synthesize, bind, load_h5py, load_mean_vtk, lift, ret in Hrun.
  destruct (h5_files w !! input_path) as [f |];
    [| inversion Hrun; subst; now left].
  set (l := fresh (dom (heap w))) in Hrun.
  set (template := default empty_grid (vtk_files w !! input_path)) in Hrun.
  set (w2 := set_heap (<[l := template]> (heap w)) w) in Hrun.
  destruct (sample_unfold num_samples num_components
              (take (Z.to_nat num_components) (explained_variance f))
              boundary w2) as [m0 [Hs0 [_ [_ E]]]]; [lia | lia |].
  destruct (mshape_inv _ _ _ Hs0) as [Hr0 _].
  rewrite E in Hrun.
  destruct (broadcast_rows Rmult m0 _) as [S | e] eqn:ES;
    [| inversion Hrun; subst; now left].
  apply broadcast_rows_nrows in ES.
  destruct (reconstruct S _ (mean f)) as [P | e] eqn:EP;
    [| inversion Hrun; subst; now left].
  pose proof (reconstruct_wf _ _ _ _ EP) as Hwf.
  apply reconstruct_nrows in EP.
  set (w3 := set_rng _ w2) in Hrun.
  assert (Hg : heap w3 !! l = Some template).
  { unfold w3, w2. simpl. apply lookup_insert_eq. }
  destruct (for_each _ _ w3) as [r0 w4] eqn:Hloop.
  assert (Hall : forall i, In i (seq 0 (Z.to_nat num_samples)) ->
                           (i < nrows P)%nat).
  { intros i Hi. apply in_seq in Hi. lia. }
  destruct (write_loop_all_or_nothing _ _ _ _ _ _ _ _ _ Hwf Hall Hg Hloop)
    as [Hsame | [-> [events [Hev Hlen]]]].
  - left. destruct r0; inversion Hrun; subst; exact Hsame.
  - inversion Hrun; subst. right. split; [reflexivity |].
    exists events. split; [exact Hev |]. now rewrite Hlen, length_seq.
Qed.

(** X15. All files or none: however a call of [generate_synthetic_mesh]
    ends, on whatever arguments and files, it has either written nothing,
    or it has returned [None] and written exactly [num_samples] files. An
    exception never leaves part of a batch behind. *)
Theorem generate_all_or_nothing (input_path output_path : string)
    (num_samples num_components : Z) (boundary : R) (w w' : world)
    (r : result pyval) :
  generate_synthetic_mesh input_path output_path num_samples num_components
    boundary w = (r, w') ->
  written w' = written w
  \/ (r = Ok PyNone
      /\ exists events, written w' = written w ++ events
                        /\ length events = Z.to_nat num_samples).
Proof.
  intros Hrun.
  destruct (decide (input_path ∈ fs w)) as [Hin | Hin].
  2: { rewrite generate_no_input in Hrun by exact Hin.
       inversion Hrun; subst. now left. }
  destruct (decide (mkdir_passes output_path w)) as [Hpass | Hno].
  2: { assert (Ho : output_path ∉ fs w) by (intros H; apply Hno; now left).
       assert (Hok : mkdir_ok w output_path = false).
       { destruct (mkdir_ok w output_path) eqn:E; [| reflexivity].
         exfalso. apply Hno. now right. }
       rewrite generate_mkdir_refused in Hrun by assumption.
       inversion Hrun; subst. now left. }
  destruct (after_mkdir_frame output_path w) as [_ [Hwr _]].
  destruct (decide (num_samples <= 0 \/ num_components <= 0
                    \/ 95 <= num_components
                    \/ ~ (boundary = -1 \/ 0 < boundary <= 5)%R))
    as [Hbad | Hgood].
  - destruct (generate_fails input_path output_path num_samples num_components
                boundary w Hin Hpass Hbad) as [r0 Hr].
    rewrite Hr in Hrun. inversion Hrun; subst. left. exact Hwr.
  - assert (Hb : (boundary = -1 \/ 0 < boundary <= 5)%R).
    { destruct (boundary_ok boundary) eqn:Hb; [now apply boundary_ok_spec |].
      apply boundary_ok_false in Hb. tauto. }
    rewrite generate_passes in Hrun by (auto; lia).
    apply synthesize_all_or_nothing in Hrun; [| lia | lia].
    now rewrite Hwr in Hrun.
Qed.

Lemma generate_all_or_nothing_witness :
  written (snd (generate_synthetic_mesh "in" "out" 10 94 3 demo_world))
  = written demo_world
  \/ (fst (generate_synthetic_mesh "in" "out" 10 94 3 demo_world) = Ok PyNone
      /\ exists events,
           written (snd (generate_synthetic_mesh "in" "out" 10 94 3 demo_world))
           = written demo_world ++ events
           /\ length events = Z.to_nat 10).
Proof.
  apply (generate_all_or_nothing "in" "out" 10 94 3 demo_world).
  apply surjective_pairing.
Defined.

(** ** The orchestration: file names, read back *)

Lemma int_of_digits_zero (s : string) :
  int_of_digits (String "0"%char s) = int_of_digits s.
Proof.
  unfold int_of_digits. simpl.
  destruct (NilEmpty.uint_of_string s); reflexivity.
Qed.

Lemma int_of_digits_pad_zeros (k : nat) (s : string) :
  int_of_digits (pad_zeros k s) = int_of_digits s.
Proof.
  induction k as [| k IH]; simpl; [reflexivity |].
  now rewrite int_of_digits_zero.
Qed.

Lemma int_of_digits_str (i : nat) : int_of_digits (str i) = Some i.
Proof.
  unfold int_of_digits, str. rewrite NilEmpty.usu. simpl.
  now rewrite DecimalNat.Unsigned.of_to.
Qed.

Lemma string_length_append (a b : string) :
  String.length (String.append a b) = (String.length a + String.length b)%nat.
Proof. induction a as [| c a IH]; simpl; [reflexivity | now rewrite IH]. Qed.

Lemma substring_prefix (a b : string) :
  String.substring 0 (String.length a) (String.append a b) = a.
Proof.
  induction a as [| c a IH]; simpl.
  - now destruct b.
  - now rewrite IH.
Qed.

Lemma zfill_str_digits (i : nat) (order : Z) :
  int_of_digits (zfill (str i) order) = Some i.
Proof.
  unfold zfill. destruct (order <=? _).
  - apply int_of_digits_str.
  - rewrite int_of_digits_pad_zeros. apply int_of_digits_str.
Qed.

Lemma sample_index_file_name (i : nat) (order : Z) :
  sample_index (file_name i order) = Some i.
Proof.
  unfold sample_index, file_name.
  set (mid := zfill (str i) order).
  rewrite !string_length_append.
  change (String.length "synthetic") with 9%nat.
  change (String.length ".vtk") with 4%nat.
  replace (9 + (String.length mid + 4) - 13)%nat with (String.length mid) by lia.
  change (String.substring 9 (String.length mid)
            (String.append "synthetic" (String.append mid ".vtk")))
    with (String.substring 0 (String.length mid) (String.append mid ".vtk")).
  rewrite substring_prefix. apply zfill_str_digits.
Qed.

(** X16. The index written into a file name can be read back from it,
    whatever the padding width: [int(name[9:-4])] of the name of sample [i]
    is [i]. In particular [zfill] never cuts digits off when the width is
    too small, so two samples never share a name. *)
Theorem file_name_round_trip (i j : nat) (order : Z) :
  int_of_digits (zfill (str i) order) = Some i
  /\ sample_index (file_name i order) = Some i
  /\ (file_name i order = file_name j order -> i = j).
Proof.
  split; [apply zfill_str_digits |]. split; [apply sample_index_file_name |].
  intros H. pose proof (sample_index_file_name i order) as Hi.
  rewrite H, sample_index_file_name in Hi. now inversion Hi.
Qed.

Lemma file_name_not_input (i : nat) (order : Z) :
  file_name i order <> "SSM.h5"%string
  /\ file_name i order <> "mean_shape.vtk"%string.
Proof. unfold file_name. simpl. split; discriminate. Qed.

(** X17. In a run that completes, the file of sample [k] is the [k]-th one
    written, it goes to the output directory, and its name reads back as
    [k]; so the [num_samples] names are pairwise distinct, and none of them
    is the name of an input file ([SSM.h5], [mean_shape.vtk]), even when
    the output directory is the input directory. *)
Theorem generate_names_distinct (input_path output_path : string)
    (num_samples num_components : Z) (boundary : R) (w w' : world) :
  generate_synthetic_mesh input_path output_path num_samples num_components
    boundary w = (Ok PyNone, w') ->
  exists events,
    written w' = written w ++ events
    /\ length events = Z.to_nat num_samples
    /\ (forall k e, events !! k = Some e ->
          w_dir e = output_path
          /\ sample_index (w_name e) = Some k
          /\ w_name e <> "SSM.h5"%string
          /\ w_name e <> "mean_shape.vtk"%string)
    /\ NoDup (map w_name events).
Proof.
  intros Hrun. apply generate_inv in Hrun.
  destruct Hrun as [[Hv _] | [_ [_ [_ [_ [_ Hsyn]]]]]]; [discriminate |].
  apply synthesize_inv in Hsyn.
  destruct (after_mkdir_frame output_path w) as [_ [Hwr _]].
  destruct Hsyn as [_ [P [events [rng' [Hev Hw']]]]].
  assert (Hk : forall k e, events !! k = Some e ->
            w_dir e = output_path
            /\ sample_index (w_name e) = Some k
            /\ w_name e <> "SSM.h5"%string
            /\ w_name e <> "mean_shape.vtk"%string).
  { intros k e He.
    destruct (Forall2_lookup_r _ _ _ _ _ Hev He)
      as [i [Hi [Hd [_ [[order [_ Hname]] _]]]]].
    apply lookup_seq in Hi. destruct Hi as [-> _]. simpl.
    rewrite Hname. split; [exact Hd |].
    split; [apply sample_index_file_name | apply file_name_not_input]. }
  exists events. split; [now rewrite Hw', <- Hwr |].
  split; [| split; [exact Hk |]].
  - apply Forall2_length in Hev. now rewrite <- Hev, length_seq.
  - apply NoDup_alt. intros i j x Hi Hj.
    change (map w_name events) with (w_name <$> events) in Hi, Hj.
    apply list_lookup_fmap_Some in Hi. destruct Hi as [ei [-> Hei]].
    apply list_lookup_fmap_Some in Hj. destruct Hj as [ej [Hx Hej]].
    destruct (Hk _ _ Hei) as [_ [Hsi _]].
    destruct (Hk _ _ Hej) as [_ [Hsj _]].
    rewrite Hx in Hsi. rewrite Hsi in Hsj. now inversion Hsj.
Qed.

Lemma generate_names_distinct_witness :
  exists w' events,
    generate_synthetic_mesh "in" "out" 1 2 (-1) demo_world = (Ok PyNone, w')
    /\ written w' = written demo_world ++ events
    /\ length events = Z.to_nat 1
    /\ (forall k e, events !! k = Some e ->
          w_dir e = "out"%string
          /\ sample_index (w_name e) = Some k
          /\ w_name e <> "SSM.h5"%string
          /\ w_name e <> "mean_shape.vtk"%string)
    /\ NoDup (map w_name events).
Proof.
  destruct demo_run_succeeds as [w' [e [Hrun _]]].
  destruct (generate_names_distinct "in" "out" 1 2 (-1) demo_world w' Hrun)
    as [events H].
  exists w', events. split; [exact Hrun | exact H].
Defined.

(** ** The reconstruction: dropping components *)

Lemma dot_pad_zeros (r c : vector) (k : nat) :
  dot (r ++ replicate k 0%R) c = dot r (take (length r) c).
Proof.
  revert c. induction r as [| x r IH]; intros c.
  - simpl. rewrite dot_zeros. now rewrite take_0.
  - destruct c as [| y c]; [reflexivity |].
    unfold dot in *. simpl. now rewrite IH.
Qed.

Lemma column_matrix_take (k j : nat) (m : matrix) :
  column (matrix_take k m) j = take k (column m j).
Proof.
  unfold column, matrix_take. simpl.
  generalize (rows m) as l. induction k as [| k IH]; intros l.
  - now rewrite !take_0.
  - destruct l as [| r l]; [reflexivity |]. simpl. now rewrite IH.
Qed.

(** X18. Cutting the model down to its first K components gives the same
    point clouds as keeping all C components and giving the dropped ones a
    coefficient of zero: [samples @ components[:K] + mean] agrees, entry by
    entry, with [padded @ components + mean], where [padded] is [samples]
    with C - K columns of zeros added. *)
Theorem truncation_is_zero_padding (samples components : matrix)
    (mean : vector) (K : nat) :
  matrix_wf samples ->
  ncols samples = K ->
  (K <= nrows components)%nat ->
  length mean = ncols components ->
  exists P P',
    reconstruct samples (matrix_take K components) mean = Ok P
    /\ reconstruct (pad_columns (nrows components - K) samples) components mean
       = Ok P'
    /\ mshape P = (nrows samples, ncols components)
    /\ mshape P' = (nrows samples, ncols components)
    /\ forall i j, (i < nrows samples)%nat -> (j < ncols components)%nat ->
         entry P i j = entry P' i j.
Proof.
  intros Hwf HK HKC Hmean.
  destruct (reconstruct_entries samples (matrix_take K components) mean)
    as [P [EP [HsP HeP]]]; [exact Hmean | |].
  { unfold matrix_take, nrows. simpl. rewrite length_take.
    unfold nrows in HKC. lia. }
  destruct (reconstruct_entries (pad_columns (nrows components - K) samples)
              components mean) as [P' [EP' [HsP' HeP']]];
    [exact Hmean | unfold pad_columns; cbn [ncols]; lia |].
  assert (Hrows : nrows (pad_columns (nrows components - K) samples)
                  = nrows samples).
  { unfold pad_columns, nrows. simpl. apply length_map. }
  rewrite Hrows in HsP', HeP'.
  exists P, P'. repeat (split; [assumption |]).
  intros i j Hi Hj. rewrite (HeP i j Hi Hj), (HeP' i j Hi Hj). f_equal.
  unfold pad_columns. simpl.
  rewrite (nth_map_lt _ _ _ _ []) by exact Hi.
  rewrite dot_pad_zeros, column_matrix_take.
  now rewrite (wf_row_length samples i Hwf Hi), HK.
Qed.

Lemma truncation_is_zero_padding_witness :
  exists P P',
    reconstruct (Matrix 1 [[2]; [3]]%R) (matrix_take 1 (components demo_model))
      (mean demo_model) = Ok P
    /\ reconstruct (pad_columns (nrows (components demo_model) - 1)
                      (Matrix 1 [[2]; [3]]%R))
         (components demo_model) (mean demo_model) = Ok P'
    /\ mshape P = (nrows (Matrix 1 [[2]; [3]]%R), ncols (components demo_model))
    /\ mshape P' = (nrows (Matrix 1 [[2]; [3]]%R), ncols (components demo_model))
    /\ forall i j, (i < nrows (Matrix 1 [[2]; [3]]%R))%nat ->
                   (j < ncols (components demo_model))%nat ->
         entry P i j = entry P' i j.
Proof.
  apply (truncation_is_zero_padding (Matrix 1 [[2]; [3]]%R)
           (components demo_model) (mean demo_model) 1).
  - repeat constructor.
  - reflexivity.
  - vm_compute. lia.
  - reflexivity.
Defined.

(** ** The example script *)

(** X19. [example.py] cannot run: it calls [gsm.generate_surface_mesh], a
    name the module does not bind (the function is
    [generate_synthetic_mesh]), so the attribute lookup raises
    [AttributeError] before anything is read, printed or written. *)
Theorem example_py_fails (w : world) :
  example_py w = (Raise AttributeError, w)
  /\ gsm_getattr "generate_synthetic_mesh" = Ok Gsm_generate_synthetic_mesh.
Proof. split; reflexivity. Qed.
